(** * NECB table extraction and repair pipeline: shallow embedding

    A verification development for the hybrid table-extraction pipeline of
    [bluesky.mcp.scrapers.necb]: the fast extractor and its validator
    ([parser_v2/pymupdf_extractor.py]), the layout normaliser
    ([parser_v2/marker_extractor.py]), the schema registry
    ([parser_v2/schemas.py]), the repair engine ([parser_v2/llm_repair.py]) and
    the table cleaner and metadata extractor ([necb_pdf_parser.py]).

    Conventions of the embedding.
    - A Python [str] is a [pystr]: the list of its characters, each character
      being its Unicode code point.  Lengths and offsets count characters.
      The character classes behind [strip], [isdigit], [lower] and the
      classes [\s] and [\d] of [re] are those of Unicode 14.0.0, the
      character database of CPython 3.11; they are tabulated in [Unicode].
    - A literal of the sources is written [py "..."], which reads the UTF-8
      text between the quotes into its characters.
    - Printing under [verbose] has no part in any result and is left out.
    - A Python [int] is a [Z]; a Python [float] is a primitive binary64
      [float], so the products and comparisons of the source are computed
      exactly as the interpreter computes them.
    - A Python [dict] is a [gmap]; a Python list is a [list].
    - Code that can raise returns a [pyresult]; [try]/[except] is a match on
      it. *)

From Stdlib Require Import ZArith NArith List String Ascii Bool Lia Floats DecimalString.
From stdpp Require Import gmap.
Import ListNotations.

Local Open Scope list_scope.

(* Decimal literals such as 0.7 denote the nearest binary64 value, as in Python. *)
Set Warnings "-inexact-float,-register-all".

(** ** Characters and strings *)

(** A character is its code point. *)
Definition char : Type := N.

Definition pystr : Type := list char.

(** The character of an ASCII literal. *)
Definition chr (a : ascii) : char := N_of_ascii a.

(** The six payload bits of a UTF-8 continuation byte. *)
Definition continuation (a : ascii) : N := (N_of_ascii a mod 64)%N.

(** The characters of a literal, read from its UTF-8 bytes. *)
Fixpoint py (s : string) : pystr :=
  match s with
  | EmptyString => []
  | String a s1 =>
      let b := N_of_ascii a in
      if (b <? 192)%N then b :: py s1
      else
        match s1 with
        | EmptyString => [b]
        | String a1 s2 =>
            if (b <? 224)%N then ((b - 192) * 64 + continuation a1)%N :: py s2
            else
              match s2 with
              | EmptyString => [b]
              | String a2 s3 =>
                  if (b <? 240)%N
                  then ((b - 224) * 4096 + continuation a1 * 64 + continuation a2)%N
                       :: py s3
                  else
                    match s3 with
                    | EmptyString => [b]
                    | String a3 s4 =>
                        ((b - 240) * 262144 + continuation a1 * 4096
                         + continuation a2 * 64 + continuation a3)%N :: py s4
                    end
              end
        end
  end.

(** ** The character database *)

Module Unicode.

Definition in_ranges (ranges : list (N * N)) (c : char) : bool :=
  existsb (fun r => (fst r <=? c)%N && (c <=? snd r)%N) ranges.

(** White space: [str.isspace] on one character, and the class [\s] of [re]. *)
Definition space_ranges : list (N * N) :=
  [ (9, 13); (28, 32); (133, 133); (160, 160); (5760, 5760); (8192, 8202); (8232, 8233);
    (8239, 8239); (8287, 8287); (12288, 12288) ]%N.

(** Decimal digits: the class [\d] of [re]. *)
Definition decimal_ranges : list (N * N) :=
  [ (48, 57); (1632, 1641); (1776, 1785); (1984, 1993); (2406, 2415); (2534, 2543);
    (2662, 2671); (2790, 2799); (2918, 2927); (3046, 3055); (3174, 3183); (3302, 3311);
    (3430, 3439); (3558, 3567); (3664, 3673); (3792, 3801); (3872, 3881); (4160, 4169);
    (4240, 4249); (6112, 6121); (6160, 6169); (6470, 6479); (6608, 6617); (6784, 6793);
    (6800, 6809); (6992, 7001); (7088, 7097); (7232, 7241); (7248, 7257); (42528, 42537);
    (43216, 43225); (43264, 43273); (43472, 43481); (43504, 43513); (43600, 43609);
    (44016, 44025); (65296, 65305); (66720, 66729); (68912, 68921); (69734, 69743);
    (69872, 69881); (69942, 69951); (70096, 70105); (70384, 70393); (70736, 70745);
    (70864, 70873); (71248, 71257); (71360, 71369); (71472, 71481); (71904, 71913);
    (72016, 72025); (72784, 72793); (73040, 73049); (73120, 73129); (92768, 92777);
    (92864, 92873); (93008, 93017); (120782, 120831); (123200, 123209); (123632, 123641);
    (125264, 125273); (130032, 130041) ]%N.

(** Digits: [str.isdigit] on one character. *)
Definition digit_ranges : list (N * N) :=
  [ (48, 57); (178, 179); (185, 185); (1632, 1641); (1776, 1785); (1984, 1993);
    (2406, 2415); (2534, 2543); (2662, 2671); (2790, 2799); (2918, 2927); (3046, 3055);
    (3174, 3183); (3302, 3311); (3430, 3439); (3558, 3567); (3664, 3673); (3792, 3801);
    (3872, 3881); (4160, 4169); (4240, 4249); (4969, 4977); (6112, 6121); (6160, 6169);
    (6470, 6479); (6608, 6618); (6784, 6793); (6800, 6809); (6992, 7001); (7088, 7097);
    (7232, 7241); (7248, 7257); (8304, 8304); (8308, 8313); (8320, 8329); (9312, 9320);
    (9332, 9340); (9352, 9360); (9450, 9450); (9461, 9469); (9471, 9471); (10102, 10110);
    (10112, 10120); (10122, 10130); (42528, 42537); (43216, 43225); (43264, 43273);
    (43472, 43481); (43504, 43513); (43600, 43609); (44016, 44025); (65296, 65305);
    (66720, 66729); (68160, 68163); (68912, 68921); (69216, 69224); (69714, 69722);
    (69734, 69743); (69872, 69881); (69942, 69951); (70096, 70105); (70384, 70393);
    (70736, 70745); (70864, 70873); (71248, 71257); (71360, 71369); (71472, 71481);
    (71904, 71913); (72016, 72025); (72784, 72793); (73040, 73049); (73120, 73129);
    (92768, 92777); (92864, 92873); (93008, 93017); (120782, 120831); (123200, 123209);
    (123632, 123641); (125264, 125273); (127232, 127242); (130032, 130041) ]%N.

(** Lower-case mappings of one character to one character: the characters [lo],
    [lo + stride], ... up to [hi] map to [target], [target + stride], ...; an entry
    is [(lo, hi, stride, target)]. *)
Definition lower_runs : list (N * N * N * N) :=
  [ (65, 90, 1, 97); (192, 214, 1, 224); (216, 222, 1, 248); (256, 302, 2, 257);
    (306, 310, 2, 307); (313, 327, 2, 314); (330, 374, 2, 331); (376, 376, 1, 255);
    (377, 381, 2, 378); (385, 385, 1, 595); (386, 388, 2, 387); (390, 390, 1, 596);
    (391, 391, 1, 392); (393, 394, 1, 598); (395, 395, 1, 396); (398, 398, 1, 477);
    (399, 399, 1, 601); (400, 400, 1, 603); (401, 401, 1, 402); (403, 403, 1, 608);
    (404, 404, 1, 611); (406, 406, 1, 617); (407, 407, 1, 616); (408, 408, 1, 409);
    (412, 412, 1, 623); (413, 413, 1, 626); (415, 415, 1, 629); (416, 420, 2, 417);
    (422, 422, 1, 640); (423, 423, 1, 424); (425, 425, 1, 643); (428, 428, 1, 429);
    (430, 430, 1, 648); (431, 431, 1, 432); (433, 434, 1, 650); (435, 437, 2, 436);
    (439, 439, 1, 658); (440, 440, 1, 441); (444, 444, 1, 445); (452, 452, 1, 454);
    (453, 453, 1, 454); (455, 455, 1, 457); (456, 456, 1, 457); (458, 458, 1, 460);
    (459, 475, 2, 460); (478, 494, 2, 479); (497, 497, 1, 499); (498, 500, 2, 499);
    (502, 502, 1, 405); (503, 503, 1, 447); (504, 542, 2, 505); (544, 544, 1, 414);
    (546, 562, 2, 547); (570, 570, 1, 11365); (571, 571, 1, 572); (573, 573, 1, 410);
    (574, 574, 1, 11366); (577, 577, 1, 578); (579, 579, 1, 384); (580, 580, 1, 649);
    (581, 581, 1, 652); (582, 590, 2, 583); (880, 882, 2, 881); (886, 886, 1, 887);
    (895, 895, 1, 1011); (902, 902, 1, 940); (904, 906, 1, 941); (908, 908, 1, 972);
    (910, 911, 1, 973); (913, 929, 1, 945); (932, 939, 1, 964); (975, 975, 1, 983);
    (984, 1006, 2, 985); (1012, 1012, 1, 952); (1015, 1015, 1, 1016);
    (1017, 1017, 1, 1010); (1018, 1018, 1, 1019); (1021, 1023, 1, 891);
    (1024, 1039, 1, 1104); (1040, 1071, 1, 1072); (1120, 1152, 2, 1121);
    (1162, 1214, 2, 1163); (1216, 1216, 1, 1231); (1217, 1229, 2, 1218);
    (1232, 1326, 2, 1233); (1329, 1366, 1, 1377); (4256, 4293, 1, 11520);
    (4295, 4295, 1, 11559); (4301, 4301, 1, 11565); (5024, 5103, 1, 43888);
    (5104, 5109, 1, 5112); (7312, 7354, 1, 4304); (7357, 7359, 1, 4349);
    (7680, 7828, 2, 7681); (7838, 7838, 1, 223); (7840, 7934, 2, 7841);
    (7944, 7951, 1, 7936); (7960, 7965, 1, 7952); (7976, 7983, 1, 7968);
    (7992, 7999, 1, 7984); (8008, 8013, 1, 8000); (8025, 8031, 2, 8017);
    (8040, 8047, 1, 8032); (8072, 8079, 1, 8064); (8088, 8095, 1, 8080);
    (8104, 8111, 1, 8096); (8120, 8121, 1, 8112); (8122, 8123, 1, 8048);
    (8124, 8124, 1, 8115); (8136, 8139, 1, 8050); (8140, 8140, 1, 8131);
    (8152, 8153, 1, 8144); (8154, 8155, 1, 8054); (8168, 8169, 1, 8160);
    (8170, 8171, 1, 8058); (8172, 8172, 1, 8165); (8184, 8185, 1, 8056);
    (8186, 8187, 1, 8060); (8188, 8188, 1, 8179); (8486, 8486, 1, 969);
    (8490, 8490, 1, 107); (8491, 8491, 1, 229); (8498, 8498, 1, 8526);
    (8544, 8559, 1, 8560); (8579, 8579, 1, 8580); (9398, 9423, 1, 9424);
    (11264, 11311, 1, 11312); (11360, 11360, 1, 11361); (11362, 11362, 1, 619);
    (11363, 11363, 1, 7549); (11364, 11364, 1, 637); (11367, 11371, 2, 11368);
    (11373, 11373, 1, 593); (11374, 11374, 1, 625); (11375, 11375, 1, 592);
    (11376, 11376, 1, 594); (11378, 11378, 1, 11379); (11381, 11381, 1, 11382);
    (11390, 11391, 1, 575); (11392, 11490, 2, 11393); (11499, 11501, 2, 11500);
    (11506, 11506, 1, 11507); (42560, 42604, 2, 42561); (42624, 42650, 2, 42625);
    (42786, 42798, 2, 42787); (42802, 42862, 2, 42803); (42873, 42875, 2, 42874);
    (42877, 42877, 1, 7545); (42878, 42886, 2, 42879); (42891, 42891, 1, 42892);
    (42893, 42893, 1, 613); (42896, 42898, 2, 42897); (42902, 42920, 2, 42903);
    (42922, 42922, 1, 614); (42923, 42923, 1, 604); (42924, 42924, 1, 609);
    (42925, 42925, 1, 620); (42926, 42926, 1, 618); (42928, 42928, 1, 670);
    (42929, 42929, 1, 647); (42930, 42930, 1, 669); (42931, 42931, 1, 43859);
    (42932, 42946, 2, 42933); (42948, 42948, 1, 42900); (42949, 42949, 1, 642);
    (42950, 42950, 1, 7566); (42951, 42953, 2, 42952); (42960, 42960, 1, 42961);
    (42966, 42968, 2, 42967); (42997, 42997, 1, 42998); (65313, 65338, 1, 65345);
    (66560, 66599, 1, 66600); (66736, 66771, 1, 66776); (66928, 66938, 1, 66967);
    (66940, 66954, 1, 66979); (66956, 66962, 1, 66995); (66964, 66965, 1, 67003);
    (68736, 68786, 1, 68800); (71840, 71871, 1, 71872); (93760, 93791, 1, 93792);
    (125184, 125217, 1, 125218) ]%N.

(** Case-ignorable characters. *)
Definition case_ignorable_ranges : list (N * N) :=
  [ (39, 39); (46, 46); (58, 58); (94, 94); (96, 96); (168, 168); (173, 173); (175, 175);
    (180, 180); (183, 184); (688, 879); (884, 885); (890, 890); (900, 901); (903, 903);
    (1155, 1161); (1369, 1369); (1375, 1375); (1425, 1469); (1471, 1471); (1473, 1474);
    (1476, 1477); (1479, 1479); (1524, 1524); (1536, 1541); (1552, 1562); (1564, 1564);
    (1600, 1600); (1611, 1631); (1648, 1648); (1750, 1757); (1759, 1768); (1770, 1773);
    (1807, 1807); (1809, 1809); (1840, 1866); (1958, 1968); (2027, 2037); (2042, 2042);
    (2045, 2045); (2070, 2093); (2137, 2139); (2184, 2184); (2192, 2193); (2200, 2207);
    (2249, 2306); (2362, 2362); (2364, 2364); (2369, 2376); (2381, 2381); (2385, 2391);
    (2402, 2403); (2417, 2417); (2433, 2433); (2492, 2492); (2497, 2500); (2509, 2509);
    (2530, 2531); (2558, 2558); (2561, 2562); (2620, 2620); (2625, 2626); (2631, 2632);
    (2635, 2637); (2641, 2641); (2672, 2673); (2677, 2677); (2689, 2690); (2748, 2748);
    (2753, 2757); (2759, 2760); (2765, 2765); (2786, 2787); (2810, 2815); (2817, 2817);
    (2876, 2876); (2879, 2879); (2881, 2884); (2893, 2893); (2901, 2902); (2914, 2915);
    (2946, 2946); (3008, 3008); (3021, 3021); (3072, 3072); (3076, 3076); (3132, 3132);
    (3134, 3136); (3142, 3144); (3146, 3149); (3157, 3158); (3170, 3171); (3201, 3201);
    (3260, 3260); (3263, 3263); (3270, 3270); (3276, 3277); (3298, 3299); (3328, 3329);
    (3387, 3388); (3393, 3396); (3405, 3405); (3426, 3427); (3457, 3457); (3530, 3530);
    (3538, 3540); (3542, 3542); (3633, 3633); (3636, 3642); (3654, 3662); (3761, 3761);
    (3764, 3772); (3782, 3782); (3784, 3789); (3864, 3865); (3893, 3893); (3895, 3895);
    (3897, 3897); (3953, 3966); (3968, 3972); (3974, 3975); (3981, 3991); (3993, 4028);
    (4038, 4038); (4141, 4144); (4146, 4151); (4153, 4154); (4157, 4158); (4184, 4185);
    (4190, 4192); (4209, 4212); (4226, 4226); (4229, 4230); (4237, 4237); (4253, 4253);
    (4348, 4348); (4957, 4959); (5906, 5908); (5938, 5939); (5970, 5971); (6002, 6003);
    (6068, 6069); (6071, 6077); (6086, 6086); (6089, 6099); (6103, 6103); (6109, 6109);
    (6155, 6159); (6211, 6211); (6277, 6278); (6313, 6313); (6432, 6434); (6439, 6440);
    (6450, 6450); (6457, 6459); (6679, 6680); (6683, 6683); (6742, 6742); (6744, 6750);
    (6752, 6752); (6754, 6754); (6757, 6764); (6771, 6780); (6783, 6783); (6823, 6823);
    (6832, 6862); (6912, 6915); (6964, 6964); (6966, 6970); (6972, 6972); (6978, 6978);
    (7019, 7027); (7040, 7041); (7074, 7077); (7080, 7081); (7083, 7085); (7142, 7142);
    (7144, 7145); (7149, 7149); (7151, 7153); (7212, 7219); (7222, 7223); (7288, 7293);
    (7376, 7378); (7380, 7392); (7394, 7400); (7405, 7405); (7412, 7412); (7416, 7417);
    (7468, 7530); (7544, 7544); (7579, 7679); (8125, 8125); (8127, 8129); (8141, 8143);
    (8157, 8159); (8173, 8175); (8189, 8190); (8203, 8207); (8216, 8217); (8228, 8228);
    (8231, 8231); (8234, 8238); (8288, 8292); (8294, 8303); (8305, 8305); (8319, 8319);
    (8336, 8348); (8400, 8432); (11388, 11389); (11503, 11505); (11631, 11631);
    (11647, 11647); (11744, 11775); (11823, 11823); (12293, 12293); (12330, 12333);
    (12337, 12341); (12347, 12347); (12441, 12446); (12540, 12542); (40981, 40981);
    (42232, 42237); (42508, 42508); (42607, 42610); (42612, 42621); (42623, 42623);
    (42652, 42655); (42736, 42737); (42752, 42785); (42864, 42864); (42888, 42890);
    (42994, 42996); (43000, 43001); (43010, 43010); (43014, 43014); (43019, 43019);
    (43045, 43046); (43052, 43052); (43204, 43205); (43232, 43249); (43263, 43263);
    (43302, 43309); (43335, 43345); (43392, 43394); (43443, 43443); (43446, 43449);
    (43452, 43453); (43471, 43471); (43493, 43494); (43561, 43566); (43569, 43570);
    (43573, 43574); (43587, 43587); (43596, 43596); (43632, 43632); (43644, 43644);
    (43696, 43696); (43698, 43700); (43703, 43704); (43710, 43711); (43713, 43713);
    (43741, 43741); (43756, 43757); (43763, 43764); (43766, 43766); (43867, 43871);
    (43881, 43883); (44005, 44005); (44008, 44008); (44013, 44013); (64286, 64286);
    (64434, 64450); (65024, 65039); (65043, 65043); (65056, 65071); (65106, 65106);
    (65109, 65109); (65279, 65279); (65287, 65287); (65294, 65294); (65306, 65306);
    (65342, 65342); (65344, 65344); (65392, 65392); (65438, 65439); (65507, 65507);
    (65529, 65531); (66045, 66045); (66272, 66272); (66422, 66426); (67456, 67461);
    (67463, 67504); (67506, 67514); (68097, 68099); (68101, 68102); (68108, 68111);
    (68152, 68154); (68159, 68159); (68325, 68326); (68900, 68903); (69291, 69292);
    (69446, 69456); (69506, 69509); (69633, 69633); (69688, 69702); (69744, 69744);
    (69747, 69748); (69759, 69761); (69811, 69814); (69817, 69818); (69821, 69821);
    (69826, 69826); (69837, 69837); (69888, 69890); (69927, 69931); (69933, 69940);
    (70003, 70003); (70016, 70017); (70070, 70078); (70089, 70092); (70095, 70095);
    (70191, 70193); (70196, 70196); (70198, 70199); (70206, 70206); (70367, 70367);
    (70371, 70378); (70400, 70401); (70459, 70460); (70464, 70464); (70502, 70508);
    (70512, 70516); (70712, 70719); (70722, 70724); (70726, 70726); (70750, 70750);
    (70835, 70840); (70842, 70842); (70847, 70848); (70850, 70851); (71090, 71093);
    (71100, 71101); (71103, 71104); (71132, 71133); (71219, 71226); (71229, 71229);
    (71231, 71232); (71339, 71339); (71341, 71341); (71344, 71349); (71351, 71351);
    (71453, 71455); (71458, 71461); (71463, 71467); (71727, 71735); (71737, 71738);
    (71995, 71996); (71998, 71998); (72003, 72003); (72148, 72151); (72154, 72155);
    (72160, 72160); (72193, 72202); (72243, 72248); (72251, 72254); (72263, 72263);
    (72273, 72278); (72281, 72283); (72330, 72342); (72344, 72345); (72752, 72758);
    (72760, 72765); (72767, 72767); (72850, 72871); (72874, 72880); (72882, 72883);
    (72885, 72886); (73009, 73014); (73018, 73018); (73020, 73021); (73023, 73029);
    (73031, 73031); (73104, 73105); (73109, 73109); (73111, 73111); (73459, 73460);
    (78896, 78904); (92912, 92916); (92976, 92982); (92992, 92995); (94031, 94031);
    (94095, 94111); (94176, 94177); (94179, 94180); (110576, 110579); (110581, 110587);
    (110589, 110590); (113821, 113822); (113824, 113827); (118528, 118573);
    (118576, 118598); (119143, 119145); (119155, 119170); (119173, 119179);
    (119210, 119213); (119362, 119364); (121344, 121398); (121403, 121452);
    (121461, 121461); (121476, 121476); (121499, 121503); (121505, 121519);
    (122880, 122886); (122888, 122904); (122907, 122913); (122915, 122916);
    (122918, 122922); (123184, 123197); (123566, 123566); (123628, 123631);
    (125136, 125142); (125252, 125259); (127995, 127999); (917505, 917505);
    (917536, 917631); (917760, 917999) ]%N.

(** Cased characters that are not case-ignorable. *)
Definition cased_ranges : list (N * N) :=
  [ (65, 90); (97, 122); (170, 170); (181, 181); (186, 186); (192, 214); (216, 246);
    (248, 442); (444, 447); (452, 659); (661, 687); (880, 883); (886, 887); (891, 893);
    (895, 895); (902, 902); (904, 906); (908, 908); (910, 929); (931, 1013); (1015, 1153);
    (1162, 1327); (1329, 1366); (1376, 1416); (4256, 4293); (4295, 4295); (4301, 4301);
    (4304, 4346); (4349, 4351); (5024, 5109); (5112, 5117); (7296, 7304); (7312, 7354);
    (7357, 7359); (7424, 7467); (7531, 7543); (7545, 7578); (7680, 7957); (7960, 7965);
    (7968, 8005); (8008, 8013); (8016, 8023); (8025, 8025); (8027, 8027); (8029, 8029);
    (8031, 8061); (8064, 8116); (8118, 8124); (8126, 8126); (8130, 8132); (8134, 8140);
    (8144, 8147); (8150, 8155); (8160, 8172); (8178, 8180); (8182, 8188); (8450, 8450);
    (8455, 8455); (8458, 8467); (8469, 8469); (8473, 8477); (8484, 8484); (8486, 8486);
    (8488, 8488); (8490, 8493); (8495, 8500); (8505, 8505); (8508, 8511); (8517, 8521);
    (8526, 8526); (8544, 8575); (8579, 8580); (9398, 9449); (11264, 11387); (11390, 11492);
    (11499, 11502); (11506, 11507); (11520, 11557); (11559, 11559); (11565, 11565);
    (42560, 42605); (42624, 42651); (42786, 42863); (42865, 42887); (42891, 42894);
    (42896, 42954); (42960, 42961); (42963, 42963); (42965, 42969); (42997, 42998);
    (43002, 43002); (43824, 43866); (43872, 43880); (43888, 43967); (64256, 64262);
    (64275, 64279); (65313, 65338); (65345, 65370); (66560, 66639); (66736, 66771);
    (66776, 66811); (66928, 66938); (66940, 66954); (66956, 66962); (66964, 66965);
    (66967, 66977); (66979, 66993); (66995, 67001); (67003, 67004); (68736, 68786);
    (68800, 68850); (71840, 71903); (93760, 93823); (119808, 119892); (119894, 119964);
    (119966, 119967); (119970, 119970); (119973, 119974); (119977, 119980);
    (119982, 119993); (119995, 119995); (119997, 120003); (120005, 120069);
    (120071, 120074); (120077, 120084); (120086, 120092); (120094, 120121);
    (120123, 120126); (120128, 120132); (120134, 120134); (120138, 120144);
    (120146, 120485); (120488, 120512); (120514, 120538); (120540, 120570);
    (120572, 120596); (120598, 120628); (120630, 120654); (120656, 120686);
    (120688, 120712); (120714, 120744); (120746, 120770); (120772, 120779);
    (122624, 122633); (122635, 122654); (125184, 125251); (127280, 127305);
    (127312, 127337); (127344, 127369) ]%N.

Definition isspace (c : char) : bool := in_ranges space_ranges c.
Definition isdecimal (c : char) : bool := in_ranges decimal_ranges c.
Definition isdigit (c : char) : bool := in_ranges digit_ranges c.
Definition case_ignorable (c : char) : bool := in_ranges case_ignorable_ranges c.
Definition cased (c : char) : bool := in_ranges cased_ranges c.

(** The full lower-case mapping of one character other than the capital
    sigma: one character, except for the capital I with a dot above, which
    maps to an i and a combining dot. *)
Definition to_lower_full (c : char) : pystr :=
  if (c =? 304)%N then [105; 775]%N
  else
    match List.find (fun run : N * N * N * N =>
                       let '(lo, hi, stride, _) := run in
                       (lo <=? c)%N && (c <=? hi)%N && ((c - lo) mod stride =? 0)%N)
                    lower_runs with
    | Some (lo, _, _, target) => [(target + (c - lo))%N]
    | None => [c]
    end.

Fixpoint skip_case_ignorable (s : pystr) : pystr :=
  match s with
  | [] => []
  | c :: s' => if case_ignorable c then skip_case_ignorable s' else s
  end.

(** A capital sigma is in final position when, case-ignorable characters
    apart, a cased character comes before it and none comes after it.
    [before] holds the characters before the sigma, the nearest first. *)
Definition final_sigma (before after : pystr) : bool :=
  match skip_case_ignorable before with
  | [] => false
  | c :: _ =>
      cased c
      && match skip_case_ignorable after with
         | [] => true
         | d :: _ => negb (cased d)
         end
  end.

End Unicode.

(** ** Python exceptions *)

Inductive pyexn : Type :=
| TypeError
| KeyError
| IndexError
| AttributeError
| JSONDecodeError (msg : pystr)
| ServiceError (msg : pystr).

Inductive pyresult (A : Type) : Type :=
| Return (a : A)
| Raise (e : pyexn).
Arguments Return {A} a.
Arguments Raise {A} e.

Definition pybind {A B : Type} (m : pyresult A) (f : A -> pyresult B) : pyresult B :=
  match m with
  | Return a => f a
  | Raise e => Raise e
  end.

Notation "x <- m ;; k" := (pybind m (fun x => k))
  (at level 100, m at next level, right associativity).

(** ** Python string operations *)

Module PyStr.

Definition len (s : pystr) : Z := Z.of_nat (length s).

(** [str.isspace], [str.isdigit] on one character. *)
Definition isspace (c : char) : bool := Unicode.isspace c.
Definition isdigit_char (c : char) : bool := Unicode.isdigit c.

(** [str.lower]: each character by its full mapping, the capital sigma by
    its position. *)
Fixpoint lower_from (before s : pystr) : pystr :=
  match s with
  | [] => []
  | c :: s' =>
      (if (c =? 931)%N
       then [if Unicode.final_sigma before s' then 962%N else 963%N]
       else Unicode.to_lower_full c)
      ++ lower_from (c :: before) s'
  end.

Definition lower (s : pystr) : pystr := lower_from [] s.

Fixpoint all_chars (p : char -> bool) (s : pystr) : bool :=
  match s with
  | [] => true
  | c :: s' => p c && all_chars p s'
  end.

(** [lstrip], [rstrip] and [strip] remove the characters of a class [p]
    from the ends; without an argument the class is [isspace]. *)
Fixpoint lstrip_by (p : char -> bool) (s : pystr) : pystr :=
  match s with
  | [] => []
  | c :: s' => if p c then lstrip_by p s' else s
  end.

Fixpoint rstrip_by (p : char -> bool) (s : pystr) : pystr :=
  match s with
  | [] => []
  | c :: s' =>
      match rstrip_by p s' with
      | [] => if p c then [] else [c]
      | r => c :: r
      end
  end.

Definition strip_by (p : char -> bool) (s : pystr) : pystr :=
  lstrip_by p (rstrip_by p s).

Definition strip (s : pystr) : pystr := strip_by isspace s.

(** [c in chars] for a character [c]. *)
Definition char_in (chars : pystr) (c : char) : bool := existsb (N.eqb c) chars.

(** Truth value of a string in a condition: non-empty. *)
Definition truthy (s : pystr) : bool :=
  match s with [] => false | _ => true end.

(** [str.isdigit]: at least one character, all of them digits. *)
Definition isdigit (s : pystr) : bool :=
  truthy s && all_chars isdigit_char s.

(** [a == b] on strings. *)
Definition eqb (a b : pystr) : bool := bool_decide (a = b).

Fixpoint prefix (p s : pystr) : bool :=
  match p, s with
  | [], _ => true
  | _ :: _, [] => false
  | a :: p', b :: s' => (a =? b)%N && prefix p' s'
  end.

Definition startswith (s p : pystr) : bool := prefix p s.

Definition drop (n : nat) (s : pystr) : pystr := skipn n s.

(** Lowest offset in [s] at which [sub] starts, counted from [pos]. *)
Fixpoint find_aux (sub s : pystr) (pos : nat) : option nat :=
  if prefix sub s then Some pos
  else match s with
       | [] => None
       | _ :: s' => find_aux sub s' (S pos)
       end.

(** Highest offset in [s] at which [sub] starts. *)
Fixpoint rfind_aux (sub s : pystr) (pos : nat) (last : option nat) : option nat :=
  let last' := if prefix sub s then Some pos else last in
  match s with
  | [] => last'
  | _ :: s' => rfind_aux sub s' (S pos) last'
  end.

(** A slice bound as Python clamps it: a negative bound counts from the
    end, and every bound is brought into [0, len]. *)
Definition clamp_index (n i : Z) : Z :=
  if (i <? 0)%Z then Z.max 0 (i + n) else Z.min i n.

(** [s.find(sub, start)], -1 when absent. *)
Definition find (s sub : pystr) (start : Z) : Z :=
  let start' := clamp_index (len s) start in
  if (len s <? start)%Z then (-1)%Z
  else match find_aux sub (drop (Z.to_nat start') s) (Z.to_nat start') with
       | Some p => Z.of_nat p
       | None => (-1)%Z
       end.

(** [s.rfind(sub)], -1 when absent. *)
Definition rfind (s sub : pystr) : Z :=
  match rfind_aux sub s 0 None with
  | Some p => Z.of_nat p
  | None => (-1)%Z
  end.

(** [sub in s]. *)
Definition contains (s sub : pystr) : bool :=
  match find_aux sub s 0 with Some _ => true | None => false end.

(** [s[a:b]]. *)
Definition slice (s : pystr) (a b : Z) : pystr :=
  let a' := clamp_index (len s) a in
  let b' := clamp_index (len s) b in
  firstn (Z.to_nat (b' - a')) (skipn (Z.to_nat a') s).

(** [s[a:]] and [s[:b]]. *)
Definition slice_from (s : pystr) (a : Z) : pystr := slice s a (len s).
Definition slice_to (s : pystr) (b : Z) : pystr := slice s 0 b.

(** [s.replace(old, new)]: the occurrences of [old] are found left to
    right and do not overlap; [skip] counts the characters of an occurrence
    still to be passed over. *)
Fixpoint replace_aux (old new : pystr) (skip : nat) (s : pystr) : pystr :=
  match s with
  | [] => []
  | c :: s' =>
      match skip with
      | S k => replace_aux old new k s'
      | O =>
          if prefix old s
          then new ++ replace_aux old new (length old - 1) s'
          else c :: replace_aux old new 0 s'
      end
  end.

Fixpoint intersperse (new s : pystr) : pystr :=
  match s with
  | [] => new
  | c :: s' => new ++ c :: intersperse new s'
  end.

Definition replace (s old new : pystr) : pystr :=
  match old with
  | [] => intersperse new s
  | _ => replace_aux old new 0 s
  end.

(** [s.count(sub)]: non-overlapping occurrences. *)
Fixpoint count_aux (sub : pystr) (skip : nat) (s : pystr) : Z :=
  match s with
  | [] => 0%Z
  | c :: s' =>
      match skip with
      | S k => count_aux sub k s'
      | O =>
          if prefix sub s
          then (1 + count_aux sub (length sub - 1) s')%Z
          else count_aux sub 0 s'
      end
  end.

Definition count (s sub : pystr) : Z :=
  match sub with
  | [] => (len s + 1)%Z
  | _ => count_aux sub 0 s
  end.

(** [s.split(sep)] for a one-character separator, the only kind the
    sources use. *)
Fixpoint split (s : pystr) (sep : char) : list pystr :=
  match s with
  | [] => [[]]
  | c :: s' =>
      if (c =? sep)%N then [] :: split s' sep
      else match split s' sep with
           | x :: xs => (c :: x) :: xs
           | [] => [[c]]
           end
  end.

Fixpoint join (sep : pystr) (l : list pystr) : pystr :=
  match l with
  | [] => []
  | [x] => x
  | x :: xs => x ++ sep ++ join sep xs
  end.

(** [str(n)] for an integer. *)
Definition of_int (n : Z) : pystr :=
  map chr (list_ascii_of_string (NilZero.string_of_int (Z.to_int n))).

Definition newline : char := 10%N.

End PyStr.

(** ** Regular expressions

    The patterns of the sources use literals, character classes, sequencing,
    the greedy [?], [*] and [+], and one capturing group.  [run] is a
    backtracking matcher with the priorities of Python's [re]: a greedy
    repetition first tries one more iteration and falls back to the
    continuation; an iteration that consumes nothing ends the repetition. *)

Module Re.

Inductive regex : Type :=
| Eps
| Cls (p : char -> bool)
| Cat (r1 r2 : regex)
| Opt (r : regex)
| Star (r : regex)
| Group (r : regex).

Definition Chr (c : char) : regex := Cls (N.eqb c).
Definition Plus (r : regex) : regex := Cat r (Star r).

Fixpoint Lit (s : pystr) : regex :=
  match s with
  | [] => Eps
  | c :: s' => Cat (Chr c) (Lit s')
  end.

(** A sequence of sub-patterns. *)
Definition Seq (rs : list regex) : regex := fold_right Cat Eps rs.

(** Position in the subject, the text still to be read, and the span of
    group 1 when it has taken part in the match. *)
Record mstate : Type := MState {
  ms_pos : nat;
  ms_rest : pystr;
  ms_group : option (nat * nat)
}.

Fixpoint run (r : regex) (st : mstate) (k : mstate -> option mstate)
  {struct r} : option mstate :=
  match r with
  | Eps => k st
  | Cls p =>
      match ms_rest st with
      | c :: s' =>
          if p c then k (MState (S (ms_pos st)) s' (ms_group st)) else None
      | [] => None
      end
  | Cat r1 r2 => run r1 st (fun st1 => run r2 st1 k)
  | Opt r1 =>
      match run r1 st k with
      | Some st' => Some st'
      | None => k st
      end
  | Star r1 =>
      (fix loop (fuel : nat) (st : mstate) {struct fuel} : option mstate :=
         match fuel with
         | O => k st
         | S fuel' =>
             match run r1 st (fun st1 =>
                     if (ms_pos st <? ms_pos st1)%nat then loop fuel' st1
                     else None) with
             | Some st' => Some st'
             | None => k st
             end
         end) (S (length (ms_rest st))) st
  | Group r1 =>
      run r1 st (fun st1 =>
        k (MState (ms_pos st1) (ms_rest st1) (Some (ms_pos st, ms_pos st1))))
  end.

(** A match object: [start()], [end()] and the span of [group(1)]. *)
Record rmatch : Type := RMatch {
  m_start : nat;
  m_end : nat;
  m_group : option (nat * nat)
}.

(** [pattern.match] anchored at offset [pos], where [s] is the subject
    from there on. *)
Definition match_at (r : regex) (pos : nat) (s : pystr) : option rmatch :=
  match run r (MState pos s None) Some with
  | Some st => Some (RMatch pos (ms_pos st) (ms_group st))
  | None => None
  end.

(** The non-overlapping matches from left to right.  After a match the
    scan resumes at its end; [skip] counts the characters of a match still
    to be passed over. *)
Fixpoint scan (r : regex) (skip pos : nat) (s : pystr) : list rmatch :=
  match skip with
  | S k =>
      match s with
      | _ :: s' => scan r k (S pos) s'
      | [] => []
      end
  | O =>
      match match_at r pos s with
      | Some m =>
          m :: match s with
               | _ :: s' => scan r (m_end m - pos - 1) (S pos) s'
               | [] => []
               end
      | None =>
          match s with
          | _ :: s' => scan r 0 (S pos) s'
          | [] => []
          end
      end
  end.

(** [list(re.finditer(r, s))]. *)
Definition finditer (r : regex) (s : pystr) : list rmatch := scan r 0 0 s.

(** [re.search(r, s)]. *)
Fixpoint search_from (r : regex) (pos : nat) (s : pystr) : option rmatch :=
  match match_at r pos s with
  | Some m => Some m
  | None =>
      match s with
      | _ :: s' => search_from r (S pos) s'
      | [] => None
      end
  end.

Definition search (r : regex) (s : pystr) : option rmatch := search_from r 0 s.

(** [re.sub(r, repl, s)] for a pattern that matches no empty string. *)
Fixpoint sub_aux (r : regex) (repl : pystr) (skip pos : nat) (s : pystr) : pystr :=
  match s with
  | [] => []
  | c :: s' =>
      match skip with
      | S k => sub_aux r repl k (S pos) s'
      | O =>
          match match_at r pos s with
          | Some m =>
              if (pos <? m_end m)%nat
              then repl ++ sub_aux r repl (m_end m - pos - 1) (S pos) s'
              else c :: sub_aux r repl 0 (S pos) s'
          | None => c :: sub_aux r repl 0 (S pos) s'
          end
      end
  end.

Definition sub (r : regex) (repl s : pystr) : pystr := sub_aux r repl 0 0 s.

(** The text a span covers. *)
Definition span_text (s : pystr) (sp : nat * nat) : pystr :=
  firstn (snd sp - fst sp) (skipn (fst sp) s).

(** [\s], [\d] and [[A-Z]]. *)
Definition space : regex := Cls Unicode.isspace.
Definition digit : regex := Cls Unicode.isdecimal.
Definition upper : regex := Cls (fun c => (65 <=? c)%N && (c <=? 90)%N).

End Re.
(** ** Python floats and built-ins *)

Module Py.

(** [float(n)] for an integer, rounded to nearest. *)
Definition float_of_int (n : Z) : float :=
  SF2Prim (binary_normalize prec emax n 0 false).

(** [a / b] on two integers of magnitude below 2^53, where both convert
    exactly and the quotient is rounded once. *)
Definition truediv (a b : Z) : float :=
  (float_of_int a / float_of_int b)%float.

(** [min(a, b)] and [max(a, b)] keep the first argument unless the second
    compares strictly better. *)
Definition min (a b : float) : float := if (b <? a)%float then b else a.
Definition max (a b : float) : float := if (a <? b)%float then b else a.

(** [sum] of integers. *)
Definition sum (l : list Z) : Z := fold_left Z.add l 0%Z.

Definition len {A : Type} (l : list A) : Z := Z.of_nat (length l).

End Py.

(** ** Data models ([parser_v2/models.py]) *)

Module MarkdownTable.
Record t : Type := Build {
  markdown_text : pystr;
  estimated_rows : Z;
  estimated_cols : Z;
  confidence : float;
  page_number : Z
}.
End MarkdownTable.

Module MarkerTable.
Record t : Type := Build {
  cells : list (list pystr);
  headers : list pystr;
  page_number : Z;
  bboxes : option (list (list float))
}.
End MarkerTable.

(** The messages of the validator.  Each constructor stands for one f-string
    of [validate_extraction] and carries the values it interpolates. *)
Inductive validation_error : Type :=
| TooFewColumns (cols min_cols : Z)
| TooFewRows (rows min_rows : Z)
| LowConfidence (confidence min_confidence : float)
| MalformedTable.

Inductive validation_warning : Type :=
| HighEmptyCellRatio (ratio : float).

Module ValidationResult.
Record t : Type := Build {
  passed : bool;
  errors : list validation_error;
  warnings : list validation_warning;
  confidence : float
}.
End ValidationResult.

(** ** Fast extractor and extraction validator
       ([parser_v2/pymupdf_extractor.py]) *)

Module PyMuPDFTableExtractor.
Import PyStr.

(** [re.compile(r"\|\s*\|")] *)
Definition empty_cell_pattern : Re.regex :=
  Re.Seq [Re.Chr (chr "|"); Re.Star Re.space; Re.Chr (chr "|")].

(** [len(empty_cell_pattern.findall(row))] *)
Definition empty_cells_in (row : pystr) : Z :=
  Py.len (Re.finditer empty_cell_pattern row).

Definition _is_separator (line : pystr) : bool :=
  let stripped := strip line in
  if negb (startswith stripped (py "|")) then false
  else
    let content := strip (strip_by (char_in (py "|")) stripped) in
    all_chars (char_in (py "-: ")) content.

Definition _calculate_confidence (rows : list pystr) (expected_cols : Z) : float :=
  match rows with
  | [] => 0.0%float
  | _ =>
      let col_counts := map (fun row => (count row (py "|") - 1)%Z) rows in
      let consistent_cols := forallb (fun c => (c =? expected_cols)%Z) col_counts in
      let empty_cells := Py.sum (map empty_cells_in rows) in
      let total_cells := (Py.len rows * expected_cols)%Z in
      let empty_ratio := Py.truediv empty_cells (Z.max total_cells 1) in
      let confidence := 1.0%float in
      let confidence :=
        if negb consistent_cols then (confidence * 0.7)%float else confidence in
      let confidence :=
        if (0.2 <? empty_ratio)%float then (confidence * 0.6)%float else confidence in
      let confidence :=
        if (Py.len rows <? 2)%Z then (confidence * 0.5)%float else confidence in
      Py.max 0.0%float (Py.min 1.0%float confidence)
  end.

Definition _parse_markdown_table (lines : list pystr) (page_num : Z)
  : option MarkdownTable.t :=
  match lines with
  | [] => None
  | _ =>
      let markdown_text := join ([newline]) lines in
      let data_rows :=
        List.filter (fun line => startswith (strip line) (py "|") && negb (_is_separator line))
               lines in
      match data_rows with
      | [] => None
      | first_row :: _ =>
          let estimated_cols := (count first_row (py "|") - 1)%Z in
          let estimated_rows := (Py.len data_rows - 1)%Z in
          let confidence := _calculate_confidence data_rows estimated_cols in
          Some (MarkdownTable.Build markdown_text
                  (Z.max 0 estimated_rows) (Z.max 1 estimated_cols)
                  confidence page_num)
      end
  end.

Definition _estimate_empty_ratio (markdown_text : pystr) : float :=
  let rows :=
    List.filter (fun line => startswith (strip line) (py "|")) (split markdown_text newline) in
  match rows with
  | [] => 0.0%float
  | _ =>
      let empty_cells := Py.sum (map empty_cells_in rows) in
      let total_cells := Py.sum (map (fun row => (count row (py "|") - 1)%Z) rows) in
      Py.truediv empty_cells (Z.max total_cells 1)
  end.

Definition validate_extraction (table : MarkdownTable.t)
    (min_rows min_cols : Z) (min_confidence : float) : ValidationResult.t :=
  let errors := [] in
  let warnings := [] in
  let errors :=
    if (MarkdownTable.estimated_cols table <? min_cols)%Z
    then errors ++ [TooFewColumns (MarkdownTable.estimated_cols table) min_cols]
    else errors in
  let errors :=
    if (MarkdownTable.estimated_rows table <? min_rows)%Z
    then errors ++ [TooFewRows (MarkdownTable.estimated_rows table) min_rows]
    else errors in
  let errors :=
    if (MarkdownTable.confidence table <? min_confidence)%float
    then errors ++ [LowConfidence (MarkdownTable.confidence table) min_confidence]
    else errors in
  let empty_ratio := _estimate_empty_ratio (MarkdownTable.markdown_text table) in
  let warnings :=
    if (0.2 <? empty_ratio)%float
    then warnings ++ [HighEmptyCellRatio empty_ratio]
    else warnings in
  let errors :=
    if negb (startswith (strip (MarkdownTable.markdown_text table)) (py "|"))
    then errors ++ [MalformedTable]
    else errors in
  let passed := (Py.len errors =? 0)%Z in
  ValidationResult.Build passed errors warnings (MarkdownTable.confidence table).

(** [validate_extraction] with the default thresholds of its signature. *)
Definition validate_extraction_default (table : MarkdownTable.t) : ValidationResult.t :=
  validate_extraction table 1 2 0.8.

(** The variables of the scan in [_split_tables]. *)
Record split_state : Type := SplitState {
  tables : list MarkdownTable.t;
  current_table_lines : list pystr;
  in_table : bool
}.

(** The three places that end a table: when lines are pending they are
    parsed, the table is kept when there is one (a dataclass instance is true
    in a condition), and the pending lines are dropped. *)
Definition close_table (page_num : Z) (st : split_state)
  : list MarkdownTable.t * list pystr :=
  match current_table_lines st with
  | [] => (tables st, [])
  | lines =>
      (match _parse_markdown_table lines page_num with
       | Some table => tables st ++ [table]
       | None => tables st
       end, [])
  end.

(** One turn of the [for line in lines] loop. *)
Definition split_step (page_num : Z) (st : split_state) (line : pystr) : split_state :=
  let stripped := strip line in
  if startswith stripped (py "|") then
    SplitState (tables st) (current_table_lines st ++ [line]) true
  else if in_table st && negb (truthy stripped) then
    SplitState (fst (close_table page_num st)) (snd (close_table page_num st)) false
  else if in_table st
          && (startswith stripped (py "-") || startswith stripped (py "=") || startswith stripped (py "*"))
  then SplitState (tables st) (current_table_lines st ++ [line]) (in_table st)
  else if in_table st then
    SplitState (fst (close_table page_num st)) (snd (close_table page_num st)) false
  else st.

Definition _split_tables (markdown_text : pystr) (page_num : Z) : list MarkdownTable.t :=
  let lines := split markdown_text newline in
  let st := fold_left (split_step page_num) lines (SplitState [] [] false) in
  fst (close_table page_num st).

(** [extract_tables_from_page] once the file is known to exist; [to_markdown]
    is what [pymupdf4llm.to_markdown] answered for the page. *)
Definition extract_tables_from_page (to_markdown : pyresult pystr) (page_num : Z)
  : list MarkdownTable.t :=
  match to_markdown with
  | Raise _ => []
  | Return md_text => _split_tables md_text page_num
  end.

End PyMuPDFTableExtractor.


(** ** Layout extractor: normalisation ([parser_v2/marker_extractor.py]) *)

Module MarkerTableExtractor.
Import PyStr.

(** [any(cell.strip() for cell in row)] *)
Definition row_has_content (row : list pystr) : bool :=
  existsb (fun cell => truthy (strip cell)) row.

(** The [for idx, row in enumerate(table.cells)] loop: the index of the
    first row with content, counted from [idx]. *)
Fixpoint first_content_row (cells : list (list pystr)) (idx : nat) : option nat :=
  match cells with
  | [] => None
  | row :: rest =>
      if row_has_content row then Some idx else first_content_row rest (S idx)
  end.

(** [row + [""] * (max_cols - len(row))]; a negative count repeats nothing. *)
Definition pad_row (max_cols : nat) (row : list pystr) : list pystr :=
  row ++ repeat (py "") (max_cols - length row).

Definition normalize_structure (table : MarkerTable.t) : MarkerTable.t :=
  match MarkerTable.cells table with
  | [] => table
  | cells =>
      let header_row_idx :=
        match first_content_row cells 0 with
        | Some idx => idx
        | None => 0
        end in
      let headers :=
        if (header_row_idx <? length cells)%nat then nth header_row_idx cells []
        else [] in
      let data_rows :=
        if (header_row_idx + 1 <? length cells)%nat
        then skipn (header_row_idx + 1) cells
        else [] in
      let data_rows := List.filter row_has_content data_rows in
      let max_cols :=
        match data_rows with
        | [] => length headers
        | _ => list_max (map (@length pystr) (headers :: data_rows))
        end in
      let normalized_cells := [] in
      let '(headers, normalized_cells) :=
        match headers with
        | [] => (headers, normalized_cells)
        | _ =>
            let headers := pad_row max_cols headers in
            (headers, normalized_cells ++ [headers])
        end in
      let normalized_cells := normalized_cells ++ map (pad_row max_cols) data_rows in
      MarkerTable.Build normalized_cells headers
        (MarkerTable.page_number table) (MarkerTable.bboxes table)
  end.

(** The variables of the scan in [_parse_markdown_tables]. *)
Record block_state : Type := BlockState {
  blocks : list pystr;
  current_table : list pystr;
  in_block : bool
}.

(** [if current_table: tables.append("\n".join(current_table))] *)
Definition close_block (st : block_state) : list pystr :=
  match current_table st with
  | [] => blocks st
  | lines => blocks st ++ [join ([newline]) lines]
  end.

(** One turn of the [for line in markdown.split("\n")] loop. *)
Definition block_step (st : block_state) (line : pystr) : block_state :=
  if contains line (py "|") then BlockState (blocks st) (current_table st ++ [line]) true
  else if in_block st then BlockState (close_block st) [] false
  else st.

Definition _parse_markdown_tables (markdown : pystr) : list pystr :=
  let st := fold_left block_step (split markdown newline) (BlockState [] [] false) in
  close_block st.

(** [line.split("|")[1:-1]]: the pieces without the first and the last. *)
Definition inner_pieces (line : pystr) : list pystr :=
  removelast (tl (split line (chr "|"))).

(** One turn of the loop of [_markdown_to_cells]. *)
Definition cells_step (cells : list (list pystr)) (line : pystr) : list (list pystr) :=
  if negb (startswith (strip line) (py "|")) then cells
  else if all_chars (char_in (py "|-: ")) line then cells
  else
    let row := map strip (inner_pieces line) in
    match row with
    | [] => cells
    | _ => cells ++ [row]
    end.

Definition _markdown_to_cells (table_md : pystr) : list (list pystr) :=
  fold_left cells_step (split table_md newline) [].

(** [_extract_tables_from_result] on the [markdown] attribute of the
    result. *)
Definition _extract_tables_from_result (markdown : pystr) (target_page : Z)
  : list MarkerTable.t :=
  fold_left
    (fun tables table_md =>
       let cells := _markdown_to_cells table_md in
       match cells with
       | [] => tables
       | headers :: _ => tables ++ [MarkerTable.Build cells headers target_page None]
       end)
    (_parse_markdown_tables markdown) [].

(** The search [for prev_col in range(col_idx - 1, -1, -1)] for a cell with
    content, where [n] is the number of columns still to visit. *)
Fixpoint prev_content (row : list pystr) (n : nat) : option nat :=
  match n with
  | O => None
  | S prev_col =>
      if truthy (strip (nth prev_col row (py ""))) then Some prev_col
      else prev_content row prev_col
  end.

(** A region [(row_start, col_start, row_span, col_span)]. *)
Definition region : Type := nat * nat * nat * nat.

(** The regions one cell contributes. *)
Definition cell_regions (row_idx : nat) (row : list pystr) (col_idx : nat)
    (cell : pystr) : list region :=
  if negb (truthy (strip cell)) && (0 <? col_idx)%nat then
    match prev_content row col_idx with
    | Some prev_col => [(row_idx, prev_col, 1%nat, (col_idx - prev_col + 1)%nat)]
    | None => []
    end
  else [].

Definition detect_merged_cells (table : MarkerTable.t) : list region :=
  concat
    (imap (fun row_idx row => concat (imap (cell_regions row_idx row) row))
          (MarkerTable.cells table)).

End MarkerTableExtractor.

(** ** Schema registry ([parser_v2/schemas.py]) *)

Module Schemas.
Import PyStr.

(** The pydantic table models the registry maps to. *)
Inductive schema : Type :=
| EnvelopeTable
| FDWRTable
| HVACTable
| LightingTable
| PipingInsulationTable.

Definition SCHEMA_REGISTRY : gmap pystr schema :=
  list_to_map
    [ ((py "3.2.2.2"), EnvelopeTable);
      ((py "3.2.2.3"), EnvelopeTable);
      ((py "3.2.1.4"), FDWRTable);
      ((py "4.2.1.3"), LightingTable);
      ((py "5.2.5.3"), PipingInsulationTable);
      ((py "8.4.4.8.A"), HVACTable);
      ((py "8.4.4.8.B"), HVACTable) ].

(** [table_number.replace("Table ", "").replace("A-", "").strip()] *)
Definition normalized (table_number : pystr) : pystr :=
  strip (replace (replace table_number (py "Table ") (py "")) (py "A-") (py "")).

Definition get_schema_for_table (table_number : pystr) : option schema :=
  SCHEMA_REGISTRY !! normalized table_number.

(** One row of the envelope table, [AssemblyRequirement]. *)
Record AssemblyRequirement : Type := {
  assembly_type : pystr;
  zone_4_max_u : float;
  zone_5_max_u : float;
  zone_6_max_u : float;
  zone_7a_max_u : float;
  zone_7b_max_u : float;
  zone_8_max_u : float
}.

(** The messages of the two validators.  Each constructor stands for one
    message of the source and carries the value it interpolates. *)
Inductive value_error : Type :=
| UValueOutOfRange (v : float)
| MissingAssemblyTypes.

(** What a field validator does with a value: it returns it, or raises
    [ValueError]. *)
Inductive checked (A : Type) : Type :=
| Accepted (v : A)
| ValueError (message : value_error).
Arguments Accepted {A} v.
Arguments ValueError {A} message.

(** The bounds [ge=0.05, le=2.0] every U-value field declares. *)
Definition uvalue_field_bounds (v : float) : bool :=
  ((0.05 <=? v) && (v <=? 2.0))%float.

(** [AssemblyRequirement.validate_uvalue_order] *)
Definition validate_uvalue_order (v : float) : checked float :=
  if ((v <? 0.05) || (2.0 <? v))%float
  then ValueError (UValueOutOfRange v)
  else Accepted v.

(** [EnvelopeTable.validate_assembly_types] *)
Definition validate_assembly_types (v : list AssemblyRequirement)
  : checked (list AssemblyRequirement) :=
  let types : gset pystr := list_to_set (map assembly_type v) in
  let required_opaque : gset pystr := {[ (py "Walls"); (py "Roofs"); (py "Floors") ]} in
  let required_fenestration : gset pystr := {[ (py "Windows"); (py "Doors"); (py "Skylights") ]} in
  let has_opaque := bool_decide (required_opaque ⊆ types) in
  let has_fenestration :=
    bool_decide (set_Exists (fun t => t ∈ types) required_fenestration) in
  if negb (has_opaque || has_fenestration)
  then ValueError MissingAssemblyTypes
  else Accepted v.

End Schemas.

(** ** Repair engine ([parser_v2/llm_repair.py]) *)

(** The value [json.loads] returns. *)
Inductive json : Type :=
| JNull
| JBool (b : bool)
| JInt (n : Z)
| JFloat (x : float)
| JString (s : pystr)
| JArray (items : list json)
| JObject (fields : gmap pystr json).

(** One entry of [ValidationError.errors()]: its [loc] and its [msg]. *)
Record error_detail : Type := ErrorDetail {
  loc : list pystr;
  msg : pystr
}.

(** The messages of the repair engine.  Each constructor stands for one
    f-string of the source and carries the values it interpolates. *)
Inductive repair_error : Type :=
| NoSchemaFound (table_number : pystr)
| LLMRequestFailed (e : pyexn)
| LLMRejectedInput (reason : json)
| InvalidJSON (msg : pystr)
| ValidationErrorIn (field : pystr) (msg : pystr)
| ValidationFailed (e : pyexn).

(** The table-specific instruction blocks of
    [_get_table_specific_instructions]; their text is not reproduced. *)
Inductive instructions : Type :=
| Instructions_3_2_2_2
| Instructions_3_2_2_3
| Instructions_3_2_1_4
| Instructions_4_2_1_3
| Instructions_5_2_5_3
| Instructions_8_4_4_8_A
| Instructions_8_4_4_8_B
| Instructions_default.

(** A prompt is the tuple of values the template of [generate_repair_prompt]
    interpolates; the fixed text around them is not reproduced. *)
Record prompt : Type := Prompt {
  prompt_vintage : pystr;
  prompt_table_number : pystr;
  prompt_raw_table : pystr;
  prompt_schema_json : pystr;
  prompt_instructions : instructions
}.

Module LLMTableRepairer.
Import PyStr Schemas.

(** The attributes [__init__] stores. *)
Record t : Type := Build {
  model : pystr;
  temperature : float;
  timeout : Z;
  verbose : bool
}.

(** [key in data], [len(data)] and [data[key]] on a decoded JSON value. *)
Definition json_is_string (key : pystr) (v : json) : bool :=
  match v with JString s => eqb s key | _ => false end.

Definition py_contains (key : pystr) (data : json) : pyresult bool :=
  match data with
  | JObject fields => Return (bool_decide (is_Some (fields !! key)))
  | JArray items => Return (existsb (json_is_string key) items)
  | JString s => Return (contains s key)
  | _ => Raise TypeError
  end.

Definition py_len (data : json) : pyresult Z :=
  match data with
  | JObject fields => Return (Z.of_nat (size fields))
  | JArray items => Return (Py.len items)
  | JString s => Return (len s)
  | _ => Raise TypeError
  end.

Definition py_getitem (data : json) (key : pystr) : pyresult json :=
  match data with
  | JObject fields =>
      match fields !! key with
      | Some v => Return v
      | None => Raise KeyError
      end
  | _ => Raise TypeError
  end.

Definition _extract_json_from_markdown (text : pystr) : pystr :=
  let text := strip text in
  if startswith text (py "```") then
    let start := find text ([newline]) (find text (py "```") 0) in
    let start := if (start =? -1)%Z then (find text (py "```") 0 + 3)%Z else start in
    let end_ := rfind text (py "```") in
    let end_ := if (end_ =? -1)%Z then len text else end_ in
    strip (slice text start end_)
  else text.

Definition _get_table_specific_instructions (table_number : pystr) : instructions :=
  let instructions : gmap pystr instructions :=
    list_to_map
      [ ((py "3.2.2.2"), Instructions_3_2_2_2);
        ((py "3.2.2.3"), Instructions_3_2_2_3);
        ((py "3.2.1.4"), Instructions_3_2_1_4);
        ((py "4.2.1.3"), Instructions_4_2_1_3);
        ((py "5.2.5.3"), Instructions_5_2_5_3);
        ((py "8.4.4.8.A"), Instructions_8_4_4_8_A);
        ((py "8.4.4.8.B"), Instructions_8_4_4_8_B) ] in
  default Instructions_default (instructions !! table_number).

Section WithServices.
(** The collaborators of the engine: the JSON decoder, pydantic and the
    model service. *)

(** A validated pydantic instance, and its truth value in a condition. *)
Variable record : Type.
Variable record_truthy : record -> bool.

(** [json.loads] *)
Variable json_loads : pystr -> pyresult json.

(** [json.dumps(target_schema.model_json_schema(), indent=2)], which
    returns for each of the table models. *)
Variable schema_json : schema -> pystr.

(** [target_schema( **data )] on a mapping: the instance, a
    [ValidationError] with its [errors()], or another exception. *)
Inductive instantiation : Type :=
| Validated (r : record)
| ValidationError (errors : list error_detail)
| Failed (e : pyexn).

Variable schema_validate : schema -> gmap pystr json -> instantiation.

(** [self.client.generate(model=..., prompt=..., options=...)] *)
Variable client_generate :
  pystr -> prompt -> float -> Z -> pyresult (gmap pystr pystr).

Definition instantiate (target_schema : schema) (data : json) : instantiation :=
  match data with
  | JObject fields => schema_validate target_schema fields
  | _ => Failed TypeError
  end.

Definition generate_repair_prompt (raw_table : pystr) (target_schema : schema)
    (context : pystr * pystr) : prompt :=
  let vintage := fst context in
  let table_number := snd context in
  let schema_json := schema_json target_schema in
  let instructions := _get_table_specific_instructions table_number in
  Prompt vintage table_number raw_table schema_json instructions.

Definition validate_output (llm_output : pystr) (target_schema : schema)
  : pyresult (option record * list repair_error) :=
  let errors := [] in
  (* Step 1: parse JSON *)
  let json_str := _extract_json_from_markdown llm_output in
  match json_loads json_str with
  | Raise (JSONDecodeError msg) => Return (None, errors ++ [InvalidJSON msg])
  | Raise e => Raise e
  | Return data =>
      has_error <- py_contains (py "error") data ;;
      lone <- (if has_error
               then n <- py_len data ;; Return (n =? 1)%Z
               else Return false) ;;
      if lone : bool then
        reason <- py_getitem data (py "error") ;;
        Return (None, errors ++ [LLMRejectedInput reason])
      else
        (* Step 2: validate with pydantic *)
        match instantiate target_schema data with
        | Validated validated_model => Return (Some validated_model, [])
        | ValidationError details =>
            Return (None,
                    errors ++ map (fun error =>
                                     ValidationErrorIn (join (py " -> ") (loc error)) (msg error))
                                  details)
        | Failed e => Return (None, errors ++ [ValidationFailed e])
        end
  end.

Definition repair_and_normalize (self : t) (raw_table table_number vintage : pystr)
    (target_schema : option schema) : option record * list repair_error :=
  let errors := [] in
  let target_schema :=
    match target_schema with
    | None => get_schema_for_table table_number
    | Some s => Some s
    end in
  match target_schema with
  | None => (None, errors ++ [NoSchemaFound table_number])
  | Some target_schema =>
      let context := (vintage, table_number) in
      let prompt := generate_repair_prompt raw_table target_schema context in
      let attempt : pyresult (option record * list repair_error) :=
        response <- client_generate (model self) prompt
                      (temperature self) (timeout self) ;;
        llm_output <- match response !! (py "response") with
                      | Some s => Return s
                      | None => Raise KeyError
                      end ;;
        out <- validate_output llm_output target_schema ;;
        let validated_data := fst out in
        let validation_errors := snd out in
        match validated_data with
        | Some r =>
            if record_truthy r then Return (Some r, [])
            else Return (None, errors ++ validation_errors)
        | None => Return (None, errors ++ validation_errors)
        end in
      match attempt with
      | Return result => result
      | Raise e => (None, errors ++ [LLMRequestFailed e])
      end
  end.

End WithServices.

Arguments Validated {record} r.
Arguments ValidationError {record} errors.
Arguments Failed {record} e.

End LLMTableRepairer.

(** ** Table cleaner and metadata extractor ([necb_pdf_parser.py]) *)

Module NECBPDFParser.
Import PyStr.

(** A Camelot [DataFrame] of strings, row by row.  Every row of a frame has
    the frame's width, so a frame that is not [df.empty] has a first cell in
    each row; [iloc0] reads it. *)
Definition DataFrame : Type := list (list pystr).

Definition df_empty (df : DataFrame) : bool :=
  match df with
  | [] => true
  | [] :: _ => true
  | _ => false
  end.

Definition iloc0 (row : list pystr) : pystr := hd (py "") row.

Definition assembly_names : list pystr :=
  [(py "walls"); (py "roofs"); (py "floors"); (py "windows"); (py "doors"); (py "skylights")].

(** [cell.replace('.', '').replace(',', '').replace('≥', '')
        .replace('≤', '').replace(' ', '').isdigit()] *)
Definition is_numeric_cell (cell : pystr) : bool :=
  isdigit
    (replace (replace (replace (replace (replace cell (py ".") (py "")) (py ",") (py "")) (py "≥") (py "")) (py "≤") (py ""))
       (py " ") (py "")).

(** [any(... for cell in row.iloc[1:] if str(cell).strip())] *)
Definition has_numbers (row : list pystr) : bool :=
  existsb is_numeric_cell (List.filter (fun cell => truthy (strip cell)) (tl row)).

(** The test the scan applies to one row. *)
Definition is_assembly_row (row : list pystr) : bool :=
  let first_col := lower (strip (iloc0 row)) in
  if existsb (eqb first_col) assembly_names then has_numbers row else false.

Definition strip_row (row : list pystr) : list pystr := map strip row.

(** [enumerate] from [idx]. *)
Fixpoint enumerate {A : Type} (idx : nat) (l : list A) : list (nat * A) :=
  match l with
  | [] => []
  | x :: l' => (idx, x) :: enumerate (S idx) l'
  end.

Definition header_keywords : list pystr :=
  [(py "zone"); (py "< "); (py "> "); (py "to "); (py "°"); (py "degree")].

(** The test the backward search applies to one row. *)
Definition looks_like_header (row : list pystr) : bool :=
  let non_empty := Py.len (List.filter (fun cell => negb (eqb (strip cell) (py ""))) row) in
  let fill_ratio := Py.truediv non_empty (Py.len row) in
  let row_text := lower (join (py " ") row) in
  let has_header_keywords := existsb (contains row_text) header_keywords in
  (0.5 <=? fill_ratio)%float && has_header_keywords.

Definition _clean_table_structure (df : DataFrame)
  : list pystr * list (list pystr) :=
  if df_empty df then ([], [])
  else
    let found := List.filter (fun ir => is_assembly_row (snd ir)) (enumerate 0 df) in
    let data_rows := map (fun ir => strip_row (snd ir)) found in
    let data_indices := map fst found in
    match data_rows, data_indices with
    | first_row :: _, first_data_idx :: _ =>
        let header_idx :=
          fold_left
            (fun header_idx back_idx =>
               if looks_like_header (nth back_idx df []) then Some back_idx
               else header_idx)
            (seq (Nat.max 0 (first_data_idx - 10))
                 (first_data_idx - Nat.max 0 (first_data_idx - 10)))
            None in
        let headers :=
          match header_idx with
          | Some header_idx => strip_row (nth header_idx df [])
          | None =>
              if (0 <? first_data_idx)%nat
              then strip_row (nth (first_data_idx - 1) df [])
              else map (fun i => ((py "Column ") ++ of_int (Z.of_nat i)))
                       (seq 0 (length first_row))
          end in
        (headers, data_rows)
    | _, _ =>
        let headers := strip_row (nth 0 df []) in
        let rows := map strip_row (skipn 1 df) in
        (headers, rows)
    end.

(** [r'Table\s+([A-Z]?-?\d+(?:\.\d+)*(?:\.[A-Z])?\.(?:\(\d+\))?)'] *)
Definition table_pattern : Re.regex :=
  Re.Seq
    [ Re.Lit (py "Table");
      Re.Plus Re.space;
      Re.Group
        (Re.Seq
           [ Re.Opt Re.upper;
             Re.Opt (Re.Chr (chr "-"));
             Re.Plus Re.digit;
             Re.Star (Re.Seq [Re.Chr (chr "."); Re.Plus Re.digit]);
             Re.Opt (Re.Seq [Re.Chr (chr "."); Re.upper]);
             Re.Chr (chr ".");
             Re.Opt (Re.Seq [Re.Chr (chr "("); Re.Plus Re.digit; Re.Chr (chr ")")]) ]) ].

(** [r'\nForming Part'], [r'\nNotes to Table'], [r'\n\d+\.\d+'] and
    [r'\nTable \d+'] *)
Definition end_markers : list Re.regex :=
  [ Re.Seq [Re.Chr newline; Re.Lit (py "Forming Part")];
    Re.Seq [Re.Chr newline; Re.Lit (py "Notes to Table")];
    Re.Seq [Re.Chr newline; Re.Plus Re.digit; Re.Chr (chr "."); Re.Plus Re.digit];
    Re.Seq [Re.Chr newline; Re.Lit (py "Table "); Re.Plus Re.digit] ].

(** [matches[i]] on a list: a negative index counts from the end, an index
    out of range raises. *)
Definition list_getitem {A : Type} (l : list A) (i : Z) : pyresult A :=
  let j := if (i <? 0)%Z then (i + Py.len l)%Z else i in
  if (j <? 0)%Z then Raise IndexError
  else match nth_error l (Z.to_nat j) with
       | Some x => Return x
       | None => Raise IndexError
       end.

Definition _extract_table_metadata (page_text : pystr) (page_number table_idx : Z)
  : pyresult (pystr * pystr) :=
  let default_number :=
    ((py "Table-") ++ of_int page_number ++ (py "-") ++ of_int table_idx) in
  let default_title := (py "Untitled Table") in
  let matches := Re.finditer table_pattern page_text in
  if (table_idx <? Py.len matches)%Z then
    match_ <- list_getitem matches table_idx ;;
    let group1 :=
      match Re.m_group match_ with
      | Some span => Re.span_text page_text span
      | None => (py "None")
      end in
    let table_number := ((py "Table ") ++ group1) in
    let start_pos := Z.of_nat (Re.m_end match_) in
    let end_pos :=
      fold_left
        (fun end_pos marker =>
           match Re.search marker (slice_from page_text start_pos) with
           | Some marker_match =>
               Z.min end_pos (start_pos + Z.of_nat (Re.m_start marker_match))
           | None => end_pos
           end)
        end_markers (len page_text) in
    let title_text := strip (slice page_text start_pos end_pos) in
    let title_lines :=
      map strip (List.filter (fun line => truthy (strip line))
                        (firstn 3 (split title_text newline))) in
    let title :=
      match title_lines with
      | [] => default_title
      | _ => join (py " ") title_lines
      end in
    let title := Re.sub (Re.Plus Re.space) (py " ") title in
    let title :=
      if (200 <? len title)%Z then (slice_to title 197 ++ (py "...")) else title in
    Return (table_number, title)
  else Return (default_number, default_title).

(** A table of a vintage. *)
Record NECBTable : Type := {
  vintage : pystr;
  table_number : pystr;
  title : pystr;
  headers : list pystr;
  rows : list (list pystr);
  page_number : Z
}.

(** The loop of [_extract_tables_from_page] over the frames Camelot found on
    the page, with the text pdfplumber read from it.  [table_idx] counts the
    frames, the skipped ones too.  An exception ends the page: the tables
    stored before it stay. *)
Fixpoint store_tables (vintage page_text : pystr) (page_number : Z)
    (table_idx : nat) (frames : list DataFrame) (stored : list NECBTable)
  : list NECBTable :=
  match frames with
  | [] => stored
  | df :: rest =>
      if df_empty df || (Py.len df <? 2)%Z then
        store_tables vintage page_text page_number (S table_idx) rest stored
      else
        let cleaned := _clean_table_structure df in
        match fst cleaned, snd cleaned with
        | _ :: _, _ :: _ =>
            match _extract_table_metadata page_text page_number (Z.of_nat table_idx) with
            | Return (table_number, title) =>
                store_tables vintage page_text page_number (S table_idx) rest
                  (stored ++ [Build_NECBTable vintage table_number title
                                (fst cleaned) (snd cleaned) page_number])
            | Raise _ => stored
            end
        | _, _ => store_tables vintage page_text page_number (S table_idx) rest stored
        end
  end.

Definition _extract_tables_from_page (vintage : pystr) (frames : list DataFrame)
    (page_text : pystr) (page_number : Z) (stored : list NECBTable) : list NECBTable :=
  store_tables vintage page_text page_number 0 frames stored.

End NECBPDFParser.

(** ** Vocabulary of the statements *)

Module Spec.
Import PyStr.

(** The column count of one row, [row.count("|") - 1]. *)
Definition col_count (row : pystr) : Z := (count row (py "|") - 1)%Z.

(** The expected column count the fast extractor passes to
    [_calculate_confidence]: the first row's ([_parse_markdown_table]). *)
Definition first_row_cols (rows : list pystr) : Z :=
  match rows with
  | first_row :: _ => col_count first_row
  | [] => 0%Z
  end.

(** Some row's column count differs from the first row's. *)
Definition inconsistent_cols (rows : list pystr) : Prop :=
  Exists (fun row => col_count row <> first_row_cols rows) rows.

(** The cells of a row: the texts between one delimiter and the next. *)
Definition pipe : char := chr "|".

Definition cells_of (row : pystr) : list pystr :=
  removelast (tl (split row pipe)).

(** A cell that holds nothing but white space. *)
Definition is_blank (cell : pystr) : bool := negb (truthy (strip cell)).

(** The blank cells of a row that are counted, from left to right: a blank
    cell is counted unless the cell before it was, in which case it is
    passed over. *)
Fixpoint counted (passed_over : bool) (cells : list pystr) : nat :=
  match cells with
  | [] => 0
  | cell :: rest =>
      if passed_over then counted false rest
      else if is_blank cell then S (counted true rest)
      else counted false rest
  end.

(** The text behind the next delimiter, when only white space comes before
    it. *)
Definition behind_gap (s : pystr) : option pystr :=
  match lstrip_by isspace s with
  | d :: rest => if (pipe =? d)%N then Some rest else None
  | [] => None
  end.

(** The counted blank cells of the rows, and their number over the cells
    expected, at least one. *)
Definition counted_cells (rows : list pystr) : Z :=
  Py.sum (map (fun row => Z.of_nat (counted false (cells_of row))) rows).

Definition empty_cell_ratio (rows : list pystr) : float :=
  Py.truediv (counted_cells rows) (Z.max (Py.len rows * first_row_cols rows) 1).

(** The share of the cells of a table that are blank. *)
Definition blank_cells (rows : list pystr) : Z :=
  Py.sum (map (fun row => Py.len (List.filter is_blank (cells_of row))) rows).

Definition all_cells (rows : list pystr) : Z :=
  Py.sum (map (fun row => Py.len (cells_of row)) rows).

Definition empty_cell_share (rows : list pystr) : float :=
  Py.truediv (blank_cells rows) (all_cells rows).

(** A penalty factor that applies under a condition. *)
Definition penalty (applies : bool) (factor : float) : float :=
  if applies then factor else 1.0%float.

(** One outcome of a repair or the other: a record with no error, or no
    record with at least one error. *)
Definition record_xor_errors {record : Type}
    (out : option record * list repair_error) : Prop :=
  (exists r : record, out = (Some r, []))
  \/ (exists errors : list repair_error, out = (None, errors) /\ errors <> []).

(** What schema validation of a decoded object yields, as [validate_output]
    reports it. *)
Definition validation_report {record : Type}
    (outcome : LLMTableRepairer.instantiation record)
  : option record * list repair_error :=
  match outcome with
  | LLMTableRepairer.Validated r => (Some r, [])
  | LLMTableRepairer.ValidationError details =>
      (None,
       map (fun error => ValidationErrorIn (join (py " -> ") (loc error)) (msg error)) details)
  | LLMTableRepairer.Failed e => (None, [ValidationFailed e])
  end.

(** The known assembly labels. *)
Definition assembly_labels : list pystr :=
  [ py "walls"; py "roofs"; py "floors"; py "windows"; py "doors"; py "skylights" ].

(** A first cell that, trimmed and lower-cased, is one of the known
    assembly labels. *)
Definition known_label (cell : pystr) : Prop :=
  In (lower (strip cell)) assembly_labels.

(** The separators and the inequality signs left out before the digit
    test. *)
Definition separators : pystr := py ".,≥≤ ".

(** A cell is a numeric token: with the separators and the inequality signs
    left out, it is a non-empty run of digits. *)
Definition numeric_token (cell : pystr) : Prop :=
  let digits := List.filter (fun c => negb (char_in separators c)) cell in
  digits <> [] /\ Forall (fun c => Unicode.isdigit c = true) digits.

(** The two conditions of a data row: a label in the first cell, a numeric
    token in one of the others. *)
Definition data_row (row : list pystr) : Prop :=
  match row with
  | first :: rest => known_label first /\ Exists numeric_token rest
  | [] => False
  end.

(** [kept] holds the members of a list that satisfy a condition, in their
    order. *)
Inductive selected {A : Type} (P : A -> Prop) : list A -> list A -> Prop :=
| selected_nil : selected P [] []
| selected_keep (x : A) (l kept : list A) :
    P x -> selected P l kept -> selected P (x :: l) (x :: kept)
| selected_drop (x : A) (l kept : list A) :
    ~ P x -> selected P l kept -> selected P (x :: l) kept.




(** The block begins with the cell delimiter. *)
Definition well_formed_block (table : MarkdownTable.t) : bool :=
  startswith (strip (MarkdownTable.markdown_text table)) (py "|").

(** What every table of the fast extractor satisfies: its text, trimmed,
    begins with the cell delimiter, its row estimate is not negative, its
    column estimate is at least one, its confidence lies between 0 and 1, and
    it carries the page it was asked for. *)
Definition sound_block (page_num : Z) (table : MarkdownTable.t) : Prop :=
  well_formed_block table = true
  /\ (0 <= MarkdownTable.estimated_rows table)%Z
  /\ (1 <= MarkdownTable.estimated_cols table)%Z
  /\ (0.0 <=? MarkdownTable.confidence table)%float = true
  /\ (MarkdownTable.confidence table <=? 1.0)%float = true
  /\ MarkdownTable.page_number table = page_num.

(** What the scan of [_split_tables] keeps true: the tables found are sound,
    and the pending lines, when there are some, begin with a delimited
    line. *)
Definition scan_invariant (page_num : Z) (st : PyMuPDFTableExtractor.split_state)
  : Prop :=
  Forall (sound_block page_num) (PyMuPDFTableExtractor.tables st)
  /\ match PyMuPDFTableExtractor.current_table_lines st with
     | [] => PyMuPDFTableExtractor.in_table st = false
     | first :: _ => startswith (strip first) (py "|") = true
     end.

(** A cell without content, and a cell with nothing to trim. *)
Definition blank (cell : pystr) : Prop := truthy (strip cell) = false.
Definition trimmed (cell : pystr) : Prop := strip cell = cell.

(** The cell of a row at a column. *)
Definition cell_at (row : list pystr) (col : nat) : pystr := nth col row (py "").

(** What every table the layout extractor reads from markdown satisfies: it
    has a first row, which is its header row, no row is empty, every cell is
    trimmed, it carries the page asked for and no bounding box. *)
Definition sound_layout_table (target_page : Z) (table : MarkerTable.t) : Prop :=
  (exists rest, MarkerTable.cells table = MarkerTable.headers table :: rest)
  /\ Forall (fun row => row <> [] /\ Forall trimmed row) (MarkerTable.cells table)
  /\ MarkerTable.page_number table = target_page
  /\ MarkerTable.bboxes table = None.

(** The decoded replies on which the test for a lone [error] key raises
    [TypeError]: the scalars other than strings, which have no [in], and the
    array holding just the string "error", which has no string index. *)
Definition breaks_error_test (data : json) : Prop :=
  match data with
  | JNull | JBool _ | JInt _ | JFloat _ => True
  | JArray items => items = [JString (py "error")]
  | JString _ | JObject _ => False
  end.

(** What every table the page extractor appends satisfies: it carries the
    vintage and the page, it has headers and rows, and these are what the
    cleaner makes of one of the frames of the page. *)
Definition sound_stored_table (vintage : pystr)
    (frames : list NECBPDFParser.DataFrame) (page_number : Z)
    (table : NECBPDFParser.NECBTable) : Prop :=
  NECBPDFParser.vintage table = vintage
  /\ NECBPDFParser.page_number table = page_number
  /\ NECBPDFParser.headers table <> []
  /\ NECBPDFParser.rows table <> []
  /\ exists df : NECBPDFParser.DataFrame,
       In df frames
       /\ (NECBPDFParser.headers table, NECBPDFParser.rows table)
          = NECBPDFParser._clean_table_structure df.

End Spec.

(** ** Sample inputs *)

Module Samples.
Import PyStr.

(** The example of the specification: header and one data row, confidence
    0.95. *)
Definition envelope_block : MarkdownTable.t :=
  MarkdownTable.Build
    (join ([newline])
       [(py "| Assembly | Zone4 | Zone5 | Zone6 |"); (py "| Walls | 0.315 | 0.278 | 0.247 |")])
    1 4 0.95 72.

(** The same figures in a block without cell delimiters. *)
Definition undelimited_block : MarkdownTable.t :=
  MarkdownTable.Build (py "Walls 0.315 0.278 0.247") 1 4 0.95 72.

(** The double quote character. *)
Definition quote : pystr := [34%N].

(** A JSON object with the one key [error]. *)
Definition rejection_object : pystr :=
  (py "{") ++ quote ++ (py "error") ++ quote ++ (py ": ") ++ quote ++ (py "ambiguous") ++ quote ++ (py "}").

(** A model reply that rejects the table, inside a code fence: three
    backquotes and [json], the object, three backquotes. *)
Definition fenced_rejection : pystr :=
  (py "```json") ++ [newline] ++ rejection_object ++ [newline] ++ (py "```").

(** Stand-ins for the collaborators of the repair engine, enough to run it:
    a decoder that knows the rejection object, a validator that asks for a
    [vintage] field, and a model service that always rejects. *)
Definition sample_json_loads (s : pystr) : pyresult json :=
  if eqb s rejection_object
  then Return (JObject {[ (py "error") := JString (py "ambiguous") ]})
  else Raise (JSONDecodeError (py "Expecting value")).

Definition sample_schema_json (s : Schemas.schema) : pystr := (py "{}").

Definition sample_schema_validate (s : Schemas.schema) (fields : gmap pystr json)
  : LLMTableRepairer.instantiation (gmap pystr json) :=
  match fields !! (py "vintage") with
  | Some _ => LLMTableRepairer.Validated fields
  | None =>
      LLMTableRepairer.ValidationError [ErrorDetail [(py "vintage")] (py "Field required")]
  end.

Definition sample_client_generate (model : pystr) (p : prompt)
    (temperature : float) (timeout : Z) : pyresult (gmap pystr pystr) :=
  Return {[ (py "response") := fenced_rejection ]}.

Definition sample_repairer : LLMTableRepairer.t :=
  LLMTableRepairer.Build (py "llama3.1:8b") 0.0 30 false.

(** A grid with a caption, a header and assembly rows, and a grid outside
    the assembly vocabulary. *)
Definition envelope_grid : NECBPDFParser.DataFrame :=
  [ [(py "Table 3.2.2.2."); (py ""); (py "")];
    [(py "Assembly"); (py "Zone 4"); (py "Zone 5")];
    [(py "Walls "); (py "0.315"); (py "0.278")];
    [(py "Notes"); (py "1"); (py "2")];
    [(py "roofs"); (py "≤ 1,5"); (py "x")];
    [(py "Floors"); (py "a"); (py " ")] ].

Definition structural_grid : NECBPDFParser.DataFrame :=
  [ [(py "Member"); (py "Span")]; [(py "Beams"); (py "0.5")] ].

(** A page in markdown: a paragraph, then the envelope table. *)
Definition envelope_page : pystr :=
  join ([newline])
    [ (py "3.2.2.2. Thermal characteristics");
      (py "");
      (py "| Assembly | Zone4 | Zone5 | Zone6 |");
      (py "| Walls | 0.315 | 0.278 | 0.247 |");
      (py "");
      (py "See also Part 8.") ].

(** The table the fast extractor finds on it. *)
Definition envelope_page_table : MarkdownTable.t :=
  MarkdownTable.Build
    (join ([newline])
       [(py "| Assembly | Zone4 | Zone5 | Zone6 |"); (py "| Walls | 0.315 | 0.278 | 0.247 |")])
    1 4 1.0 72.

(** A page without a table. *)
Definition prose_page : pystr :=
  join ([newline]) [(py "3.2.2.2. Thermal characteristics"); (py "See also Part 8.")].

(** The separator line of a markdown table with [n] columns. *)
Fixpoint separator_cells (n : nat) : pystr :=
  match n with
  | O => (py "")
  | S k => (py "---|") ++ separator_cells k
  end.

Definition separator_line (n : nat) : pystr := (py "|") ++ separator_cells n.

(** A JSON object with the one key [vintage], a reply that carries it in a
    code fence, a decoder that knows it and a model service that sends it. *)
Definition vintage_object : pystr :=
  (py "{") ++ quote ++ (py "vintage") ++ quote ++ (py ": ") ++ quote ++ (py "2020") ++ quote ++ (py "}").

Definition fenced_vintage : pystr :=
  (py "```json") ++ [newline] ++ vintage_object ++ [newline] ++ (py "```").

Definition vintage_json_loads (s : pystr) : pyresult json :=
  if eqb s vintage_object
  then Return (JObject {[ (py "vintage") := JString (py "2020") ]})
  else Raise (JSONDecodeError (py "Expecting value")).

Definition vintage_client_generate (model : pystr) (p : prompt)
    (temperature : float) (timeout : Z) : pyresult (gmap pystr pystr) :=
  Return {[ (py "response") := fenced_vintage ]}.

(** A grid whose header names no zone. *)
Definition unzoned_grid : NECBPDFParser.DataFrame :=
  [ [(py "Assembly"); (py "U-value")]; [(py "Walls"); (py "0.315")]; [(py "Roofs"); (py "0.193")] ].

(** A one-row table with a blank cell after the label. *)
Definition merged_table : MarkerTable.t :=
  MarkerTable.Build [[(py "Walls"); (py ""); (py "0.315")]] [(py "Walls"); (py ""); (py "0.315")] 72 None.

(** Two rows of ten cells; five cells in a row of the second are empty. *)
Definition crowded_rows : list pystr :=
  [ py "| a | b | c | d | e | f | g | h | i | j |";
    py "| k | | | | | | l | m | n | o |" ].

End Samples.

(** * Properties *)

(** ** Floating-point comparisons *)

Section FloatOrder.

Lemma SFcompare_le_not_gt (x y : spec_float) :
  SFleb x y = true -> SFltb y x = false.
Proof.
  unfold SFleb, SFltb.
  destruct x as [sx | sx | | sx mx ex], y as [sy | sy | | sy my ey];
    simpl; try (destruct sx); try (destruct sy); simpl; try congruence.
  all: change (Pos.compare_cont Eq my mx) with (Pos.compare my mx);
    change (Pos.compare_cont Eq mx my) with (Pos.compare mx my);
    destruct (Z.compare_spec ex ey), (Z.compare_spec ey ex); try lia;
    destruct (Pos.compare_spec mx my), (Pos.compare_spec my mx); try lia;
    simpl; congruence.
Qed.

(** [a <= b] excludes [b < a], also for infinities, zeros and NaN. *)
Lemma float_leb_not_ltb (a b : float) :
  (a <=? b)%float = true -> (b <? a)%float = false.
Proof.
  rewrite leb_spec, ltb_spec. apply SFcompare_le_not_gt.
Qed.

End FloatOrder.

(** ** Fast extractor and validator *)

Section FastExtractor.
Import PyStr PyMuPDFTableExtractor Spec Samples.

Lemma consistent_cols_spec (expected_cols : Z) (rows : list pystr) :
  forallb (fun c => (c =? expected_cols)%Z) (map (fun row => (count row (py "|") - 1)%Z) rows)
  = negb (bool_decide (Exists (fun row => col_count row <> expected_cols) rows)).
Proof.
  induction rows as [| row rows IH].
  - rewrite bool_decide_eq_false_2 by (inversion 1). reflexivity.
  - cbn [map forallb]. rewrite IH. fold (col_count row).
    destruct (Z.eqb_spec (col_count row) expected_cols) as [Heq | Hne]; cbn [andb].
    + f_equal. apply bool_decide_ext. rewrite Exists_cons. tauto.
    + rewrite bool_decide_eq_true_2 by (now left). reflexivity.
Qed.

Lemma short_table_spec {A : Type} (rows : list A) :
  (Py.len rows <? 2)%Z = bool_decide (length rows < 2)%nat.
Proof.
  unfold Py.len.
  destruct (Z.ltb_spec (Z.of_nat (length rows)) 2);
    symmetry; [apply bool_decide_eq_true | apply bool_decide_eq_false]; lia.
Qed.

(** C6.  The penalty for empty cells is missed on a table of two rows of
    ten cells in which five cells, a quarter of all, are empty: every row
    has the column count of the first and there are two rows, so no other
    penalty applies, and with more than 20% of the cells empty the
    confidence should be 1.0 * 0.6; the code returns 1.0. *)
Theorem adjacent_empty_cells_escape_penalty :
  all_cells crowded_rows = 20%Z
  /\ blank_cells crowded_rows = 5%Z
  /\ (0.2 <? empty_cell_share crowded_rows)%float = true
  /\ Forall (fun row => col_count row = first_row_cols crowded_rows) crowded_rows
  /\ length crowded_rows = 2%nat
  /\ _calculate_confidence crowded_rows (first_row_cols crowded_rows) = 1.0%float
  /\ (1.0 * 0.6 <? _calculate_confidence crowded_rows (first_row_cols crowded_rows))%float
     = true.
Proof.
  repeat split; try (vm_compute; reflexivity).
  repeat constructor.
Qed.

End FastExtractor.

Section ExtractionValidator.
Import PyStr PyMuPDFTableExtractor Spec Samples.

(** C3, as the code has it.  A table that meets the three thresholds and
    whose text, trimmed, begins with the cell delimiter passes validation
    with no error. *)
Theorem validate_extraction_passes (table : MarkdownTable.t)
    (min_rows min_cols : Z) (min_confidence : float) :
  (min_cols <= MarkdownTable.estimated_cols table)%Z ->
  (min_rows <= MarkdownTable.estimated_rows table)%Z ->
  (min_confidence <=? MarkdownTable.confidence table)%float = true ->
  well_formed_block table = true ->
  let result := validate_extraction table min_rows min_cols min_confidence in
  ValidationResult.passed result = true /\ ValidationResult.errors result = [].
Proof.
  intros Hcols Hrows Hconf Hwf. cbv zeta. unfold validate_extraction.
  unfold well_formed_block in Hwf. rewrite Hwf.
  rewrite (float_leb_not_ltb _ _ Hconf).
  rewrite (proj2 (Z.ltb_ge _ _) Hcols), (proj2 (Z.ltb_ge _ _) Hrows).
  split; reflexivity.
Qed.

Lemma validate_extraction_passes_envelope :
  ValidationResult.passed (validate_extraction envelope_block 1 4 0.8) = true
  /\ ValidationResult.errors (validate_extraction envelope_block 1 4 0.8) = [].
Proof.
  apply (validate_extraction_passes envelope_block 1 4 0.8);
    [ vm_compute; discriminate | vm_compute; discriminate
    | reflexivity | reflexivity ].
Defined.

(** C3 as stated fails: a table can meet the three thresholds and still be
    rejected, because its text does not begin with the cell delimiter. *)
Lemma thresholds_met_but_rejected :
  (4 <= MarkdownTable.estimated_cols undelimited_block)%Z
  /\ (1 <= MarkdownTable.estimated_rows undelimited_block)%Z
  /\ (0.8 <=? MarkdownTable.confidence undelimited_block)%float = true
  /\ ValidationResult.passed (validate_extraction undelimited_block 1 4 0.8) = false
  /\ ValidationResult.errors (validate_extraction undelimited_block 1 4 0.8)
     = [MalformedTable].
Proof.
  repeat split; try reflexivity; vm_compute; discriminate.
Qed.

(** C5.  [passed] holds exactly when the error list is empty.  The errors
    come from the column, row and confidence thresholds and from the
    delimiter check only; an empty-cell ratio above 0.2 adds a warning and
    nothing else, so [passed] is the conjunction of the four checks whatever
    the ratio is. *)
Theorem passed_iff_no_errors (table : MarkdownTable.t)
    (min_rows min_cols : Z) (min_confidence : float) :
  let result := validate_extraction table min_rows min_cols min_confidence in
  let empty_ratio := _estimate_empty_ratio (MarkdownTable.markdown_text table) in
  (ValidationResult.passed result = true <-> ValidationResult.errors result = [])
  /\ ValidationResult.errors result =
       (if (MarkdownTable.estimated_cols table <? min_cols)%Z
        then [TooFewColumns (MarkdownTable.estimated_cols table) min_cols] else [])
       ++ (if (MarkdownTable.estimated_rows table <? min_rows)%Z
           then [TooFewRows (MarkdownTable.estimated_rows table) min_rows] else [])
       ++ (if (MarkdownTable.confidence table <? min_confidence)%float
           then [LowConfidence (MarkdownTable.confidence table) min_confidence] else [])
       ++ (if well_formed_block table then [] else [MalformedTable])
  /\ ValidationResult.warnings result =
       (if (0.2 <? empty_ratio)%float then [HighEmptyCellRatio empty_ratio] else [])
  /\ ValidationResult.passed result =
       negb (MarkdownTable.estimated_cols table <? min_cols)%Z
       && negb (MarkdownTable.estimated_rows table <? min_rows)%Z
       && negb (MarkdownTable.confidence table <? min_confidence)%float
       && well_formed_block table.
Proof.
  cbv zeta. unfold validate_extraction, well_formed_block.
  destruct (MarkdownTable.estimated_cols table <? min_cols)%Z;
    destruct (MarkdownTable.estimated_rows table <? min_rows)%Z;
    destruct (MarkdownTable.confidence table <? min_confidence)%float;
    destruct (startswith (strip (MarkdownTable.markdown_text table)) (py "|"));
    destruct (0.2 <? _estimate_empty_ratio (MarkdownTable.markdown_text table))%float;
    cbn; repeat split; try reflexivity; intros H; try discriminate H;
    vm_compute in H; congruence.
Qed.

End ExtractionValidator.

(** ** Schema registry *)

Section SchemaRegistry.
Import PyStr Schemas Spec.

Lemma registry_entries (table_number : pystr) (s : schema) :
  SCHEMA_REGISTRY !! table_number = Some s ->
  (table_number, s) ∈
    [ ((py "3.2.2.2"), EnvelopeTable); ((py "3.2.2.3"), EnvelopeTable);
      ((py "3.2.1.4"), FDWRTable); ((py "4.2.1.3"), LightingTable);
      ((py "5.2.5.3"), PipingInsulationTable);
      ((py "8.4.4.8.A"), HVACTable); ((py "8.4.4.8.B"), HVACTable) ].
Proof. apply elem_of_list_to_map_2. Qed.









End SchemaRegistry.

(** ** Layout normalisation *)

Section Normalisation.
Import PyStr MarkerTableExtractor.

Lemma pad_row_length (max_cols : nat) (row : list pystr) :
  (length row <= max_cols)%nat -> length (pad_row max_cols row) = max_cols.
Proof.
  intros H. unfold pad_row. rewrite length_app, repeat_length. lia.
Qed.

Lemma pad_row_full (row : list pystr) : pad_row (length row) row = row.
Proof.
  unfold pad_row. rewrite Nat.sub_diag. apply app_nil_r.
Qed.

Lemma pad_row_has_content (max_cols : nat) (row : list pystr) :
  row_has_content (pad_row max_cols row) = row_has_content row.
Proof.
  unfold row_has_content, pad_row. rewrite existsb_app.
  replace (existsb (fun cell => truthy (strip cell)) (repeat (py "") (max_cols - length row)))
    with false; [apply orb_false_r |].
  induction (max_cols - length row)%nat as [| n IH]; [reflexivity | exact IH].
Qed.

Lemma pad_row_nonempty (max_cols : nat) (row : list pystr) :
  row <> [] -> pad_row max_cols row <> [].
Proof.
  destruct row; [congruence | discriminate].
Qed.

Lemma list_max_bound (lens : list nat) (n : nat) :
  In n lens -> (n <= list_max lens)%nat.
Proof.
  intros H. pose proof (proj1 (list_max_le lens (list_max lens)) (Nat.le_refl _)) as Hall.
  rewrite Forall_forall in Hall. apply Hall.
  apply list_elem_of_In. exact H.
Qed.

Lemma list_max_constant (lens : list nat) (n : nat) :
  lens <> [] -> Forall (fun k => k = n) lens -> list_max lens = n.
Proof.
  intros Hne Hall. destruct lens as [| k lens]; [congruence |].
  clear Hne. revert k Hall. induction lens as [| k' lens IH]; intros k Hall.
  - inversion Hall; subst. simpl. lia.
  - inversion Hall as [| ? ? Hk Hrest]; subst.
    change (list_max (n :: k' :: lens)) with (Nat.max n (list_max (k' :: lens))).
    rewrite (IH k' Hrest). lia.
Qed.

(** The scan for the header row. *)
Lemma first_content_row_some (cells : list (list pystr)) (start idx : nat) :
  first_content_row cells start = Some idx ->
  (start <= idx)%nat /\ (idx - start < length cells)%nat
  /\ row_has_content (nth (idx - start) cells []) = true.
Proof.
  revert start. induction cells as [| row rest IH]; intros start; simpl.
  - discriminate.
  - destruct (row_has_content row) eqn:Hrow.
    + intros [= <-]. rewrite Nat.sub_diag. repeat split; [lia | lia | exact Hrow].
    + intros H. destruct (IH _ H) as (Hle & Hlt & Hc).
      replace (idx - start)%nat with (S (idx - S start)) by lia.
      repeat split; [lia | lia | exact Hc].
Qed.

Lemma first_content_row_none (cells : list (list pystr)) (start : nat) :
  first_content_row cells start = None ->
  Forall (fun row => row_has_content row = false) cells.
Proof.
  revert start. induction cells as [| row rest IH]; intros start; simpl.
  - constructor.
  - destruct (row_has_content row) eqn:Hrow; [discriminate |].
    intros H. constructor; [exact Hrow | exact (IH _ H)].
Qed.

Lemma filter_no_content (rows : list (list pystr)) :
  Forall (fun row => row_has_content row = false) rows ->
  List.filter row_has_content rows = [].
Proof.
  induction 1 as [| row rows Hrow _ IH]; [reflexivity |].
  cbn. rewrite Hrow. exact IH.
Qed.

Lemma filter_all_content (rows : list (list pystr)) :
  Forall (fun row => row_has_content row = true) rows ->
  List.filter row_has_content rows = rows.
Proof.
  induction 1 as [| row rows Hrow _ IH]; [reflexivity |].
  cbn. rewrite Hrow. now rewrite IH.
Qed.

(** The width all rows are padded to. *)
Lemma max_cols_eq (headers : list pystr) (data_rows : list (list pystr)) :
  match data_rows with
  | [] => length headers
  | _ => list_max (map (@length pystr) (headers :: data_rows))
  end = list_max (map (@length pystr) (headers :: data_rows)).
Proof.
  destruct data_rows; [simpl; lia | reflexivity].
Qed.

(** What [normalize_structure] builds from a non-empty grid: a header row
    and the data rows with content below it, all padded to one width. *)
Lemma normalize_structure_shape (table : MarkerTable.t) :
  MarkerTable.cells table <> [] ->
  exists (headers : list pystr) (data_rows : list (list pystr)),
    let max_cols := list_max (map (@length pystr) (headers :: data_rows)) in
    Forall (fun row => row_has_content row = true) data_rows
    /\ (row_has_content headers = false -> data_rows = [])
    /\ normalize_structure table =
         MarkerTable.Build
           (match headers with
            | [] => []
            | _ => [pad_row max_cols headers]
            end ++ map (pad_row max_cols) data_rows)
           (match headers with
            | [] => []
            | _ => pad_row max_cols headers
            end)
           (MarkerTable.page_number table) (MarkerTable.bboxes table).
Proof.
  intros Hne. unfold normalize_structure.
  destruct (MarkerTable.cells table) as [| row0 rest] eqn:Hcells; [congruence |].
  set (cells := row0 :: rest) in *.
  set (idx := match first_content_row cells 0 with Some i => i | None => 0%nat end).
  set (headers := if (idx <? length cells)%nat then nth idx cells [] else []).
  set (raw := if (idx + 1 <? length cells)%nat then skipn (idx + 1) cells else []).
  exists headers, (List.filter row_has_content raw).
  cbv zeta. rewrite max_cols_eq.
  split; [| split].
  - apply Forall_forall. intros row Hin.
    apply list_elem_of_In, filter_In in Hin. tauto.
  - intros Hnone. apply filter_no_content.
    subst headers raw idx.
    destruct (first_content_row cells 0) as [i |] eqn:Hscan.
    + apply first_content_row_some in Hscan as (_ & Hlt & Hc).
      rewrite Nat.sub_0_r in Hlt, Hc.
      rewrite (proj2 (Nat.ltb_lt _ _) Hlt) in Hnone. congruence.
    + apply first_content_row_none in Hscan.
      destruct (0 + 1 <? length cells)%nat; [| constructor].
      subst cells. inversion Hscan; subst. assumption.
  - destruct headers; reflexivity.
Qed.

(** C2.  Every row of the grid [normalize_structure] returns is as long as
    the header row it returns. *)
Theorem normalized_grid_is_rectangular (table : MarkerTable.t) :
  Forall
    (fun row => length row = length (MarkerTable.headers (normalize_structure table)))
    (MarkerTable.cells (normalize_structure table)).
Proof.
  destruct (MarkerTable.cells table) as [| row0 rest] eqn:Hcells.
  - unfold normalize_structure. rewrite Hcells, Hcells. constructor.
  - destruct (normalize_structure_shape table) as (headers & data_rows & _ & Hnone & ->);
      [congruence |].
    cbn [MarkerTable.cells MarkerTable.headers].
    set (max_cols := list_max (map (@length pystr) (headers :: data_rows))).
    assert (Hwidth : forall row, In row (headers :: data_rows) ->
                                 length (pad_row max_cols row) = max_cols).
    { intros row Hin. apply pad_row_length, list_max_bound, in_map, Hin. }
    destruct headers as [| cell cells].
    + rewrite (Hnone eq_refl). constructor.
    + rewrite (Hwidth (cell :: cells)) by (now left).
      constructor; [apply Hwidth; now left |].
      apply Forall_forall. intros row Hin.
      apply list_elem_of_In, in_map_iff in Hin as (row' & <- & Hin').
      apply Hwidth. now right.
Qed.

(** A grid that already has the normal form is returned as it is. *)
Lemma normalize_structure_fixed (headers : list pystr) (rows : list (list pystr))
    (page : Z) (boxes : option (list (list float))) :
  headers <> [] ->
  Forall (fun row => length row = length headers) rows ->
  Forall (fun row => row_has_content row = true) rows ->
  (row_has_content headers = false -> rows = []) ->
  normalize_structure (MarkerTable.Build (headers :: rows) headers page boxes)
  = MarkerTable.Build (headers :: rows) headers page boxes.
Proof.
  intros Hne Hlen Hcontent Hnone.
  unfold normalize_structure. cbn [MarkerTable.cells MarkerTable.page_number MarkerTable.bboxes].
  assert (Hidx : match first_content_row (headers :: rows) 0 with
                 | Some i => i
                 | None => 0%nat
                 end = 0%nat).
  { cbn [first_content_row]. destruct (row_has_content headers); [reflexivity |].
    rewrite (Hnone eq_refl). reflexivity. }
  rewrite Hidx.
  assert (Hhead : (if (0 <? length (headers :: rows))%nat
                   then nth 0 (headers :: rows) [] else []) = headers).
  { reflexivity. }
  assert (Hraw : (if (0 + 1 <? length (headers :: rows))%nat
                  then skipn (0 + 1) (headers :: rows) else []) = rows).
  { destruct rows; reflexivity. }
  rewrite Hhead, Hraw, (filter_all_content rows Hcontent), max_cols_eq.
  assert (Hmax : list_max (map (@length pystr) (headers :: rows)) = length headers).
  { apply list_max_constant; [discriminate |].
    constructor; [reflexivity |]. apply Forall_map. exact Hlen. }
  rewrite Hmax, pad_row_full.
  assert (Hrows : map (pad_row (length headers)) rows = rows).
  { clear - Hlen. induction Hlen as [| row rows Hrow _ IH]; [reflexivity |].
    cbn [map]. rewrite <- Hrow at 1. rewrite pad_row_full. now rewrite IH. }
  rewrite Hrows. destruct headers; [congruence | reflexivity].
Qed.

(** C10.  Normalising a normalised table changes nothing, in any field. *)
Theorem normalize_structure_idempotent (table : MarkerTable.t) :
  normalize_structure (normalize_structure table) = normalize_structure table.
Proof.
  destruct (MarkerTable.cells table) as [| row0 rest] eqn:Hcells.
  - assert (Hsame : normalize_structure table = table).
    { unfold normalize_structure. now rewrite Hcells. }
    now rewrite Hsame.
  - destruct (normalize_structure_shape table)
      as (headers & data_rows & Hcontent & Hnone & ->); [congruence |].
    set (max_cols := list_max (map (@length pystr) (headers :: data_rows))).
    assert (Hwidth : forall row, In row (headers :: data_rows) ->
                                 length (pad_row max_cols row) = max_cols).
    { intros row Hin. apply pad_row_length, list_max_bound, in_map, Hin. }
    destruct headers as [| cell cells].
    + rewrite (Hnone eq_refl). reflexivity.
    + cbn [app]. apply normalize_structure_fixed.
      * apply pad_row_nonempty. discriminate.
      * apply Forall_forall. intros row Hin.
        apply list_elem_of_In, in_map_iff in Hin as (row' & <- & Hin').
        rewrite !Hwidth; [reflexivity | now left | now right].
      * apply Forall_forall. intros row Hin.
        apply list_elem_of_In, in_map_iff in Hin as (row' & <- & Hin').
        rewrite pad_row_has_content.
        rewrite Forall_forall in Hcontent. apply Hcontent, list_elem_of_In, Hin'.
      * rewrite pad_row_has_content. intros H. now rewrite (Hnone H).
Qed.

End Normalisation.

(** ** Repair engine *)

Section RepairEngine.
Import PyStr Schemas LLMTableRepairer Spec.

Variable record : Type.
Variable record_truthy : record -> bool.
Variable json_loads : pystr -> pyresult json.
Variable schema_json : schema -> pystr.
Variable schema_validate : schema -> gmap pystr json -> instantiation record.
Variable client_generate :
  pystr -> prompt -> float -> Z -> pyresult (gmap pystr pystr).

(** Two facts about pydantic the engine relies on: an instance of a
    [BaseModel] is true in a condition (the class defines neither
    [__bool__] nor [__len__]), and a [ValidationError] raised by validation
    reports at least one error. *)
Hypothesis records_are_truthy : forall r : record, record_truthy r = true.
Hypothesis validation_errors_nonempty :
  forall (s : schema) (fields : gmap pystr json) (details : list error_detail),
    schema_validate s fields = ValidationError details -> details <> [].

Abbreviation validate_output := (validate_output record json_loads schema_validate).
Abbreviation repair_and_normalize :=
  (repair_and_normalize record record_truthy json_loads schema_json
     schema_validate client_generate).

Lemma validate_output_outcome (llm_output : pystr) (target_schema : schema)
    (out : option record * list repair_error) :
  validate_output llm_output target_schema = Return out -> record_xor_errors out.
Proof.
  unfold LLMTableRepairer.validate_output.
  destruct (json_loads (_extract_json_from_markdown llm_output)) as [data | e].
  - destruct (py_contains (py "error") data) as [has_error | e]; cbn [pybind];
      [| discriminate].
    destruct (if has_error then _ else _) as [lone | e] eqn:Hlone; cbn [pybind];
      [| discriminate].
    destruct lone.
    + destruct (py_getitem data (py "error")) as [reason | e]; cbn [pybind];
        [| discriminate].
      intros [= <-]. right. eexists. split; [reflexivity | discriminate].
    + destruct (instantiate record schema_validate target_schema data)
        as [r | details | e] eqn:Hinst; intros [= <-].
      * left. eexists. reflexivity.
      * right. eexists. split; [reflexivity |].
        unfold instantiate in Hinst. destruct data; try discriminate.
        apply validation_errors_nonempty in Hinst.
        destruct details; [congruence | discriminate].
      * right. eexists. split; [reflexivity | discriminate].
  - destruct e; try discriminate.
    intros [= <-]. right. eexists. split; [reflexivity | discriminate].
Qed.

(** C1.  Whatever the raw table, the table number, the vintage and the
    schema argument are, and whatever the decoder, pydantic and the model
    service answer, [repair_and_normalize] returns a record with an empty
    error list, or no record with a non-empty error list. *)
Theorem repair_returns_record_xor_errors (self : LLMTableRepairer.t)
    (raw_table table_number vintage : pystr) (target_schema : option schema) :
  record_xor_errors
    (repair_and_normalize self raw_table table_number vintage target_schema).
Proof.
  unfold LLMTableRepairer.repair_and_normalize.
  destruct (match target_schema with
            | Some s => Some s
            | None => get_schema_for_table table_number
            end) as [schema |].
  - destruct (client_generate _ _ _ _) as [response | e]; cbn [pybind].
    + destruct (response !! (py "response")) as [llm_output |]; cbn [pybind].
      * destruct (validate_output llm_output schema) as [out | e] eqn:Hout;
          cbn [pybind].
        -- apply validate_output_outcome in Hout.
           destruct Hout as [[r ->] | (errors & -> & Hne)]; cbn [fst snd].
           ++ rewrite records_are_truthy. left. eexists. reflexivity.
           ++ right. eexists. split; [reflexivity | exact Hne].
        -- right. eexists. split; [reflexivity | discriminate].
      * right. eexists. split; [reflexivity | discriminate].
    + right. eexists. split; [reflexivity | discriminate].
  - right. eexists. split; [reflexivity | discriminate].
Qed.

End RepairEngine.


Section ModelRejection.
Import PyStr Schemas LLMTableRepairer Spec Samples.

Variable record : Type.
Variable json_loads : pystr -> pyresult json.
Variable schema_validate : schema -> gmap pystr json -> instantiation record.

Abbreviation validate_output := (validate_output record json_loads schema_validate).

Lemma two_keys_not_lone (fields : gmap pystr json) (key other : pystr) :
  is_Some (fields !! key) -> is_Some (fields !! other) -> key <> other ->
  (Z.of_nat (size fields) =? 1)%Z = false.
Proof.
  intros Hkey Hother Hne. apply Z.eqb_neq. intros Hsize.
  assert (Hgone : size (delete key fields) = 0%nat).
  { rewrite map_size_delete_Some by exact Hkey. lia. }
  apply map_size_empty_inv in Hgone.
  assert (Hstill : delete key fields !! other = fields !! other).
  { apply lookup_delete_ne. exact Hne. }
  rewrite Hgone, lookup_empty in Hstill.
  rewrite <- Hstill in Hother. destruct Hother as [? [=]].
Qed.

(** C8.  When the model's reply, with its code fence removed, decodes to an
    object whose only key is [error], [validate_output] returns no record and
    the one error that reports the rejection, whatever schema validation would
    have said.  When the object has the key [error] and another key, the
    outcome is the one of schema validation. *)
Theorem lone_error_object_is_a_rejection (llm_output : pystr) (target_schema : schema) :
  (forall reason : json,
      json_loads (_extract_json_from_markdown llm_output)
        = Return (JObject {[ (py "error") := reason ]}) ->
      validate_output llm_output target_schema
        = Return (None, [LLMRejectedInput reason]))
  /\ (forall (fields : gmap pystr json) (other : pystr),
        json_loads (_extract_json_from_markdown llm_output) = Return (JObject fields) ->
        is_Some (fields !! (py "error")) ->
        is_Some (fields !! other) ->
        other <> (py "error") ->
        validate_output llm_output target_schema
          = Return (validation_report (schema_validate target_schema fields))).
Proof.
  split.
  - intros reason Hloads. unfold LLMTableRepairer.validate_output.
    rewrite Hloads. cbn [py_contains pybind].
    rewrite lookup_singleton_eq.
    rewrite bool_decide_eq_true_2 by (eexists; reflexivity).
    cbn [py_len pybind]. rewrite map_size_singleton.
    cbn [Z.of_nat Z.eqb Pos.of_succ_nat Pos.eqb py_getitem pybind].
    rewrite lookup_singleton_eq. reflexivity.
  - intros fields other Hloads Herror Hother Hne.
    unfold LLMTableRepairer.validate_output.
    rewrite Hloads. cbn [py_contains pybind].
    rewrite bool_decide_eq_true_2 by exact Herror.
    cbn [py_len pybind].
    rewrite (two_keys_not_lone fields (py "error") other Herror Hother) by congruence.
    cbn [instantiate]. destruct (schema_validate target_schema fields); reflexivity.
Qed.

End ModelRejection.

Section SampleRuns.
Import PyStr Schemas LLMTableRepairer Spec Samples.

(** The sample decoder on the fenced rejection. *)
Lemma fenced_rejection_is_rejected :
  LLMTableRepairer.validate_output (gmap pystr json) sample_json_loads
    sample_schema_validate fenced_rejection EnvelopeTable
  = Return (None, [LLMRejectedInput (JString (py "ambiguous"))]).
Proof.
  apply (proj1 (lone_error_object_is_a_rejection (gmap pystr json) sample_json_loads
                  sample_schema_validate fenced_rejection EnvelopeTable)).
  reflexivity.
Defined.

Lemma sample_validation_errors_nonempty
    (s : schema) (fields : gmap pystr json) (details : list error_detail) :
  sample_schema_validate s fields = ValidationError details -> details <> [].
Proof.
  unfold sample_schema_validate. destruct (fields !! (py "vintage")); [discriminate |].
  intros [= <-]. discriminate.
Defined.

(** The sample services on the envelope table of the 2020 vintage. *)
Lemma sample_repair_is_record_xor_errors :
  record_xor_errors
    (LLMTableRepairer.repair_and_normalize (gmap pystr json) (fun _ => true)
       sample_json_loads sample_schema_json sample_schema_validate
       sample_client_generate sample_repairer
       (py "| Walls | 0.315 |") (py "3.2.2.2") (py "2020") None).
Proof.
  apply (repair_returns_record_xor_errors (gmap pystr json) (fun _ => true)
           sample_json_loads sample_schema_json sample_schema_validate
           sample_client_generate).
  - intros r. reflexivity.
  - exact sample_validation_errors_nonempty.
Defined.

End SampleRuns.


(** ** Metadata extractor *)

Section MetadataExtractor.
Import PyStr NECBPDFParser.

(** C9.  When the page text has fewer than [table_idx + 1] matches of the
    table-number pattern, the metadata extractor returns, without raising,
    the identifier "Table-<page>-<index>" and the title "Untitled Table". *)
Theorem missing_match_gives_defaults (page_text : pystr) (page_number table_idx : Z) :
  (Py.len (Re.finditer table_pattern page_text) < table_idx + 1)%Z ->
  _extract_table_metadata page_text page_number table_idx
  = Return (((py "Table-") ++ of_int page_number ++ (py "-") ++ of_int table_idx),
            (py "Untitled Table")).
Proof.
  intros Hfew. unfold _extract_table_metadata.
  rewrite (proj2 (Z.ltb_ge _ _)) by lia. reflexivity.
Qed.

Lemma page_without_tables_gives_defaults :
  _extract_table_metadata (py "3.2.2. Prescriptive path, no table here") 73 0
  = Return ((py "Table-73-0"), (py "Untitled Table")).
Proof.
  apply (missing_match_gives_defaults (py "3.2.2. Prescriptive path, no table here") 73 0).
  vm_compute. reflexivity.
Defined.

End MetadataExtractor.

(** ** Table cleaner *)

Section TableCleaner.
Import PyStr NECBPDFParser Spec Samples.

(** *** Blank cells *)

Lemma lstrip_empty (p : char -> bool) (s : pystr) :
  lstrip_by p s = [] -> all_chars p s = true.
Proof.
  induction s as [| c s IH]; [reflexivity |].
  cbn [lstrip_by all_chars]. destruct (p c); [exact IH | discriminate].
Qed.

Lemma rstrip_all (p : char -> bool) (s : pystr) :
  all_chars p (rstrip_by p s) = true -> all_chars p s = true.
Proof.
  induction s as [| c s IH]; [reflexivity |].
  cbn [rstrip_by all_chars].
  destruct (rstrip_by p s) as [| d r].
  - rewrite (IH eq_refl), andb_true_r.
    destruct (p c) eqn:Hc; [reflexivity |].
    cbn [all_chars]. rewrite Hc. discriminate.
  - cbn [all_chars]. intros H. apply andb_prop in H as [Hc Hr].
    rewrite Hc, (IH Hr). reflexivity.
Qed.

(** A cell that [strip] empties consists of white space. *)
Lemma blank_cell_is_space (cell : pystr) :
  truthy (strip cell) = false -> all_chars isspace cell = true.
Proof.
  unfold strip, strip_by. intros H.
  apply rstrip_all, lstrip_empty.
  destruct (lstrip_by isspace (rstrip_by isspace cell)); [reflexivity | discriminate].
Qed.

Lemma in_ranges_spec (ranges : list (N * N)) (c : char) :
  Unicode.in_ranges ranges c = true
  <-> exists lo hi : N, In (lo, hi) ranges /\ (lo <= c <= hi)%N.
Proof.
  unfold Unicode.in_ranges. rewrite existsb_exists. split.
  - intros ([lo hi] & Hin & Hc). apply andb_prop in Hc as [Hlo Hhi].
    exists lo, hi. split; [exact Hin |].
    split; [now apply N.leb_le | now apply N.leb_le].
  - intros (lo & hi & Hin & Hlo & Hhi). exists (lo, hi). split; [exact Hin |].
    apply andb_true_intro. split; now apply N.leb_le.
Qed.

(** Two tables of ranges are apart when each range of the one ends before
    or starts after each range of the other. *)
Lemma ranges_apart (ranges others : list (N * N)) (c : char) :
  forallb (fun r => forallb (fun o => (snd r <? fst o)%N || (snd o <? fst r)%N) others)
          ranges = true ->
  Unicode.in_ranges ranges c = true -> Unicode.in_ranges others c = false.
Proof.
  intros Hapart Hc. apply in_ranges_spec in Hc as (lo & hi & Hin & Hlo & Hhi).
  destruct (Unicode.in_ranges others c) eqn:Ho; [| reflexivity].
  apply in_ranges_spec in Ho as (lo' & hi' & Hin' & Hlo' & Hhi').
  rewrite forallb_forall in Hapart. specialize (Hapart _ Hin).
  rewrite forallb_forall in Hapart. specialize (Hapart _ Hin').
  cbn [fst snd] in Hapart. apply orb_prop in Hapart as [H | H];
    apply N.ltb_lt in H; lia.
Qed.

(** No white space is a digit. *)
Lemma space_is_no_digit (c : char) : isspace c = true -> isdigit_char c = false.
Proof. apply ranges_apart. vm_compute. reflexivity. Qed.

(** A cell that consists of white space has no character that is not. *)
Lemma space_cell_has_no_digit (cell : pystr) (c : char) :
  all_chars isspace cell = true -> In c cell -> isdigit_char c = false.
Proof.
  induction cell as [| d cell IH]; [intros _ [] |].
  cbn [all_chars]. intros H. apply andb_prop in H as [Hd Hcell].
  intros [<- | Hin]; [now apply space_is_no_digit | now apply IH].
Qed.

(** *** The numeric test *)

(** Replacing a character by nothing leaves the other characters. *)
Lemma replace_char (s : pystr) (c : char) :
  replace s [c] [] = List.filter (fun d => negb (d =? c)%N) s.
Proof.
  unfold replace. induction s as [| d s IH]; [reflexivity |].
  cbn [replace_aux prefix List.filter length Nat.sub app].
  rewrite (N.eqb_sym c d). destruct (d =? c)%N; cbn [andb negb].
  - replace (prefix [] s) with true by (now destruct s). exact IH.
  - now rewrite IH.
Qed.

Lemma filter_filter {A : Type} (p q : A -> bool) (l : list A) :
  List.filter p (List.filter q l) = List.filter (fun x => q x && p x) l.
Proof.
  induction l as [| x l IH]; [reflexivity |].
  cbn [List.filter]. destruct (q x); cbn [andb List.filter]; [| exact IH].
  destruct (p x); now rewrite IH.
Qed.

(** The five replacements of the numeric test leave the characters that are
    no separator. *)
Lemma numeric_cell_digits (cell : pystr) :
  is_numeric_cell cell
  = isdigit (List.filter (fun c => negb (char_in separators c)) cell).
Proof.
  unfold is_numeric_cell.
  change (py ".") with [46%N]. change (py ",") with [44%N].
  change (py "≥") with [8805%N]. change (py "≤") with [8804%N].
  change (py " ") with [32%N]. change [] with (@nil char).
  rewrite !replace_char, !filter_filter. f_equal.
  apply List.filter_ext. intros c. unfold separators, char_in.
  change (py ".,≥≤ ") with [46%N; 44%N; 8805%N; 8804%N; 32%N].
  cbn [existsb]. rewrite orb_false_r, !negb_orb. now rewrite !andb_assoc.
Qed.

Lemma all_chars_Forall (p : char -> bool) (s : pystr) :
  all_chars p s = true <-> Forall (fun c => p c = true) s.
Proof.
  induction s as [| c s IH]; [split; [constructor | reflexivity] |].
  cbn [all_chars]. rewrite andb_true_iff, IH. split.
  - intros [Hc Hs]. now constructor.
  - intros H. inversion H; subst. auto.
Qed.

(** The numeric test of the code is the numeric token of the
    statements. *)
Lemma is_numeric_cell_spec (cell : pystr) :
  is_numeric_cell cell = true <-> numeric_token cell.
Proof.
  rewrite numeric_cell_digits. unfold numeric_token, isdigit. cbv zeta.
  rewrite andb_true_iff, all_chars_Forall.
  destruct (List.filter _ cell); cbn [truthy]; split; intros [H1 H2];
    (split; [congruence || discriminate | exact H2]).
Qed.

(** A numeric token is not blank, so the filter on non-blank cells in
    [has_numbers] drops no numeric cell. *)
Lemma numeric_cell_is_not_blank (cell : pystr) :
  is_numeric_cell cell = true -> truthy (strip cell) = true.
Proof.
  intros Hnum. destruct (truthy (strip cell)) eqn:Hblank; [reflexivity |].
  apply blank_cell_is_space in Hblank.
  apply is_numeric_cell_spec in Hnum as [Hsome Hdigits]. cbv zeta in *.
  destruct (List.filter _ cell) as [| c digits] eqn:Hfilter; [congruence |].
  assert (Hin : In c cell).
  { eapply proj1, filter_In. rewrite Hfilter. now left. }
  inversion Hdigits as [| ? ? Hc _]; subst.
  pose proof (space_cell_has_no_digit cell c Hblank Hin) as Hno.
  unfold isdigit_char in Hno. congruence.
Qed.

(** *** The scan for data rows *)

Lemma eqb_eq (a b : pystr) : PyStr.eqb a b = true <-> a = b.
Proof. unfold PyStr.eqb. apply bool_decide_eq_true. Qed.

(** The test of the scan is the conjunction of the two conditions. *)
Lemma is_assembly_row_spec (row : list pystr) :
  is_assembly_row row = true <-> data_row row.
Proof.
  unfold is_assembly_row, has_numbers. cbv zeta.
  assert (Hlabel : existsb (PyStr.eqb (lower (strip (iloc0 row)))) assembly_names = true
                   <-> known_label (iloc0 row)).
  { unfold known_label. change assembly_labels with assembly_names.
    rewrite existsb_exists. split.
    - intros (name & Hin & Heq). apply eqb_eq in Heq. now rewrite Heq.
    - intros Hin. eexists. split; [exact Hin | now apply eqb_eq]. }
  assert (Hnumbers : existsb is_numeric_cell
                       (List.filter (fun cell => truthy (strip cell)) (tl row)) = true
                     <-> Exists numeric_token (tl row)).
  { rewrite existsb_exists, List.Exists_exists. split.
    - intros (cell & Hcell & Hnum). apply filter_In in Hcell as [Hcell _].
      exists cell. split; [exact Hcell | now apply is_numeric_cell_spec].
    - intros (cell & Hcell & Hnum). apply is_numeric_cell_spec in Hnum.
      exists cell. split; [| exact Hnum].
      apply filter_In. split; [exact Hcell | now apply numeric_cell_is_not_blank]. }
  destruct row as [| first rest].
  - clear Hlabel Hnumbers. cbn [data_row]. vm_compute. split; [discriminate | intros []].
  - cbn [data_row]. cbn [iloc0 hd tl] in *.
    destruct (existsb _ assembly_names).
    + rewrite Hnumbers. split; [intros H; split; [now apply Hlabel | exact H] | now intros [_ H]].
    + split; [discriminate |]. intros [H _]. apply Hlabel in H. discriminate.
Qed.

Lemma enumerate_filter (f : list pystr -> bool) (df : DataFrame) (idx : nat) :
  map snd (List.filter (fun ir => f (snd ir)) (enumerate idx df)) = List.filter f df.
Proof.
  revert idx. induction df as [| row df IH]; intros idx; [reflexivity |].
  cbn [enumerate List.filter snd]. destruct (f row); cbn [map snd]; now rewrite IH.
Qed.

(** The data rows [_clean_table_structure] returns: the assembly rows when
    there is one, the rows below the first otherwise. *)
Lemma clean_table_data_rows (df : DataFrame) :
  df_empty df = false ->
  snd (_clean_table_structure df) =
    match List.filter is_assembly_row df with
    | [] => map strip_row (skipn 1 df)
    | rows => map strip_row rows
    end.
Proof.
  intros Hdf. unfold _clean_table_structure. rewrite Hdf.
  rewrite <- (enumerate_filter is_assembly_row df 0).
  destruct (List.filter (fun ir => is_assembly_row (snd ir)) (enumerate 0 df))
    as [| found rest]; [reflexivity |].
  cbn [map fst snd]. rewrite map_map. reflexivity.
Qed.

Lemma selected_filter {A : Type} (P : A -> Prop) (f : A -> bool) (l : list A) :
  (forall x, P x <-> f x = true) -> selected P l (List.filter f l).
Proof.
  intros Hf. induction l as [| x l IH]; [constructor |].
  cbn [List.filter]. destruct (f x) eqn:Hx.
  - apply selected_keep; [now apply Hf | exact IH].
  - apply selected_drop; [| exact IH]. intros HP. apply Hf in HP. congruence.
Qed.

Lemma selected_unique {A : Type} (P : A -> Prop) (l kept kept' : list A) :
  selected P l kept -> selected P l kept' -> kept = kept'.
Proof.
  intros H. revert kept'.
  induction H as [| x l kept HP _ IH | x l kept HP _ IH]; intros kept' H';
    inversion H'; subst; try contradiction; [reflexivity | f_equal |]; now apply IH.
Qed.

Lemma selected_In {A : Type} (P : A -> Prop) (l kept : list A) :
  selected P l kept -> forall x, In x kept <-> In x l /\ P x.
Proof.
  induction 1 as [| y l kept HP _ IH | y l kept HP _ IH]; intros x; cbn [In].
  - tauto.
  - rewrite IH. split; [intros [<- | [? ?]]; tauto | tauto].
  - rewrite IH. split; [tauto |]. intros [[<- | Hin] HPx]; [contradiction | tauto].
Qed.

(** C4, as the code has it.  In a grid that is not empty: when some row
    satisfies both conditions, the returned data rows are the rows that do,
    in their order and with their cells trimmed, and no other; when no row
    does, the returned data rows are all the rows below the first. *)
Theorem data_rows_are_the_assembly_rows (df : DataFrame) :
  df_empty df = false ->
  (Exists data_row df ->
     (exists kept : list (list pystr),
         selected data_row df kept
         /\ snd (_clean_table_structure df) = map (map strip) kept)
     /\ forall cleaned : list pystr,
          In cleaned (snd (_clean_table_structure df))
          <-> exists row, In row df /\ data_row row /\ cleaned = map strip row)
  /\ (~ Exists data_row df ->
       snd (_clean_table_structure df) = map (map strip) (skipn 1 df)).
Proof.
  intros Hdf. rewrite (clean_table_data_rows df Hdf).
  pose proof (selected_filter data_row is_assembly_row df
                (fun row => iff_sym (is_assembly_row_spec row))) as Hkept.
  change (map strip) with strip_row. split.
  - intros Hsome.
    assert (Heq : match List.filter is_assembly_row df with
                  | [] => map strip_row (skipn 1 df)
                  | rows => map strip_row rows
                  end = map strip_row (List.filter is_assembly_row df)).
    { destruct (List.filter is_assembly_row df) eqn:Hfilter; [| reflexivity].
      exfalso. apply List.Exists_exists in Hsome as (row & Hin & Hrow).
      apply (selected_In _ _ _ Hkept row). now split. }
    rewrite Heq. split; [exists (List.filter is_assembly_row df); now split |].
    intros cleaned. rewrite in_map_iff. split.
    + intros (row & <- & Hin). apply (selected_In _ _ _ Hkept) in Hin as [Hin Hrow].
      exists row. now repeat split.
    + intros (row & Hin & Hrow & ->). exists row. split; [reflexivity |].
      apply (selected_In _ _ _ Hkept). now split.
  - intros Hnone.
    destruct (List.filter is_assembly_row df) as [| row rows] eqn:Hfilter; [reflexivity |].
    exfalso. apply Hnone, List.Exists_exists. exists row.
    apply (selected_In _ _ _ Hkept). now left.
Qed.

(** The envelope grid: the rows for walls and roofs are returned, the caption,
    the header, the notes and the floors row without a number are not. *)
Lemma envelope_grid_data_rows :
  (exists kept : list (list pystr),
      selected data_row envelope_grid kept
      /\ snd (_clean_table_structure envelope_grid) = map (map strip) kept)
  /\ forall cleaned : list pystr,
       In cleaned (snd (_clean_table_structure envelope_grid))
       <-> exists row, In row envelope_grid /\ data_row row /\ cleaned = map strip row.
Proof.
  apply (proj1 (data_rows_are_the_assembly_rows envelope_grid eq_refl)).
  apply List.Exists_exists. exists [(py "Walls "); (py "0.315"); (py "0.278")].
  split; [right; right; left; reflexivity |].
  apply is_assembly_row_spec. reflexivity.
Defined.

(** C4 as stated fails: in a grid where no row carries an assembly label, a
    row whose first cell is not a label is returned as a data row. *)
Lemma unlabelled_row_is_returned :
  snd (_clean_table_structure structural_grid) = [[(py "Beams"); (py "0.5")]]
  /\ is_assembly_row [(py "Beams"); (py "0.5")] = false
  /\ ~ data_row [(py "Beams"); (py "0.5")].
Proof.
  split; [reflexivity |]. split; [reflexivity |].
  intros H. apply is_assembly_row_spec in H. discriminate H.
Qed.

End TableCleaner.

(** * Further properties *)

(** ** Trimming *)

Section Trimming.
Import PyStr.

Lemma rstrip_by_cons (p : char -> bool) (c : char) (s : pystr) :
  p c = false -> rstrip_by p (c :: s) = (c :: (rstrip_by p s)).
Proof.
  intros Hc. cbn [rstrip_by]. destruct (rstrip_by p s); [now rewrite Hc | reflexivity].
Qed.

(** Trimming reads a string from its first character: a character of the
    class is dropped, another one stays and only the right end is trimmed. *)
Lemma strip_by_cons (p : char -> bool) (c : char) (s : pystr) :
  strip_by p (c :: s)
  = if p c then strip_by p s else (c :: (rstrip_by p s)).
Proof.
  unfold strip_by. destruct (p c) eqn:Hc.
  - cbn [rstrip_by]. destruct (rstrip_by p s) as [| d r].
    + now rewrite Hc.
    + cbn [lstrip_by]. now rewrite Hc.
  - rewrite (rstrip_by_cons p c s Hc). cbn [lstrip_by]. now rewrite Hc.
Qed.

Lemma lstrip_by_idempotent (p : char -> bool) (s : pystr) :
  lstrip_by p (lstrip_by p s) = lstrip_by p s.
Proof.
  induction s as [| c s IH]; [reflexivity |].
  cbn [lstrip_by]. destruct (p c) eqn:Hc; [exact IH |].
  cbn [lstrip_by]. now rewrite Hc.
Qed.

Lemma rstrip_by_idempotent (p : char -> bool) (s : pystr) :
  rstrip_by p (rstrip_by p s) = rstrip_by p s.
Proof.
  induction s as [| c s IH]; [reflexivity |].
  cbn [rstrip_by]. destruct (rstrip_by p s) as [| d r] eqn:Hr.
  - destruct (p c) eqn:Hc; [reflexivity |]. cbn [rstrip_by]. now rewrite Hc.
  - change (rstrip_by p ((c :: (d :: r)))) with
      (match rstrip_by p (d :: r) with
       | [] => if p c then [] else [c]
       | r' => c :: r'
       end).
    rewrite IH. reflexivity.
Qed.

Lemma strip_sides_commute (p : char -> bool) (s : pystr) :
  lstrip_by p (rstrip_by p s) = rstrip_by p (lstrip_by p s).
Proof.
  induction s as [| c s IH]; [reflexivity |].
  destruct (p c) eqn:Hc.
  - cbn [lstrip_by]. rewrite Hc, <- IH. cbn [rstrip_by].
    destruct (rstrip_by p s) as [| d r].
    + now rewrite Hc.
    + cbn [lstrip_by]. now rewrite Hc.
  - rewrite (rstrip_by_cons p c s Hc). cbn [lstrip_by]. rewrite Hc.
    now rewrite (rstrip_by_cons p c s Hc).
Qed.

(** A trimmed string has nothing left to trim. *)
Lemma strip_idempotent (s : pystr) : strip (strip s) = strip s.
Proof.
  unfold strip, strip_by.
  rewrite (strip_sides_commute isspace (lstrip_by isspace (rstrip_by isspace s))).
  rewrite lstrip_by_idempotent.
  rewrite <- (strip_sides_commute isspace (rstrip_by isspace s)).
  now rewrite rstrip_by_idempotent.
Qed.

(** Whether a string begins with the cell delimiter. *)
Lemma startswith_pipe (s : pystr) :
  startswith s (py "|") = match s with
                          | c :: _ => (c =? chr "|")%N
                          | [] => false
                          end.
Proof.
  unfold startswith. change (py "|") with [chr "|"].
  destruct s as [| c s]; [reflexivity |].
  cbn [prefix]. rewrite andb_true_r. apply N.eqb_sym.
Qed.

(** A line that begins with the delimiter once trimmed still does when text
    follows it. *)
Lemma delimited_line_extends (line rest : pystr) :
  startswith (strip line) (py "|") = true ->
  startswith (strip (line ++ rest)) (py "|") = true.
Proof.
  unfold strip. induction line as [| c line IH]; [discriminate |].
  cbn [app]. rewrite !strip_by_cons.
  destruct (isspace c); [exact IH |].
  rewrite !startswith_pipe. trivial.
Qed.

End Trimming.

(** ** Fast extractor: the count of empty cells *)

Section EmptyCells.
Import PyStr PyMuPDFTableExtractor Spec.

Lemma run_star_class (p : char -> bool) (pos : nat) (c : char) (s : pystr)
    (g : option (nat * nat)) (k : Re.mstate -> option Re.mstate) :
  Re.run (Re.Star (Re.Cls p)) (Re.MState pos (c :: s) g) k
  = if p c
    then match Re.run (Re.Star (Re.Cls p)) (Re.MState (S pos) s g) k with
         | Some st => Some st
         | None => k (Re.MState pos (c :: s) g)
         end
    else k (Re.MState pos (c :: s) g).
Proof.
  cbn [Re.run Re.ms_rest Re.ms_pos Re.ms_group length].
  destruct (p c); [| reflexivity].
  replace (pos <? S pos)%nat with true by (symmetry; apply Nat.ltb_lt; lia).
  reflexivity.
Qed.

Lemma run_star_nil (p : char -> bool) (pos : nat)
    (g : option (nat * nat)) (k : Re.mstate -> option Re.mstate) :
  Re.run (Re.Star (Re.Cls p)) (Re.MState pos [] g) k = k (Re.MState pos [] g).
Proof. reflexivity. Qed.

Lemma run_star_spaces (p : char -> bool) (k : Re.mstate -> option Re.mstate)
    (s : pystr) (pos : nat) (g : option (nat * nat)) :
  (forall pos c s g, p c = true -> k (Re.MState pos (c :: s) g) = None) ->
  Re.run (Re.Star (Re.Cls p)) (Re.MState pos s g) k
  = k (Re.MState (pos + (length s - length (lstrip_by p s))) (lstrip_by p s) g).
Proof.
  intros Hk. revert pos. induction s as [| c s IH]; intros pos.
  - rewrite run_star_nil. cbn [lstrip_by length]. now rewrite Nat.add_0_r.
  - rewrite run_star_class. cbn [lstrip_by]. destruct (p c) eqn:Hc.
    + rewrite IH, (Hk pos c s g Hc).
      assert (Hle : (length (lstrip_by p s) <= length s)%nat).
      { clear. induction s as [| d s IH]; [reflexivity |].
        cbn [lstrip_by]. destruct (p d); cbn [length]; lia. }
      replace (S pos + (length s - length (lstrip_by p s)))%nat
        with (pos + (length (c :: s) - length (lstrip_by p s)))%nat
        by (cbn [length]; lia).
      now destruct (k _).
    + cbn [length]. now rewrite Nat.sub_diag, Nat.add_0_r.
Qed.

Lemma lstrip_by_length (p : char -> bool) (s : pystr) :
  (length (lstrip_by p s) <= length s)%nat.
Proof.
  induction s as [| d s IH]; [reflexivity |].
  cbn [lstrip_by]. destruct (p d); cbn [length]; lia.
Qed.

(** The pattern matches at a delimiter that only white space separates from
    the next delimiter, and ends behind that one. *)
Lemma gap_match (pos : nat) (s : pystr) :
  Re.match_at empty_cell_pattern pos s
  = match s with
    | c :: s' =>
        if (pipe =? c)%N then
          match lstrip_by isspace s' with
          | d :: _ =>
              if (pipe =? d)%N
              then Some (Re.RMatch pos
                           (S (S pos + (length s' - length (lstrip_by isspace s'))))
                           None)
              else None
          | [] => None
          end
        else None
    | [] => None
    end.
Proof.
  unfold Re.match_at, empty_cell_pattern, Re.Seq, Re.Chr. cbn [fold_right].
  destruct s as [| c s']; [reflexivity |].
  change (Re.run (Re.Cat (Re.Cls (N.eqb (chr "|")))
                    (Re.Cat (Re.Star Re.space) (Re.Cat (Re.Cls (N.eqb (chr "|"))) Re.Eps)))
                 (Re.MState pos (c :: s') None) Some)
    with (if (pipe =? c)%N
          then Re.run (Re.Star (Re.Cls Unicode.isspace)) (Re.MState (S pos) s' None)
                 (fun st => Re.run (Re.Cat (Re.Cls (N.eqb pipe)) Re.Eps) st Some)
          else None).
  destruct (pipe =? c)%N; [| reflexivity].
  rewrite run_star_spaces.
  - change Unicode.isspace with isspace.
    destruct (lstrip_by isspace s') as [| d r]; [reflexivity |].
    cbn [Re.run Re.ms_rest Re.ms_pos Re.ms_group].
    destruct (pipe =? d)%N; reflexivity.
  - intros pos' c' s'' g Hc. cbn [Re.run Re.ms_rest].
    destruct (N.eqb_spec pipe c') as [<- | _]; [discriminate Hc | reflexivity].
Qed.

Lemma scan_nil (skip pos : nat) : Re.scan empty_cell_pattern skip pos [] = [].
Proof. destruct skip; reflexivity. Qed.

Lemma scan_skip (skip pos : nat) (s : pystr) :
  Re.scan empty_cell_pattern skip pos s
  = Re.scan empty_cell_pattern 0 (pos + skip) (skipn skip s).
Proof.
  revert pos s. induction skip as [| skip IH]; intros pos s.
  - now rewrite Nat.add_0_r.
  - destruct s as [| c s]; [now rewrite !scan_nil |].
    cbn [Re.scan skipn]. rewrite IH. f_equal. lia.
Qed.

Lemma lstrip_by_skipn (p : char -> bool) (s : pystr) :
  skipn (length s - length (lstrip_by p s)) s = lstrip_by p s.
Proof.
  induction s as [| c s IH]; [reflexivity |].
  cbn [lstrip_by]. destruct (p c).
  - pose proof (lstrip_by_length p s).
    replace (length (c :: s) - length (lstrip_by p s))%nat
      with (S (length s - length (lstrip_by p s))) by (cbn [length]; lia).
    exact IH.
  - now rewrite Nat.sub_diag.
Qed.

(** The number of matches, one character further. *)
Lemma gaps_cons (pos : nat) (c : char) (s : pystr) :
  length (Re.scan empty_cell_pattern 0 pos (c :: s))
  = match (if (pipe =? c)%N then behind_gap s else None) with
    | Some rest =>
        S (length (Re.scan empty_cell_pattern 0
                     (S pos + S (length s - length (lstrip_by isspace s))) rest))
    | None => length (Re.scan empty_cell_pattern 0 (S pos) s)
    end.
Proof.
  cbn [Re.scan]. rewrite gap_match. unfold behind_gap.
  destruct (pipe =? c)%N; [| reflexivity].
  destruct (lstrip_by isspace s) as [| d rest] eqn:Hstrip; [reflexivity |].
  destruct (pipe =? d)%N; [| reflexivity].
  cbn [Re.m_end length]. rewrite scan_skip.
  pose proof (lstrip_by_skipn isspace s) as Hskip. rewrite Hstrip in Hskip.
  cbn [length] in Hskip.
  set (w := (length s - S (length rest))%nat) in *.
  replace (S (S pos + w) - pos - 1)%nat with (w + 1)%nat by lia.
  rewrite <- drop_drop, Hskip. cbn [skipn].
  do 3 f_equal. lia.
Qed.

Lemma gaps_anywhere (s : pystr) (pos pos' : nat) :
  length (Re.scan empty_cell_pattern 0 pos s)
  = length (Re.scan empty_cell_pattern 0 pos' s).
Proof.
  remember (length s) as n eqn:Hn. revert s Hn pos pos'.
  induction n as [n IH] using lt_wf_ind. intros s Hn pos pos'.
  destruct s as [| c s]; [reflexivity |].
  rewrite !gaps_cons. destruct (pipe =? c)%N.
  - unfold behind_gap. destruct (lstrip_by isspace s) as [| d rest] eqn:Hstrip.
    + apply (IH (length s)); [subst; cbn [length]; lia | reflexivity].
    + destruct (pipe =? d)%N.
      * f_equal. apply (IH (length rest)); [| reflexivity].
        pose proof (lstrip_by_length isspace s) as Hle. rewrite Hstrip in Hle.
        subst. cbn [length] in *. lia.
      * apply (IH (length s)); [subst; cbn [length]; lia | reflexivity].
  - apply (IH (length s)); [subst; cbn [length]; lia | reflexivity].
Qed.

Lemma split_head (s : pystr) (sep : char) :
  exists (x0 : pystr) (xs : list pystr),
    split s sep = x0 :: xs
    /\ Forall (fun c => c <> sep) x0
    /\ ((xs = [] /\ s = x0)
        \/ exists rest : pystr, s = x0 ++ sep :: rest /\ xs = split rest sep).
Proof.
  induction s as [| c s IH].
  - exists [], []. repeat split; [constructor | now left].
  - destruct IH as (x0 & xs & Hsplit & Hno & Hcases). cbn [split].
    destruct (N.eqb_spec c sep) as [-> | Hne].
    + exists [], (split s sep). repeat split; [constructor |].
      right. exists s. split; reflexivity.
    + rewrite Hsplit. exists (c :: x0), xs. repeat split; [now constructor |].
      destruct Hcases as [[-> ->] | (rest & -> & ->)]; [now left |].
      right. exists rest. split; reflexivity.
Qed.

Lemma all_space_strip (x : pystr) : all_chars isspace x = true -> strip x = [].
Proof.
  intros H. unfold strip, strip_by.
  assert (Hr : rstrip_by isspace x = []).
  { induction x as [| c x IH]; [reflexivity |].
    cbn [all_chars] in H. apply andb_prop in H as [Hc Hx].
    cbn [rstrip_by]. now rewrite (IH Hx), Hc. }
  now rewrite Hr.
Qed.

Lemma is_blank_spec (x : pystr) : is_blank x = all_chars isspace x.
Proof.
  unfold is_blank. destruct (all_chars isspace x) eqn:Hx.
  - now rewrite (all_space_strip x Hx).
  - destruct (truthy (strip x)) eqn:Ht; [reflexivity |].
    apply blank_cell_is_space in Ht. congruence.
Qed.

Lemma behind_gap_cell (x0 rest : pystr) :
  Forall (fun c => c <> pipe) x0 ->
  behind_gap (x0 ++ pipe :: rest) = if all_chars isspace x0 then Some rest else None.
Proof.
  unfold behind_gap. induction 1 as [| c x Hc _ IH].
  - cbn [app lstrip_by all_chars].
    replace (isspace pipe) with false by reflexivity. now rewrite N.eqb_refl.
  - cbn [app lstrip_by all_chars]. destruct (isspace c); [exact IH |].
    cbn [andb]. destruct (N.eqb_spec pipe c); [congruence | reflexivity].
Qed.

Lemma behind_gap_no_pipe (x0 : pystr) :
  Forall (fun c => c <> pipe) x0 -> behind_gap x0 = None.
Proof.
  unfold behind_gap. induction 1 as [| c x Hc _ IH]; [reflexivity |].
  cbn [lstrip_by]. destruct (isspace c); [exact IH |].
  destruct (N.eqb_spec pipe c); [congruence | reflexivity].
Qed.

Lemma split_not_nil (s : pystr) (sep : char) : split s sep <> [].
Proof. destruct (split_head s sep) as (x0 & xs & -> & _). discriminate. Qed.

Lemma counted_after (cells : list pystr) :
  cells <> [] ->
  counted true (removelast cells) = counted false (removelast (tl cells)).
Proof.
  destruct cells as [| y0 [| y1 ys]]; [congruence | reflexivity | reflexivity].
Qed.

(** The matches of the empty-cell pattern in a row count its blank cells,
    except a cell right behind one that was counted. *)
Lemma gaps_counted (s : pystr) :
  empty_cells_in s = Z.of_nat (counted false (cells_of s)).
Proof.
  unfold empty_cells_in, Py.len, Re.finditer. f_equal.
  remember (length s) as n eqn:Hn. revert s Hn.
  induction n as [n IH] using lt_wf_ind. intros s Hn.
  destruct s as [| c s]; [reflexivity |].
  assert (Hshorter : forall (t : pystr) (pos : nat),
             (length t <= length s)%nat ->
             length (Re.scan empty_cell_pattern 0 pos t) = counted false (cells_of t)).
  { intros t pos Ht. rewrite (gaps_anywhere t pos 0).
    apply (IH (length t)); [subst; cbn [length]; lia | reflexivity]. }
  rewrite gaps_cons. unfold cells_of. cbn [split].
  rewrite (N.eqb_sym pipe c).
  destruct (split_head s pipe) as (x0 & xs & Hsplit & Hno & Hcases).
  destruct (c =? pipe)%N.
  - cbn [tl]. rewrite Hsplit.
    destruct Hcases as [[-> ->] | (rest & -> & ->)].
    + rewrite (behind_gap_no_pipe x0 Hno), Hshorter by lia.
      unfold cells_of. rewrite Hsplit. reflexivity.
    + rewrite (behind_gap_cell x0 rest Hno).
      assert (Hcells : removelast (x0 :: split rest pipe)
                       = x0 :: removelast (split rest pipe)).
      { pose proof (split_not_nil rest pipe).
        cbn [removelast]. now destruct (split rest pipe). }
      rewrite Hcells. cbn [counted]. rewrite is_blank_spec.
      destruct (all_chars isspace x0).
      * rewrite Hshorter by (rewrite length_app; cbn [length]; lia).
        rewrite counted_after by apply split_not_nil. reflexivity.
      * rewrite Hshorter by lia. unfold cells_of. rewrite Hsplit. reflexivity.
  - rewrite Hsplit. cbn [tl]. rewrite Hshorter by lia.
    unfold cells_of. rewrite Hsplit. reflexivity.
Qed.

Lemma counted_cells_spec (rows : list pystr) :
  Py.sum (map empty_cells_in rows) = counted_cells rows.
Proof.
  unfold counted_cells. f_equal. apply map_ext. exact gaps_counted.
Qed.

(** X22.  The confidence of the fast extractor is 0.0 for no rows; otherwise
    it is 1.0 multiplied by 0.7 exactly when some row's column count differs
    from the first row's, by 0.6 exactly when the counted blank cells
    exceed 0.2 of the cells expected, and by 0.5 exactly when there are
    fewer than two rows.  A blank cell is counted unless the cell before it
    was.  The confidence always lies between 0 and 1. *)
Theorem confidence_is_product_of_penalties (rows : list pystr) :
  let confidence := _calculate_confidence rows (first_row_cols rows) in
  confidence =
    match rows with
    | [] => 0.0%float
    | _ =>
        (1.0 * penalty (bool_decide (inconsistent_cols rows)) 0.7
             * penalty (0.2 <? empty_cell_ratio rows) 0.6
             * penalty (bool_decide (length rows < 2)%nat) 0.5)%float
    end
  /\ (0.0 <=? confidence)%float = true
  /\ (confidence <=? 1.0)%float = true.
Proof.
  destruct rows as [| first_row rest].
  - cbv zeta. repeat split; reflexivity.
  - cbv zeta. unfold _calculate_confidence.
    set (rows := first_row :: rest).
    rewrite consistent_cols_spec, negb_involutive, short_table_spec.
    rewrite counted_cells_spec.
    fold (inconsistent_cols rows). fold (empty_cell_ratio rows).
    destruct (bool_decide (inconsistent_cols rows));
      destruct (0.2 <? empty_cell_ratio rows)%float;
      destruct (bool_decide (length rows < 2)%nat);
      repeat split; reflexivity.
Qed.

End EmptyCells.

(** ** Fast extractor: splitting a page into tables *)

Section SplitTables.
Import PyStr PyMuPDFTableExtractor Spec Samples.

Lemma confidence_in_unit_interval (rows : list pystr) (expected_cols : Z) :
  (0.0 <=? _calculate_confidence rows expected_cols)%float = true
  /\ (_calculate_confidence rows expected_cols <=? 1.0)%float = true.
Proof.
  unfold _calculate_confidence. destruct rows as [| row rows]; [split; reflexivity |].
  cbv zeta.
  destruct (negb (forallb _ _)); destruct (0.2 <? _)%float; destruct (Py.len _ <? 2)%Z;
    split; reflexivity.
Qed.

Lemma append_empty (s : pystr) : s ++ [] = s.
Proof. apply app_nil_r. Qed.

Lemma join_begins_with_first (sep first : pystr) (rest : list pystr) :
  exists tail : pystr, join sep (first :: rest) = (first ++ tail).
Proof.
  destruct rest as [| second rest].
  - exists []. now rewrite append_empty.
  - eexists. reflexivity.
Qed.

(** A table parsed from lines that begin with a delimited line is sound. *)
Lemma parsed_table_is_sound (first : pystr) (rest : list pystr) (page_num : Z)
    (table : MarkdownTable.t) :
  startswith (strip first) (py "|") = true ->
  _parse_markdown_table (first :: rest) page_num = Some table ->
  sound_block page_num table.
Proof.
  intros Hfirst. unfold _parse_markdown_table.
  destruct (List.filter _ (first :: rest)) as [| first_row data_rows]; [discriminate |].
  destruct (join_begins_with_first ([newline]) first rest) as [tail Hjoin].
  pose proof (confidence_in_unit_interval (first_row :: data_rows)
                (count first_row (py "|") - 1)) as [Hlow Hhigh].
  remember (join ([newline]) (first :: rest)) as text eqn:Htext.
  remember (_calculate_confidence (first_row :: data_rows) (count first_row (py "|") - 1))
    as confidence eqn:Hconfidence.
  remember (Z.max 0 (Py.len (first_row :: data_rows) - 1)) as estimated_rows eqn:Hrows.
  remember (Z.max 1 (count first_row (py "|") - 1)) as estimated_cols eqn:Hcols.
  intros Hsome.
  assert (Htable : table = MarkdownTable.Build text estimated_rows estimated_cols
                             confidence page_num) by congruence.
  rewrite Htable. unfold sound_block, well_formed_block.
  cbn [MarkdownTable.markdown_text MarkdownTable.estimated_rows
       MarkdownTable.estimated_cols MarkdownTable.confidence MarkdownTable.page_number].
  split; [rewrite Hjoin; apply delimited_line_extends, Hfirst |].
  split; [lia |]. split; [lia |].
  split; [exact Hlow |]. split; [exact Hhigh | reflexivity].
Qed.

Lemma close_table_keeps_sound (page_num : Z) (st : split_state) :
  scan_invariant page_num st ->
  Forall (sound_block page_num) (fst (close_table page_num st))
  /\ snd (close_table page_num st) = [].
Proof.
  intros [Htables Hpending]. unfold close_table.
  destruct (current_table_lines st) as [| first rest]; [split; [exact Htables | reflexivity] |].
  cbn [fst snd]. split; [| reflexivity].
  destruct (_parse_markdown_table (first :: rest) page_num) as [table |] eqn:Hparse;
    [| exact Htables].
  apply Forall_app. split; [exact Htables |].
  constructor; [| constructor].
  exact (parsed_table_is_sound first rest page_num table Hpending Hparse).
Qed.

Lemma split_step_keeps_invariant (page_num : Z) (st : split_state) (line : pystr) :
  scan_invariant page_num st -> scan_invariant page_num (split_step page_num st line).
Proof.
  intros Hinv. pose proof Hinv as [Htables Hpending].
  destruct (close_table_keeps_sound page_num st Hinv) as [Hclosed Hnone].
  unfold split_step. cbv zeta.
  destruct (startswith (strip line) (py "|")) eqn:Hline.
  - split; [exact Htables |]. cbn [current_table_lines].
    destruct (current_table_lines st); [exact Hline | exact Hpending].
  - destruct (in_table st) eqn:Hin; cbn [andb].
    + assert (Hsome : match current_table_lines st ++ [line] with
                      | [] => true = false
                      | first :: _ => startswith (strip first) (py "|") = true
                      end).
      { destruct (current_table_lines st); [discriminate Hpending | exact Hpending]. }
      destruct (negb (truthy (strip line))).
      * split; cbn [tables current_table_lines in_table];
          [exact Hclosed | now rewrite Hnone].
      * destruct (startswith (strip line) (py "-") || startswith (strip line) (py "=")
                  || startswith (strip line) (py "*")).
        -- split; [exact Htables | exact Hsome].
        -- split; cbn [tables current_table_lines in_table];
             [exact Hclosed | now rewrite Hnone].
    + exact Hinv.
Qed.

Lemma split_scan_keeps_invariant (page_num : Z) (lines : list pystr) (st : split_state) :
  scan_invariant page_num st ->
  scan_invariant page_num (fold_left (split_step page_num) lines st).
Proof.
  revert st. induction lines as [| line lines IH]; intros st Hinv; [exact Hinv |].
  cbn [fold_left]. apply IH, split_step_keeps_invariant, Hinv.
Qed.

Lemma split_tables_sound (markdown_text : pystr) (page_num : Z) :
  Forall (sound_block page_num) (_split_tables markdown_text page_num).
Proof.
  unfold _split_tables. cbv zeta.
  apply close_table_keeps_sound, split_scan_keeps_invariant.
  split; [constructor | reflexivity].
Qed.

(** X1.  Every table the fast extractor returns for a page is sound: its
    text, trimmed, begins with the cell delimiter, so the validator never
    calls it malformed; its row estimate is not negative, its column estimate
    is at least one, its confidence lies between 0 and 1, and it carries the
    page number asked for.  A conversion that raises gives no table. *)
Theorem fast_extractor_tables_are_sound (to_markdown : pyresult pystr) (page_num : Z) :
  Forall (sound_block page_num) (extract_tables_from_page to_markdown page_num).
Proof.
  unfold extract_tables_from_page. destruct to_markdown as [md_text | e].
  - apply split_tables_sound.
  - constructor.
Qed.

(** X2.  On the tables the fast extractor itself produces, meeting the three
    thresholds is enough to pass validation with no error. *)
Theorem fast_extractor_tables_pass_on_thresholds (markdown_text : pystr) (page_num : Z)
    (table : MarkdownTable.t) (min_rows min_cols : Z) (min_confidence : float) :
  In table (_split_tables markdown_text page_num) ->
  (min_cols <= MarkdownTable.estimated_cols table)%Z ->
  (min_rows <= MarkdownTable.estimated_rows table)%Z ->
  (min_confidence <=? MarkdownTable.confidence table)%float = true ->
  ValidationResult.passed (validate_extraction table min_rows min_cols min_confidence)
  = true
  /\ ValidationResult.errors (validate_extraction table min_rows min_cols min_confidence)
     = [].
Proof.
  intros Hin Hcols Hrows Hconf.
  pose proof (split_tables_sound markdown_text page_num) as Hsound.
  rewrite Forall_forall in Hsound.
  destruct (Hsound table (proj2 (list_elem_of_In _ _) Hin)) as (Hwf & _).
  unfold well_formed_block in Hwf. unfold validate_extraction.
  rewrite Hwf, (float_leb_not_ltb _ _ Hconf).
  rewrite (proj2 (Z.ltb_ge _ _) Hcols), (proj2 (Z.ltb_ge _ _) Hrows).
  split; reflexivity.
Qed.

Lemma envelope_page_table_passes :
  ValidationResult.passed (validate_extraction envelope_page_table 1 4 0.8) = true
  /\ ValidationResult.errors (validate_extraction envelope_page_table 1 4 0.8) = [].
Proof.
  apply (fast_extractor_tables_pass_on_thresholds envelope_page 72 envelope_page_table
           1 4 0.8).
  - vm_compute. left. reflexivity.
  - vm_compute. discriminate.
  - vm_compute. discriminate.
  - reflexivity.
Defined.

Lemma consistent_cols_forall (expected_cols : Z) (rows : list pystr) :
  forallb (fun c => (c =? expected_cols)%Z) (map (fun row => (count row (py "|") - 1)%Z) rows)
  = true
  <-> Forall (fun row => col_count row = expected_cols) rows.
Proof.
  induction rows as [| row rows IH].
  - split; [constructor | reflexivity].
  - cbn [map forallb]. rewrite andb_true_iff, IH, Z.eqb_eq. fold (col_count row).
    symmetry. apply List.Forall_cons_iff.
Qed.

(** X3.  Under the default confidence threshold 0.8 every penalty
    disqualifies: the confidence of a row list is not below 0.8 exactly when
    there are at least two rows, every row has the expected column count and
    the counted blank cells do not exceed 0.2 of the cells expected. *)
Theorem default_threshold_admits_no_penalty (rows : list pystr) (expected_cols : Z) :
  (_calculate_confidence rows expected_cols <? 0.8)%float = false
  <-> (2 <= length rows)%nat
      /\ Forall (fun row => col_count row = expected_cols) rows
      /\ (0.2 <? Py.truediv (counted_cells rows)
                            (Z.max (Py.len rows * expected_cols) 1))%float = false.
Proof.
  rewrite <- consistent_cols_forall, <- counted_cells_spec.
  unfold _calculate_confidence. destruct rows as [| row rows].
  - split; [discriminate | intros [H _]; cbn in H; lia].
  - cbv zeta. rewrite short_table_spec.
    set (rows' := row :: rows).
    destruct (forallb _ _); destruct (0.2 <? _)%float;
      destruct (bool_decide_reflect (length rows' < 2)%nat) as [Hshort | Hlong];
      cbn [negb]; split; try discriminate;
      try (intros (H1 & H2 & H3); first [discriminate | lia]);
      intros _; repeat split; lia.
Qed.

End SplitTables.

(** ** Text without a cell delimiter *)

Section NoDelimiter.
Import PyStr Spec Samples.

Lemma find_aux_offset (sub s : pystr) (p q : nat) :
  find_aux sub s p = None -> find_aux sub s q = None.
Proof.
  revert p q. induction s as [| c s IH]; intros p q; cbn [find_aux].
  - destruct (prefix sub []); [discriminate | reflexivity].
  - destruct (prefix sub (c :: s)); [discriminate | apply IH].
Qed.

Lemma contains_pipe_cons (c : char) (s : pystr) :
  contains (c :: s) (py "|") = (c =? chr "|")%N || contains s (py "|").
Proof.
  unfold contains. cbn [find_aux].
  change (prefix (py "|") (c :: s)) with (startswith (c :: s) (py "|")).
  rewrite startswith_pipe. destruct (c =? chr "|")%N; [reflexivity |].
  cbn [orb]. destruct (find_aux (py "|") s 1) eqn:H1, (find_aux (py "|") s 0) eqn:H0;
    try reflexivity.
  - now rewrite (find_aux_offset _ _ _ 1 H0) in H1.
  - now rewrite (find_aux_offset _ _ _ 0 H1) in H0.
Qed.

Lemma lines_without_pipe (s : pystr) :
  contains s (py "|") = false ->
  Forall (fun line => contains line (py "|") = false) (split s newline).
Proof.
  induction s as [| c s IH]; intros H.
  - constructor; [reflexivity | constructor].
  - rewrite contains_pipe_cons in H. apply orb_false_iff in H as [Hc Hs].
    specialize (IH Hs). cbn [split].
    destruct (N.eqb c newline).
    + constructor; [reflexivity | exact IH].
    + destruct (split s newline) as [| line lines].
      * constructor; [| constructor]. rewrite contains_pipe_cons, Hc. reflexivity.
      * inversion IH as [| ? ? Hline Hlines]; subst.
        constructor; [| exact Hlines]. now rewrite contains_pipe_cons, Hc, Hline.
Qed.

Lemma no_pipe_not_delimited (line : pystr) :
  contains line (py "|") = false -> startswith (strip line) (py "|") = false.
Proof.
  unfold strip. induction line as [| c line IH]; intros H; [reflexivity |].
  rewrite contains_pipe_cons in H. apply orb_false_iff in H as [Hc Hs].
  rewrite strip_by_cons. destruct (isspace c); [exact (IH Hs) |].
  rewrite startswith_pipe. exact Hc.
Qed.

Lemma split_scan_idle (page_num : Z) (lines : list pystr)
    (st : PyMuPDFTableExtractor.split_state) :
  PyMuPDFTableExtractor.in_table st = false ->
  Forall (fun line => contains line (py "|") = false) lines ->
  fold_left (PyMuPDFTableExtractor.split_step page_num) lines st = st.
Proof.
  intros Hidle Hlines. induction Hlines as [| line lines Hline _ IH]; [reflexivity |].
  cbn [fold_left]. unfold PyMuPDFTableExtractor.split_step at 2. cbv zeta.
  rewrite (no_pipe_not_delimited line Hline), Hidle. exact IH.
Qed.

Lemma block_scan_idle (lines : list pystr) (st : MarkerTableExtractor.block_state) :
  MarkerTableExtractor.in_block st = false ->
  Forall (fun line => contains line (py "|") = false) lines ->
  fold_left MarkerTableExtractor.block_step lines st = st.
Proof.
  intros Hidle Hlines. induction Hlines as [| line lines Hline _ IH]; [reflexivity |].
  cbn [fold_left]. unfold MarkerTableExtractor.block_step at 2.
  rewrite Hline, Hidle. exact IH.
Qed.

(** X4.  A page whose markdown has no cell delimiter yields no table: none
    from the fast extractor, no block and no table from the layout
    extractor. *)
Theorem no_delimiter_no_table (markdown : pystr) (page_num : Z) :
  contains markdown (py "|") = false ->
  PyMuPDFTableExtractor._split_tables markdown page_num = []
  /\ MarkerTableExtractor._parse_markdown_tables markdown = []
  /\ MarkerTableExtractor._extract_tables_from_result markdown page_num = [].
Proof.
  intros H. pose proof (lines_without_pipe markdown H) as Hlines.
  assert (Hblocks : MarkerTableExtractor._parse_markdown_tables markdown = []).
  { unfold MarkerTableExtractor._parse_markdown_tables. cbv zeta.
    now rewrite (block_scan_idle _ (MarkerTableExtractor.BlockState [] [] false)
                   eq_refl Hlines). }
  split; [| split].
  - unfold PyMuPDFTableExtractor._split_tables. cbv zeta.
    now rewrite (split_scan_idle page_num _
                   (PyMuPDFTableExtractor.SplitState [] [] false) eq_refl Hlines).
  - exact Hblocks.
  - unfold MarkerTableExtractor._extract_tables_from_result. now rewrite Hblocks.
Qed.

Lemma prose_page_has_no_table :
  PyMuPDFTableExtractor._split_tables prose_page 72 = []
  /\ MarkerTableExtractor._parse_markdown_tables prose_page = []
  /\ MarkerTableExtractor._extract_tables_from_result prose_page 72 = [].
Proof.
  apply (no_delimiter_no_table prose_page 72). reflexivity.
Defined.

End NoDelimiter.

(** ** Layout extractor: tables from markdown and merged cells *)

Section LayoutExtractor.
Import PyStr MarkerTableExtractor Spec Samples.

Lemma fold_left_append_invariant {A B : Type} (P : B -> Prop)
    (step : list B -> A -> list B) (items : list A) (acc : list B) :
  (forall acc x, Forall P acc -> Forall P (step acc x)) ->
  Forall P acc -> Forall P (fold_left step items acc).
Proof.
  intros Hstep. revert acc. induction items as [| x items IH]; intros acc Hacc;
    [exact Hacc |].
  cbn [fold_left]. apply IH, Hstep, Hacc.
Qed.

Lemma markdown_rows_trimmed (table_md : pystr) :
  Forall (fun row => row <> [] /\ Forall trimmed row) (_markdown_to_cells table_md).
Proof.
  unfold _markdown_to_cells. apply fold_left_append_invariant; [| constructor].
  intros cells line Hcells. unfold cells_step. cbv zeta.
  destruct (negb (startswith (strip line) (py "|"))); [exact Hcells |].
  destruct (all_chars (char_in (py "|-: ")) line); [exact Hcells |].
  destruct (map strip (inner_pieces line)) as [| cell row] eqn:Hrow; [exact Hcells |].
  apply Forall_app. split; [exact Hcells |].
  constructor; [| constructor]. split; [discriminate |].
  rewrite <- Hrow. apply Forall_forall. intros c Hin.
  apply list_elem_of_In, in_map_iff in Hin as (piece & <- & _).
  apply strip_idempotent.
Qed.

(** X5.  Every table the layout extractor reads from the markdown of a page
    has at least one row, takes its first row as header row, has no empty row
    and only trimmed cells, and carries the page asked for and no bounding
    box. *)
Theorem layout_tables_are_sound (markdown : pystr) (target_page : Z) :
  Forall (sound_layout_table target_page)
         (_extract_tables_from_result markdown target_page).
Proof.
  unfold _extract_tables_from_result. apply fold_left_append_invariant; [| constructor].
  intros tables table_md Htables. cbv zeta.
  pose proof (markdown_rows_trimmed table_md) as Hrows.
  destruct (_markdown_to_cells table_md) as [| headers rest]; [exact Htables |].
  apply Forall_app. split; [exact Htables |].
  constructor; [| constructor].
  split; [exists rest; reflexivity |]. split; [exact Hrows |]. split; reflexivity.
Qed.

(** The search to the left stops at the nearest cell with content. *)
Lemma prev_content_spec (row : list pystr) (n prev_col : nat) :
  prev_content row n = Some prev_col ->
  (prev_col < n)%nat
  /\ ~ blank (cell_at row prev_col)
  /\ forall k : nat, (prev_col < k < n)%nat -> blank (cell_at row k).
Proof.
  unfold blank, cell_at. induction n as [| n IH]; cbn [prev_content]; [discriminate |].
  destruct (truthy (strip (nth n row (py "")))) eqn:Hn.
  - intros [= <-]. split; [lia |]. split; [congruence |]. intros k Hk. lia.
  - intros H. destruct (IH H) as (Hlt & Hcontent & Hblank).
    split; [lia |]. split; [exact Hcontent |].
    intros k Hk. destruct (Nat.eq_dec k n) as [-> | Hne]; [exact Hn |].
    apply Hblank. lia.
Qed.

Lemma prev_content_finds (row : list pystr) (n col : nat) :
  (col < n)%nat -> ~ blank (cell_at row col) ->
  exists prev_col : nat, prev_content row n = Some prev_col.
Proof.
  unfold blank, cell_at. induction n as [| n IH]; [lia |].
  intros Hlt Hcontent. cbn [prev_content].
  destruct (truthy (strip (nth n row (py "")))) eqn:Hn; [eauto |].
  apply IH; [| exact Hcontent].
  destruct (Nat.eq_dec col n) as [-> | Hne]; [congruence | lia].
Qed.

Lemma region_of_cell (table : MarkerTable.t) (reg : region) :
  In reg (detect_merged_cells table) <->
  exists (row_idx col_idx : nat) (row : list pystr) (cell : pystr),
    MarkerTable.cells table !! row_idx = Some row
    /\ row !! col_idx = Some cell
    /\ In reg (cell_regions row_idx row col_idx cell).
Proof.
  unfold detect_merged_cells. rewrite in_concat. split.
  - intros (regs & Hregs & Hreg).
    apply list_elem_of_In, elem_of_lookup_imap in Hregs
      as (row_idx & row & -> & Hrow).
    apply in_concat in Hreg as (regs' & Hregs' & Hreg).
    apply list_elem_of_In, elem_of_lookup_imap in Hregs'
      as (col_idx & cell & -> & Hcell).
    exists row_idx, col_idx, row, cell. auto.
  - intros (row_idx & col_idx & row & cell & Hrow & Hcell & Hreg).
    exists (concat (imap (cell_regions row_idx row) row)). split.
    + apply list_elem_of_In, elem_of_lookup_imap. exists row_idx, row. auto.
    + apply in_concat. exists (cell_regions row_idx row col_idx cell). split; [| exact Hreg].
      apply list_elem_of_In, elem_of_lookup_imap. exists col_idx, cell. auto.
Qed.

Lemma lookup_cell_at (row : list pystr) (col : nat) (cell : pystr) :
  row !! col = Some cell -> cell_at row col = cell /\ (col < length row)%nat.
Proof.
  intros H. split; [| exact (lookup_lt_Some _ _ _ H)].
  unfold cell_at. apply nth_lookup_Some with (d := []) in H. exact H.
Qed.

(** X6.  Every region the merged-cell detector reports lies in one row of
    the grid, spans that single row and at least two columns, starts at a
    cell with content and is blank in every other column it covers. *)
Theorem merged_regions_are_blank_runs (table : MarkerTable.t)
    (row_start col_start row_span col_span : nat) :
  In (row_start, col_start, row_span, col_span) (detect_merged_cells table) ->
  exists row : list pystr,
    MarkerTable.cells table !! row_start = Some row
    /\ row_span = 1%nat
    /\ (2 <= col_span)%nat
    /\ (col_start + col_span <= length row)%nat
    /\ ~ blank (cell_at row col_start)
    /\ forall k : nat, (col_start < k < col_start + col_span)%nat -> blank (cell_at row k).
Proof.
  intros Hin. apply region_of_cell in Hin
    as (row_idx & col_idx & row & cell & Hrow & Hcell & Hreg).
  unfold cell_regions in Hreg.
  destruct (negb (truthy (strip cell)) && (0 <? col_idx)%nat) eqn:Hcond; [| destruct Hreg].
  apply andb_prop in Hcond as [Hblank Hpos]. apply negb_true_iff in Hblank.
  destruct (prev_content row col_idx) as [prev_col |] eqn:Hprev; [| destruct Hreg].
  destruct Hreg as [[= <- <- <- <-] | []].
  apply prev_content_spec in Hprev as (Hlt & Hcontent & Hrun).
  destruct (lookup_cell_at row col_idx cell Hcell) as [Hat Hlen].
  exists row. split; [exact Hrow |]. split; [reflexivity |].
  split; [lia |]. split; [lia |]. split; [exact Hcontent |].
  intros k Hk. destruct (Nat.eq_dec k col_idx) as [-> | Hne].
  - unfold blank. now rewrite Hat.
  - apply Hrun. lia.
Qed.

(** X7.  Conversely, every blank cell that has a cell with content somewhere
    to its left is the last column of a reported region of its row. *)
Theorem blank_cells_after_content_are_reported (table : MarkerTable.t)
    (row_idx col_idx left : nat) (row : list pystr) (cell : pystr) :
  MarkerTable.cells table !! row_idx = Some row ->
  row !! col_idx = Some cell ->
  blank cell ->
  (left < col_idx)%nat ->
  ~ blank (cell_at row left) ->
  exists col_start : nat,
    (col_start < col_idx)%nat
    /\ In (row_idx, col_start, 1%nat, (col_idx - col_start + 1)%nat)
          (detect_merged_cells table).
Proof.
  intros Hrow Hcell Hblank Hleft Hcontent.
  destruct (prev_content_finds row col_idx left Hleft Hcontent) as [prev_col Hprev].
  exists prev_col. split; [apply (prev_content_spec _ _ _ Hprev) |].
  apply region_of_cell. exists row_idx, col_idx, row, cell.
  split; [exact Hrow |]. split; [exact Hcell |].
  unfold cell_regions. unfold blank in Hblank. rewrite Hblank, Hprev.
  replace (0 <? col_idx)%nat with true by (symmetry; apply Nat.ltb_lt; lia).
  now left.
Qed.

(** The blank cell of the sample row and the region it makes. *)
Lemma dense_row_region_witness :
  exists row : list pystr,
    MarkerTable.cells merged_table !! 0%nat = Some row
    /\ 1%nat = 1%nat
    /\ (2 <= 2)%nat
    /\ (0 + 2 <= length row)%nat
    /\ ~ blank (cell_at row 0)
    /\ forall k : nat, (0 < k < 0 + 2)%nat -> blank (cell_at row k).
Proof.
  apply (merged_regions_are_blank_runs merged_table 0 0 1 2).
  vm_compute. left. reflexivity.
Defined.

Lemma blank_cell_is_reported_witness :
  exists col_start : nat,
    (col_start < 1)%nat
    /\ In (0%nat, col_start, 1%nat, (1 - col_start + 1)%nat)
          (detect_merged_cells merged_table).
Proof.
  apply (blank_cells_after_content_are_reported merged_table 0 1 0
           [(py "Walls"); []; (py "0.315")] []).
  - reflexivity.
  - reflexivity.
  - reflexivity.
  - lia.
  - unfold blank. vm_compute. discriminate.
Defined.

End LayoutExtractor.

(** ** Validators of the envelope schema *)

Section SchemaValidators.
Import Schemas.

Lemma SFeqb_refl_false (x : spec_float) : SFeqb x x = false -> x = S754_nan.
Proof.
  unfold SFeqb. destruct x as [s | s | | s m e]; simpl; try (destruct s; discriminate);
    [reflexivity |].
  rewrite Z.compare_refl.
  change (Pos.compare_cont Eq m m) with (Pos.compare m m).
  rewrite Pos.compare_refl. destruct s; discriminate.
Qed.

Lemma SFcompare_not_lt_ge (x y : spec_float) :
  SFltb x y = false -> SFeqb x x = true -> SFeqb y y = true -> SFleb y x = true.
Proof.
  unfold SFleb, SFltb, SFeqb.
  destruct x as [sx | sx | | sx mx ex], y as [sy | sy | | sy my ey];
    simpl; try (destruct sx); try (destruct sy); simpl; try congruence.
  all: intros H _ _; revert H;
    change (Pos.compare_cont Eq my mx) with (Pos.compare my mx);
    change (Pos.compare_cont Eq mx my) with (Pos.compare mx my);
    destruct (Z.compare_spec ex ey), (Z.compare_spec ey ex); try lia;
    try congruence;
    destruct (Pos.compare_spec mx my), (Pos.compare_spec my mx); try lia;
    simpl; congruence.
Qed.

(** On numbers, [a < b] fails exactly when [b <= a] holds. *)
Lemma float_not_ltb_leb (a b : float) :
  is_nan a = false -> is_nan b = false ->
  (a <? b)%float = false -> (b <=? a)%float = true.
Proof.
  unfold is_nan. rewrite !negb_false_iff, !FloatAxioms.eqb_spec, leb_spec, ltb_spec.
  intros Ha Hb Hlt. now apply SFcompare_not_lt_ge.
Qed.

(** No comparison with NaN holds. *)
Lemma float_nan_ltb (a b : float) :
  is_nan a = true -> (a <? b)%float = false /\ (b <? a)%float = false.
Proof.
  unfold is_nan. rewrite negb_true_iff, FloatAxioms.eqb_spec, !ltb_spec.
  intros Ha. apply SFeqb_refl_false in Ha. rewrite Ha.
  split; [reflexivity |]. unfold SFltb. now destruct (Prim2SF b) as [[] | [] | | [] ? ?].
Qed.

(** X8.  The U-value validator rejects nothing the declared field bounds
    admit: it returns a value exactly when the value lies within the bounds
    0.05 and 2.0, or is NaN, which no comparison rejects. *)
Theorem uvalue_validator_accepts_field_bounds (v : float) :
  validate_uvalue_order v = Accepted v
  <-> uvalue_field_bounds v = true \/ is_nan v = true.
Proof.
  unfold validate_uvalue_order, uvalue_field_bounds. split.
  - destruct (v <? 0.05)%float eqn:Hlow; [discriminate |].
    destruct (2.0 <? v)%float eqn:Hhigh; [discriminate |]. intros _.
    destruct (is_nan v) eqn:Hnan; [now right | left].
    apply andb_true_intro. split.
    + now apply float_not_ltb_leb.
    + now apply float_not_ltb_leb.
  - intros [Hbounds | Hnan].
    + apply andb_prop in Hbounds as [Hlow Hhigh].
      now rewrite (float_leb_not_ltb _ _ Hlow), (float_leb_not_ltb _ _ Hhigh).
    + destruct (float_nan_ltb v 0.05 Hnan) as [-> _].
      now destruct (float_nan_ltb v 2.0 Hnan) as [_ ->].
Qed.

(** X9.  The assembly-type validator accepts a list of rows exactly when
    the rows name all three of Walls, Roofs and Floors, or name at least one
    of Windows, Doors and Skylights; otherwise it raises. *)
Theorem assembly_types_accepted_iff (v : list AssemblyRequirement) :
  let types := map assembly_type v in
  validate_assembly_types v = Accepted v
  <-> (In (py "Walls") types /\ In (py "Roofs") types /\ In (py "Floors") types)
      \/ In (py "Windows") types \/ In (py "Doors") types \/ In (py "Skylights") types.
Proof.
  cbv zeta. unfold validate_assembly_types. cbv zeta.
  rewrite <- !list_elem_of_In.
  set (types := list_to_set (map assembly_type v) : gset pystr).
  assert (Hin : forall t : pystr, t ∈ map assembly_type v <-> t ∈ types)
    by (intros t; unfold types; now rewrite elem_of_list_to_set).
  rewrite !Hin. clearbody types. clear Hin.
  assert (Hopaque : ({[ (py "Walls"); (py "Roofs"); (py "Floors") ]} : gset pystr) ⊆ types
                    <-> (py "Walls") ∈ types /\ (py "Roofs") ∈ types /\ (py "Floors") ∈ types).
  { rewrite !union_subseteq, !singleton_subseteq_l. tauto. }
  assert (Hfen : set_Exists (fun t => t ∈ types)
                   ({[ (py "Windows"); (py "Doors"); (py "Skylights") ]} : gset pystr)
                 <-> (py "Windows") ∈ types \/ (py "Doors") ∈ types \/ (py "Skylights") ∈ types).
  { unfold set_Exists. split.
    - intros (t & Ht & Htypes).
      rewrite !elem_of_union, !elem_of_singleton in Ht.
      destruct Ht as [[-> | ->] | ->]; tauto.
    - intros [H | [H | H]]; eexists; (split; [| exact H]);
        rewrite !elem_of_union, !elem_of_singleton; tauto. }
  rewrite <- Hopaque, <- Hfen.
  match goal with
  | |- context [bool_decide ?o || bool_decide ?f] =>
      destruct (bool_decide_reflect o) as [Ho | Ho];
      destruct (bool_decide_reflect f) as [Hf | Hf]
  end; cbn [orb negb]; split; try reflexivity; try discriminate; tauto.
Qed.

End SchemaValidators.

(** ** Repair engine: provenance of records, exceptions, instructions *)

Section RepairOutcomes.
Import PyStr Schemas LLMTableRepairer Spec Samples.

Variable record : Type.
Variable record_truthy : record -> bool.
Variable json_loads : pystr -> pyresult json.
Variable schema_json : schema -> pystr.
Variable schema_validate : schema -> gmap pystr json -> instantiation record.
Variable client_generate :
  pystr -> prompt -> float -> Z -> pyresult (gmap pystr pystr).

Abbreviation validate_output := (validate_output record json_loads schema_validate).
Abbreviation generate_repair_prompt := (generate_repair_prompt schema_json).
Abbreviation repair_and_normalize :=
  (repair_and_normalize record record_truthy json_loads schema_json
     schema_validate client_generate).

Lemma validated_record_source (llm_output : pystr) (target_schema : schema)
    (r : record) (errors : list repair_error) :
  validate_output llm_output target_schema = Return (Some r, errors) ->
  exists fields : gmap pystr json,
    json_loads (_extract_json_from_markdown llm_output) = Return (JObject fields)
    /\ schema_validate target_schema fields = Validated r.
Proof.
  unfold LLMTableRepairer.validate_output.
  destruct (json_loads (_extract_json_from_markdown llm_output)) as [data | e];
    [| destruct e; discriminate].
  destruct (py_contains (py "error") data) as [has_error | e]; cbn [pybind];
    [| discriminate].
  destruct (if has_error then _ else _) as [[] | e]; cbn [pybind]; [| | discriminate].
  - destruct (py_getitem data (py "error")); discriminate.
  - destruct data as [| | | | | | fields]; cbn [instantiate]; try discriminate.
    destruct (schema_validate target_schema fields) eqn:Hvalid; try discriminate.
    intros [= <- _]. exists fields. auto.
Qed.

(** X10.  A record leaves the repair engine only when the schema accepted
    it: whenever [repair_and_normalize] returns a record, the schema in use
    is the one given or, without one, the one registered for the table number,
    the model service answered the prompt built for that schema, the answer
    with its code fence removed decoded to an object, and validating that
    object against the schema gave this very record. *)
Theorem returned_record_was_validated (self : LLMTableRepairer.t)
    (raw_table table_number vintage : pystr) (target_schema : option schema)
    (r : record) (errors : list repair_error) :
  repair_and_normalize self raw_table table_number vintage target_schema
    = (Some r, errors) ->
  exists (used : schema) (response : gmap pystr pystr) (llm_output : pystr)
         (fields : gmap pystr json),
    (target_schema = Some used
     \/ target_schema = None /\ get_schema_for_table table_number = Some used)
    /\ client_generate (model self)
         (generate_repair_prompt raw_table used (vintage, table_number))
         (temperature self) (timeout self) = Return response
    /\ response !! (py "response") = Some llm_output
    /\ json_loads (_extract_json_from_markdown llm_output) = Return (JObject fields)
    /\ schema_validate used fields = Validated r
    /\ errors = [].
Proof.
  unfold LLMTableRepairer.repair_and_normalize.
  destruct (match target_schema with
            | Some s => Some s
            | None => get_schema_for_table table_number
            end) as [used |] eqn:Hused; [| discriminate].
  destruct (client_generate _ _ _ _) as [response | e] eqn:Hgen; cbn [pybind];
    [| discriminate].
  destruct (response !! (py "response")) as [llm_output |] eqn:Hresp; cbn [pybind];
    [| discriminate].
  destruct (validate_output llm_output used) as [[[r' |] errors'] | e] eqn:Hout;
    cbn [pybind fst snd]; try discriminate.
  destruct (record_truthy r'); [| discriminate].
  intros [= -> <-].
  destruct (validated_record_source _ _ _ _ Hout) as (fields & Hloads & Hvalid).
  exists used, response, llm_output, fields.
  split; [destruct target_schema; [left | right]; auto; congruence |].
  auto.
Qed.

Lemma single_char_lacks_error (s : pystr) :
  contains s (py "error") = true -> (len s =? 1)%Z = false.
Proof.
  destruct s as [| c [| d s]]; [discriminate | |].
  - assert (Hc : prefix (py "error") [c] = false)
      by (vm_compute (py "error"); cbn [prefix]; apply andb_false_r).
    unfold contains. cbn [find_aux]. rewrite Hc.
    change (prefix (py "error") []) with false. discriminate.
  - intros _. apply Z.eqb_neq. unfold len. cbn [length]. lia.
Qed.

(** X11.  [validate_output] raises in two cases only: the decoder raised
    something other than a decoding error, which is passed on; or the reply
    decoded to a scalar other than a string, or to the array holding just
    the string "error", and the test for a lone [error] key raises
    [TypeError].  In every other case it returns. *)
Theorem validate_output_raises_iff (llm_output : pystr) (target_schema : schema)
    (e : pyexn) :
  validate_output llm_output target_schema = Raise e
  <-> (json_loads (_extract_json_from_markdown llm_output) = Raise e
       /\ forall msg : pystr, e <> JSONDecodeError msg)
      \/ (e = TypeError
          /\ exists data : json,
               json_loads (_extract_json_from_markdown llm_output) = Return data
               /\ breaks_error_test data).
Proof.
  unfold LLMTableRepairer.validate_output.
  destruct (json_loads (_extract_json_from_markdown llm_output)) as [data | e'].
  - split.
    + intros H. right.
      destruct data as [| b | n | x | s | items | fields];
        cbn [py_contains py_len py_getitem pybind instantiate] in H.
      1-4: injection H as <-; split; [reflexivity |]; eexists; split;
        [reflexivity | exact I].
      * destruct (contains s (py "error")) eqn:Hs; cbn [pybind] in H.
        -- rewrite (single_char_lacks_error s Hs) in H. discriminate.
        -- discriminate.
      * destruct (existsb (json_is_string (py "error")) items) eqn:Hitems; cbn [pybind] in H.
        -- destruct (Py.len items =? 1)%Z eqn:Hlen; [| discriminate].
           injection H as <-. split; [reflexivity |].
           eexists. split; [reflexivity |]. cbn [breaks_error_test].
           destruct items as [| item [| item' items]];
             [discriminate | | unfold Py.len in Hlen; cbn [length] in Hlen;
                                apply Z.eqb_eq in Hlen; lia].
           cbn [existsb] in Hitems. rewrite orb_false_r in Hitems.
           destruct item; try discriminate. cbn [json_is_string] in Hitems.
           apply eqb_eq in Hitems. now subst.
        -- discriminate.
      * destruct (fields !! (py "error")) as [reason |] eqn:Hreason.
        -- rewrite bool_decide_eq_true_2 in H by (eexists; reflexivity).
           cbn [pybind] in H. destruct (Z.of_nat (size fields) =? 1)%Z; [discriminate |].
           destruct (schema_validate target_schema fields); discriminate.
        -- rewrite bool_decide_eq_false_2 in H by (intros [? [=]]).
           cbn [pybind] in H.
           destruct (schema_validate target_schema fields); discriminate.
    + intros [[H _] | (-> & data' & [= <-] & Hbreaks)]; [discriminate |].
      destruct data as [| b | n | x | s | items | fields];
        cbn [breaks_error_test] in Hbreaks; try contradiction; try reflexivity.
      subst items. reflexivity.
  - split.
    + intros H. left. destruct e'; try (injection H as <-; split;
        [reflexivity | intros msg'; discriminate]). discriminate.
    + intros [[[= ->] Hne] | (_ & data & [=] & _)].
      destruct e as [| | | | decode_msg |]; try reflexivity.
      now destruct (Hne decode_msg).
Qed.

End RepairOutcomes.

Section RepairSampleRuns.
Import PyStr Schemas LLMTableRepairer Spec Samples.

(** The sample services on a reply that carries a [vintage]. *)
Lemma vintage_record_was_validated :
  exists (used : schema) (response : gmap pystr pystr) (llm_output : pystr)
         (fields : gmap pystr json),
    (@None schema = Some used
     \/ @None schema = None /\ get_schema_for_table (py "3.2.2.2") = Some used)
    /\ vintage_client_generate (model sample_repairer)
         (LLMTableRepairer.generate_repair_prompt sample_schema_json
            (py "| Walls | 0.315 |") used ((py "2020"), (py "3.2.2.2")))
         (temperature sample_repairer) (timeout sample_repairer) = Return response
    /\ response !! (py "response") = Some llm_output
    /\ vintage_json_loads (_extract_json_from_markdown llm_output)
       = Return (JObject fields)
    /\ sample_schema_validate used fields
       = Validated ({[ (py "vintage") := JString (py "2020") ]} : gmap pystr json)
    /\ @nil repair_error = [].
Proof.
  apply (returned_record_was_validated (gmap pystr json) (fun _ => true)
           vintage_json_loads sample_schema_json sample_schema_validate
           vintage_client_generate sample_repairer
           (py "| Walls | 0.315 |") (py "3.2.2.2") (py "2020") None).
  vm_compute. reflexivity.
Defined.

End RepairSampleRuns.

(** ** Table-specific instructions and the registry *)

Section Instructions.
Import PyStr Schemas LLMTableRepairer.

(** X12.  The instruction blocks and the schema registry have the same
    keys: a table number gets table-specific instructions exactly when it is
    itself a key of the registry.  The instruction lookup is by the exact
    spelling: a registered number behind a "Table " or "A-" prefix, for which
    the schema lookup still succeeds, gets the default instructions. *)
Theorem instructions_follow_registry :
  (forall table_number : pystr,
      _get_table_specific_instructions table_number <> Instructions_default
      <-> is_Some (SCHEMA_REGISTRY !! table_number))
  /\ (forall (table_number : pystr) (s : schema),
         SCHEMA_REGISTRY !! table_number = Some s ->
         _get_table_specific_instructions ((py "Table ") ++ table_number)
           = Instructions_default
         /\ _get_table_specific_instructions ((py "A-") ++ table_number)
           = Instructions_default).
Proof.
  split.
  - intros table_number. unfold _get_table_specific_instructions. cbv zeta. split.
    + destruct (_ !! table_number) as [i |] eqn:Hi; [intros _ | intros H; now destruct H].
      apply elem_of_list_to_map_2 in Hi.
      repeat (apply elem_of_cons in Hi as [Hi | Hi];
              [ injection Hi as -> ->; eexists; vm_compute; reflexivity | ]).
      apply elem_of_nil in Hi. destruct Hi.
    + intros [s Hs]. apply registry_entries in Hs.
      repeat (apply elem_of_cons in Hs as [Hs | Hs];
              [ injection Hs as -> ->; vm_compute; discriminate | ]).
      apply elem_of_nil in Hs. destruct Hs.
  - intros table_number s Hs. apply registry_entries in Hs.
    repeat (apply elem_of_cons in Hs as [Hs | Hs];
            [ injection Hs as -> ->; split; vm_compute; reflexivity | ]).
    apply elem_of_nil in Hs. destruct Hs.
Qed.

End Instructions.

(** ** Code fences around the model's reply *)

Section CodeFence.
Import PyStr LLMTableRepairer Samples.

Lemma append_cons (d : char) (a b : pystr) : (d :: a) ++ b = d :: (a ++ b).
Proof. reflexivity. Qed.

Lemma append_nil (b : pystr) : [] ++ b = b.
Proof. reflexivity. Qed.

Lemma append_assoc (a b c : pystr) : (a ++ b) ++ c = a ++ (b ++ c).
Proof.
  induction a as [| d a IH]; [reflexivity |]. rewrite !append_cons. now rewrite IH.
Qed.

Lemma length_append (a b : pystr) : length (a ++ b) = (length a + length b)%nat.
Proof.
  induction a as [| d a IH]; [reflexivity |].
  rewrite append_cons. cbn [length]. now rewrite IH.
Qed.

Lemma prefix_empty (s : pystr) : prefix [] s = true.
Proof. now destruct s. Qed.

Lemma prefix_self_append (sub s : pystr) : prefix sub (sub ++ s) = true.
Proof.
  induction sub as [| c sub IH]; [apply prefix_empty |].
  rewrite append_cons. cbn [prefix]. now rewrite N.eqb_refl.
Qed.

Lemma prefix_refl (s : pystr) : prefix s s = true.
Proof.
  induction s as [| c s IH]; [reflexivity |].
  cbn [prefix]. now rewrite N.eqb_refl.
Qed.

Lemma prefix_short (sub s : pystr) :
  (length s < length sub)%nat -> prefix sub s = false.
Proof.
  revert s. induction sub as [| c sub IH]; intros [| d s] Hlen;
    cbn [length] in Hlen; try lia; [reflexivity |].
  cbn [prefix]. rewrite IH by lia. apply andb_false_r.
Qed.

Lemma contains_char_cons (c d : char) (s : pystr) :
  contains (d :: s) [c] = (d =? c)%N || contains s [c].
Proof.
  unfold contains. cbn [find_aux prefix]. rewrite andb_true_r.
  rewrite (N.eqb_sym c d). destruct (d =? c)%N; [reflexivity |].
  cbn [orb]. destruct (find_aux [c] s 1) eqn:H1, (find_aux [c] s 0) eqn:H0;
    try reflexivity.
  - now rewrite (find_aux_offset _ _ _ 1 H0) in H1.
  - now rewrite (find_aux_offset _ _ _ 0 H1) in H0.
Qed.

Lemma prefix_absent (c : char) (sub s : pystr) :
  contains s [c] = false -> prefix (c :: sub) s = false.
Proof.
  destruct s as [| d s]; [reflexivity |].
  rewrite contains_char_cons. intros H. apply orb_false_iff in H as [Hd _].
  cbn [prefix]. now rewrite (N.eqb_sym c d), Hd.
Qed.

(** The first occurrence of a character lies behind a text without it. *)
Lemma find_aux_first_char (c : char) (a rest : pystr) (pos : nat) :
  contains a [c] = false ->
  find_aux [c] (a ++ c :: rest) pos = Some (pos + length a)%nat.
Proof.
  revert pos. induction a as [| d a IH]; intros pos Ha.
  - rewrite append_nil. cbn [find_aux prefix length].
    rewrite N.eqb_refl. f_equal. lia.
  - rewrite contains_char_cons in Ha. apply orb_false_iff in Ha as [Hd Ha].
    rewrite append_cons. cbn [find_aux prefix length].
    rewrite (N.eqb_sym c d), Hd. cbn [andb].
    rewrite (IH (S pos) Ha). f_equal. lia.
Qed.

Lemma rfind_aux_short (sub s : pystr) (pos : nat) (last : option nat) :
  (length s < length sub)%nat -> rfind_aux sub s pos last = last.
Proof.
  revert pos last. induction s as [| d s IH]; intros pos last Hlen;
    cbn [rfind_aux]; rewrite (prefix_short _ _ Hlen); [reflexivity |].
  apply IH. cbn [length] in Hlen. lia.
Qed.

(** The last occurrence of a text in a text that ends with it is that end. *)
Lemma rfind_aux_suffix (sub x : pystr) (pos : nat) (last : option nat) :
  sub <> [] ->
  rfind_aux sub (x ++ sub) pos last = Some (pos + length x)%nat.
Proof.
  intros Hsub. revert pos last. induction x as [| d x IH]; intros pos last.
  - rewrite append_nil. cbn [length]. destruct sub as [| c sub]; [congruence |].
    cbn [rfind_aux]. rewrite (prefix_refl (c :: sub)).
    rewrite rfind_aux_short by (cbn [length]; lia). f_equal. lia.
  - rewrite append_cons. cbn [length rfind_aux]. rewrite IH. f_equal. lia.
Qed.

Lemma rfind_aux_absent (c : char) (sub s : pystr) (pos : nat) (last : option nat) :
  contains s [c] = false -> rfind_aux (c :: sub) s pos last = last.
Proof.
  revert pos last. induction s as [| d s IH]; intros pos last Hs.
  - reflexivity.
  - cbn [rfind_aux]. rewrite (prefix_absent c sub _ Hs).
    rewrite contains_char_cons in Hs. apply orb_false_iff in Hs as [_ Hs].
    now apply IH.
Qed.

Lemma slice_middle (a b c : pystr) :
  firstn (length b) (skipn (length a) (a ++ b ++ c)) = b.
Proof. now rewrite drop_app_length, take_app_length. Qed.

Lemma rstrip_by_append (p : char -> bool) (a b : pystr) :
  rstrip_by p b <> [] -> rstrip_by p (a ++ b) = a ++ rstrip_by p b.
Proof.
  intros Hb. induction a as [| d a IH]; [reflexivity |].
  rewrite !append_cons. cbn [rstrip_by]. rewrite IH.
  destruct (a ++ rstrip_by p b) as [| e r] eqn:Happ; [| reflexivity].
  destruct a; [now destruct Hb | discriminate].
Qed.

Lemma rstrip_by_trailing (p : char -> bool) (s : pystr) (c : char) :
  p c = true -> rstrip_by p (s ++ [c]) = rstrip_by p s.
Proof.
  intros Hc. induction s as [| d s IH].
  - rewrite append_nil. cbn [rstrip_by]. now rewrite Hc.
  - rewrite append_cons. cbn [rstrip_by]. now rewrite IH.
Qed.

Lemma rstrip_by_lacks (p : char -> bool) (c : char) (s : pystr) :
  contains s [c] = false -> contains (rstrip_by p s) [c] = false.
Proof.
  induction s as [| d s IH]; [reflexivity |].
  rewrite contains_char_cons. intros H. apply orb_false_iff in H as [Hd Hs].
  specialize (IH Hs). cbn [rstrip_by].
  destruct (rstrip_by p s) as [| e r].
  - destruct (p d); [reflexivity |]. now rewrite contains_char_cons, Hd.
  - now rewrite contains_char_cons, Hd, IH.
Qed.

Lemma slice_to_zero (s : pystr) (a : Z) : slice s a 0 = [].
Proof.
  unfold slice, clamp_index, len. cbn [Z.ltb Z.compare].
  rewrite (Z.min_l 0) by lia.
  replace (Z.to_nat (0 - _)) with 0%nat; [reflexivity |].
  destruct (Z.ltb_spec a 0); lia.
Qed.

Lemma slice_between (a b c : pystr) :
  slice (a ++ b ++ c) (Z.of_nat (length a))
        (Z.of_nat (length a + length b)) = b.
Proof.
  unfold slice, clamp_index, len. rewrite !length_append.
  replace (Z.of_nat (length a) <? 0)%Z with false by (symmetry; apply Z.ltb_ge; lia).
  replace (Z.of_nat (length a + length b) <? 0)%Z with false
    by (symmetry; apply Z.ltb_ge; lia).
  rewrite !Z.min_l by lia.
  replace (Z.to_nat (_ - _)) with (length b) by lia.
  rewrite Nat2Z.id. apply slice_middle.
Qed.

Lemma find_from_start (s sub : pystr) :
  find s sub 0 = match find_aux sub s 0 with
                 | Some p => Z.of_nat p
                 | None => (-1)%Z
                 end.
Proof.
  unfold find, clamp_index, len, drop. cbn [Z.ltb Z.compare].
  replace (Z.of_nat (length s) <? 0)%Z with false by (symmetry; apply Z.ltb_ge; lia).
  rewrite Z.min_l by lia. reflexivity.
Qed.

Lemma find_aux_prefix (sub s : pystr) (pos : nat) :
  prefix sub s = true -> find_aux sub s pos = Some pos.
Proof. intros H. destruct s; cbn [find_aux]; now rewrite H. Qed.

(** X13.  A reply inside a closed code fence is unwrapped: whatever the
    language tag after the opening fence (any text without a line break) and
    whatever the body, also one that holds backquotes, the text between the
    first line break and the closing fence is returned, trimmed. *)
Theorem closed_fence_unwraps (tag body : pystr) :
  contains tag [newline] = false ->
  _extract_json_from_markdown
    (py "```" ++ tag ++ [newline] ++ body ++ [newline] ++ py "```")
  = strip body.
Proof.
  intros Htag.
  set (fence := py "```").
  assert (Hfence_chars : fence = [chr "`"; chr "`"; chr "`"]) by reflexivity.
  set (a := fence ++ tag).
  set (b := newline :: (body ++ [newline])).
  assert (Htext : fence ++ tag ++ [newline] ++ body ++ [newline] ++ fence
                  = a ++ b ++ fence).
  { unfold a, b. rewrite !append_assoc. cbn [app]. now rewrite append_assoc. }
  rewrite Htext. clear Htext.
  assert (Ha : contains a [newline] = false).
  { unfold a. rewrite Hfence_chars, !append_cons, append_nil.
    now rewrite !contains_char_cons, Htag. }
  assert (Hstrip : strip (a ++ b ++ fence) = a ++ b ++ fence).
  { unfold strip, strip_by. rewrite <- append_assoc.
    rewrite rstrip_by_append by (rewrite Hfence_chars; discriminate).
    replace (rstrip_by isspace fence) with fence by reflexivity.
    unfold a. rewrite Hfence_chars. reflexivity. }
  unfold _extract_json_from_markdown. fold fence. rewrite Hstrip.
  assert (Hfence : prefix fence (a ++ b ++ fence) = true).
  { unfold a. rewrite append_assoc. apply prefix_self_append. }
  unfold startswith. rewrite Hfence.
  replace (find (a ++ b ++ fence) fence 0) with 0%Z
    by (now rewrite find_from_start, (find_aux_prefix _ _ 0 Hfence)).
  assert (Hbreak : find_aux [newline] (a ++ b ++ fence) 0 = Some (length a))
    by exact (find_aux_first_char newline a ((body ++ [newline]) ++ fence) 0 Ha).
  rewrite find_from_start, Hbreak.
  replace (Z.of_nat (length a) =? -1)%Z with false
    by (symmetry; apply Z.eqb_neq; lia).
  assert (Hend : rfind (a ++ b ++ fence) fence
                 = Z.of_nat (length a + length b)).
  { unfold rfind. rewrite <- append_assoc.
    rewrite rfind_aux_suffix by (rewrite Hfence_chars; discriminate).
    now rewrite length_append. }
  rewrite Hend.
  replace (Z.of_nat (length a + length b) =? -1)%Z with false
    by (symmetry; apply Z.eqb_neq; lia).
  rewrite slice_between. unfold b, strip.
  rewrite strip_by_cons. replace (isspace newline) with true by reflexivity.
  unfold strip_by. now rewrite rstrip_by_trailing by reflexivity.
Qed.

(** The fenced rejection of the samples. *)
Lemma fenced_rejection_unwraps :
  _extract_json_from_markdown
    (py "```" ++ py "json" ++ [newline] ++ rejection_object ++ [newline] ++ py "```")
  = strip rejection_object.
Proof.
  apply (closed_fence_unwraps (py "json") rejection_object). reflexivity.
Defined.

(** X14.  A reply that opens a code fence and never closes it is lost: when
    no backquote follows the opening fence, the search for the closing fence
    finds the opening one and the text returned is empty. *)
Theorem unclosed_fence_gives_nothing (rest : pystr) :
  contains rest (py "`") = false ->
  _extract_json_from_markdown (py "```" ++ rest) = [].
Proof.
  change (py "`") with [chr "`"]. intros Hrest.
  set (fence := py "```").
  assert (Hfence_chars : fence = [chr "`"; chr "`"; chr "`"]) by reflexivity.
  assert (Hstrip : strip (fence ++ rest) = fence ++ rstrip_by isspace rest).
  { unfold strip. rewrite Hfence_chars, !append_cons, append_nil.
    rewrite strip_by_cons. replace (isspace (chr "`")) with false by reflexivity.
    now rewrite !rstrip_by_cons by reflexivity. }
  pose proof (rstrip_by_lacks isspace (chr "`") rest Hrest) as Hr.
  unfold _extract_json_from_markdown. fold fence. rewrite Hstrip.
  set (r := rstrip_by isspace rest) in *. clearbody r.
  unfold startswith. rewrite (prefix_self_append fence r).
  assert (Hend : rfind (fence ++ r) fence = 0%Z).
  { unfold rfind. rewrite Hfence_chars. clear Hfence_chars Hstrip.
    generalize dependent (chr "`"). intros bq Hrest Hr.
    assert (H0 : prefix [bq; bq; bq] (bq :: bq :: bq :: r) = true)
      by exact (prefix_self_append [bq; bq; bq] r).
    assert (H1 : prefix [bq; bq; bq] (bq :: bq :: r) = false).
    { cbn [prefix]. rewrite !N.eqb_refl. exact (prefix_absent bq [] r Hr). }
    assert (H2 : prefix [bq; bq; bq] (bq :: r) = false).
    { cbn [prefix]. rewrite !N.eqb_refl. exact (prefix_absent bq [bq] r Hr). }
    cbn [app rfind_aux]. rewrite H0, H1, H2.
    now rewrite rfind_aux_absent by exact Hr. }
  rewrite Hend. cbn [Z.eqb]. rewrite slice_to_zero. reflexivity.
Qed.

(** A reply cut off inside the object. *)
Lemma truncated_reply_gives_nothing :
  _extract_json_from_markdown (py "```" ++ py "json" ++ [newline] ++ py "{") = [].
Proof.
  apply (unclosed_fence_gives_nothing (py "json" ++ [newline] ++ py "{")).
  reflexivity.
Defined.

End CodeFence.

(** ** Table cleaner: shape of the result and choice of the header *)

Section CleanerShape.
Import PyStr NECBPDFParser Spec Samples.

Lemma enumerate_In {A : Type} (l : list A) (idx i : nat) (x : A) :
  In (i, x) (enumerate idx l) -> (idx <= i)%nat /\ nth_error l (i - idx) = Some x.
Proof.
  revert idx. induction l as [| y l IH]; intros idx; [intros [] |].
  cbn [enumerate In]. intros [[= <- <-] | Hin].
  - split; [lia |]. now rewrite Nat.sub_diag.
  - destruct (IH (S idx) Hin) as [Hle Hnth]. split; [lia |].
    replace (i - idx)%nat with (S (i - S idx)) by lia. exact Hnth.
Qed.

Lemma width_nth (w : nat) (df : DataFrame) (i : nat) :
  Forall (fun row => length row = w) df -> (i < length df)%nat ->
  length (nth i df []) = w.
Proof.
  intros Hdf Hi. rewrite List.Forall_forall in Hdf. apply Hdf, nth_In, Hi.
Qed.

(** The backward search keeps the last index it accepts. *)
Lemma last_accepted_from (g : nat -> bool) (l : list nat) (init : option nat) (j : nat) :
  fold_left (fun acc k => if g k then Some k else acc) l init = Some j ->
  init = Some j \/ In j l /\ g j = true.
Proof.
  revert init. induction l as [| k l IH]; intros init; cbn [fold_left]; [now left |].
  intros H. apply IH in H as [H | [Hin Hg]].
  - destruct (g k) eqn:Hk; [injection H as <-; right; split; [now left | exact Hk] | now left].
  - right. split; [now right | exact Hg].
Qed.

Lemma none_accepted (g : nat -> bool) (l : list nat) (init : option nat) :
  (forall k, In k l -> g k = false) ->
  fold_left (fun acc k => if g k then Some k else acc) l init = init.
Proof.
  revert init. induction l as [| k l IH]; intros init Hl; [reflexivity |].
  cbn [fold_left]. rewrite (Hl k) by now left. apply IH. intros; apply Hl; now right.
Qed.

Lemma last_accepted (g : nat -> bool) (a n : nat) (init : option nat) (j : nat) :
  (a <= j < a + n)%nat -> g j = true ->
  (forall k, (j < k < a + n)%nat -> g k = false) ->
  fold_left (fun acc k => if g k then Some k else acc) (seq a n) init = Some j.
Proof.
  revert a init. induction n as [| n IH]; intros a init Hj Hg Hlater; [lia |].
  cbn [seq fold_left]. destruct (Nat.eq_dec j a) as [-> | Hne].
  - rewrite Hg. apply none_accepted. intros k Hk. apply in_seq in Hk.
    apply Hlater. lia.
  - apply IH; [lia | exact Hg |]. intros k Hk. apply Hlater. lia.
Qed.

Lemma first_found (f : list pystr -> bool) (df : DataFrame) (idx first : nat) :
  (first < length df)%nat ->
  f (nth first df []) = true ->
  (forall k, (k < first)%nat -> f (nth k df []) = false) ->
  exists rest,
    List.filter (fun ir => f (snd ir)) (enumerate idx df)
    = (idx + first, nth first df [])%nat :: rest.
Proof.
  revert idx first. induction df as [| row df IH]; intros idx first Hlen Hf Hbefore;
    [cbn [length] in Hlen; lia |].
  cbn [enumerate List.filter snd]. destruct first as [| first].
  - cbn [nth] in Hf |- *. rewrite Hf, Nat.add_0_r. eauto.
  - assert (Hrow0 : f row = false) by (apply (Hbefore 0%nat); lia).
    rewrite Hrow0.
    destruct (IH (S idx) first) as [rest Hrest].
    + cbn [length] in Hlen. lia.
    + exact Hf.
    + intros k Hk. apply (Hbefore (S k)). lia.
    + exists rest. rewrite Hrest. cbn [nth]. do 2 f_equal. lia.
Qed.

(** X15.  The cleaner keeps the width of the grid: on a grid that is not
    empty and whose rows all have [w] cells, the header row it returns has
    [w] cells and so has every data row. *)
Theorem cleaned_table_keeps_width (df : DataFrame) (w : nat) :
  df_empty df = false ->
  Forall (fun row => length row = w) df ->
  length (fst (_clean_table_structure df)) = w
  /\ Forall (fun row => length row = w) (snd (_clean_table_structure df)).
Proof.
  intros Hdf Hw. split.
  - unfold _clean_table_structure. rewrite Hdf.
    destruct (List.filter (fun ir => is_assembly_row (snd ir)) (enumerate 0 df))
      as [| [first row] rest] eqn:Hfound; cbn [map fst snd].
    + unfold strip_row. rewrite length_map.
      destruct df as [| row0 df]; [discriminate |].
      inversion Hw; subst. reflexivity.
    + assert (Hin : In (first, row) (enumerate 0 df))
        by (apply (filter_In (fun ir => is_assembly_row (snd ir))); rewrite Hfound; now left).
      apply enumerate_In in Hin as [_ Hnth]. rewrite Nat.sub_0_r in Hnth.
      assert (Hfirst : (first < length df)%nat)
        by (apply nth_error_Some; congruence).
      assert (Hrow : length row = w).
      { rewrite List.Forall_forall in Hw. apply Hw. eapply nth_error_In, Hnth. }
      destruct (fold_left _ _ None) as [header_idx |] eqn:Hheader.
      * apply last_accepted_from in Hheader as [[=] | [Hin _]].
        apply in_seq in Hin. unfold strip_row. rewrite length_map.
        apply width_nth; [exact Hw | lia].
      * destruct (Nat.ltb_spec 0 first).
        -- unfold strip_row. rewrite length_map. apply width_nth; [exact Hw | lia].
        -- unfold strip_row. now rewrite !length_map, length_seq.
  - rewrite (clean_table_data_rows df Hdf).
    assert (Hmap : forall rows, Forall (fun row => length row = w) rows ->
                                Forall (fun row => length row = w) (map strip_row rows)).
    { intros rows Hrows. apply List.Forall_map. eapply List.Forall_impl; [| exact Hrows].
      intros row Hrow. unfold strip_row. now rewrite length_map. }
    destruct (List.filter is_assembly_row df) as [| row rows] eqn:Hfilter.
    + apply Hmap. destruct df; [constructor | now inversion Hw].
    + apply Hmap. rewrite <- Hfilter. apply List.Forall_forall. intros r Hr.
      apply filter_In in Hr as [Hr _]. rewrite List.Forall_forall in Hw. now apply Hw.
Qed.

(** The envelope grid of the samples has three columns. *)
Lemma envelope_grid_keeps_width :
  length (fst (_clean_table_structure envelope_grid)) = 3%nat
  /\ Forall (fun row => length row = 3%nat) (snd (_clean_table_structure envelope_grid)).
Proof.
  apply (cleaned_table_keeps_width envelope_grid 3); [reflexivity |].
  repeat constructor.
Defined.

(** X16.  The header row is the nearest row above the first data row that
    looks like a header: when a row at most ten rows above the first
    assembly row looks like a header and no row between the two does, the
    cleaner returns that row, trimmed, as the header row. *)
Theorem header_is_nearest_header_row (df : DataFrame) (first header : nat) :
  df_empty df = false ->
  (first < length df)%nat ->
  is_assembly_row (nth first df []) = true ->
  (forall k, (k < first)%nat -> is_assembly_row (nth k df []) = false) ->
  (first - 10 <= header < first)%nat ->
  looks_like_header (nth header df []) = true ->
  (forall k, (header < k < first)%nat -> looks_like_header (nth k df []) = false) ->
  fst (_clean_table_structure df) = strip_row (nth header df []).
Proof.
  intros Hdf Hfirst Hrow Hbefore Hheader Hlooks Hbetween.
  unfold _clean_table_structure. rewrite Hdf.
  destruct (first_found is_assembly_row df 0 first Hfirst Hrow Hbefore) as [rest ->].
  cbn [map fst snd Nat.add].
  rewrite (last_accepted (fun k => looks_like_header (nth k df [])) _ _ None header);
    [reflexivity | lia | exact Hlooks |].
  intros k Hk. apply Hbetween. lia.
Qed.

(** In the envelope grid the header is the row above the walls. *)
Lemma envelope_grid_header :
  fst (_clean_table_structure envelope_grid) = strip_row (nth 1 envelope_grid []).
Proof.
  apply (header_is_nearest_header_row envelope_grid 2 1).
  - reflexivity.
  - cbn. lia.
  - reflexivity.
  - intros [| [| k]] Hk; [reflexivity | reflexivity | lia].
  - lia.
  - reflexivity.
  - intros k Hk. lia.
Defined.

(** X17.  Without a row that looks like a header among the ten rows above
    the first data row, the header row is the row just above the first data
    row, trimmed, whatever it holds. *)
Theorem header_falls_back_to_row_above (df : DataFrame) (first : nat) :
  df_empty df = false ->
  (0 < first < length df)%nat ->
  is_assembly_row (nth first df []) = true ->
  (forall k, (k < first)%nat -> is_assembly_row (nth k df []) = false) ->
  (forall k, (first - 10 <= k < first)%nat -> looks_like_header (nth k df []) = false) ->
  fst (_clean_table_structure df) = strip_row (nth (first - 1) df []).
Proof.
  intros Hdf [Hpos Hfirst] Hrow Hbefore Hnone.
  unfold _clean_table_structure. rewrite Hdf.
  destruct (first_found is_assembly_row df 0 first Hfirst Hrow Hbefore) as [rest ->].
  cbn [map fst snd Nat.add].
  rewrite (none_accepted (fun k => looks_like_header (nth k df []))).
  - now replace (0 <? first)%nat with true by (symmetry; apply Nat.ltb_lt; lia).
  - intros k Hk. apply in_seq in Hk. apply Hnone. lia.
Qed.

(** A grid whose header names no zone. *)
Lemma unzoned_grid_header :
  fst (_clean_table_structure unzoned_grid) = strip_row (nth (1 - 1) unzoned_grid []).
Proof.
  apply (header_falls_back_to_row_above unzoned_grid 1).
  - reflexivity.
  - cbn. lia.
  - reflexivity.
  - intros [| k] Hk; [reflexivity | lia].
  - intros [| k] Hk; [reflexivity | lia].
Defined.

End CleanerShape.

(** ** Metadata extractor and page extractor *)

Section PageExtractor.
Import PyStr NECBPDFParser Spec Samples.

Lemma slice_to_short (s : pystr) (b : Z) : (0 <= b)%Z -> (len (slice_to s b) <= b)%Z.
Proof.
  intros Hb. unfold slice_to, slice, len. rewrite length_take.
  unfold clamp_index. cbn [Z.ltb Z.compare].
  destruct (Z.ltb_spec b 0); lia.
Qed.

(** X18.  The metadata extractor always returns for a table index that is
    not negative, as the indices the page extractor counts are: the
    identifier starts with "Table" and the title has at most 200
    characters. *)
Theorem metadata_is_returned (page_text : pystr) (page_number table_idx : Z) :
  (0 <= table_idx)%Z ->
  exists number title : pystr,
    _extract_table_metadata page_text page_number table_idx = Return (number, title)
    /\ startswith number (py "Table") = true
    /\ (len title <= 200)%Z.
Proof.
  intros Hidx. unfold _extract_table_metadata. cbv zeta.
  destruct (Z.ltb_spec table_idx (Py.len (Re.finditer table_pattern page_text)))
    as [Hlt | Hge].
  - unfold list_getitem.
    replace (table_idx <? 0)%Z with false by (symmetry; apply Z.ltb_ge; lia).
    replace (table_idx <? 0)%Z with false by (symmetry; apply Z.ltb_ge; lia).
    destruct (nth_error (Re.finditer table_pattern page_text) (Z.to_nat table_idx))
      as [match_ |] eqn:Hnth.
    + cbn [pybind]. eexists. eexists. split; [reflexivity |]. split.
      * exact (prefix_self_append (py "Table") ((py " ") ++ _)).
      * match goal with
        | |- context [Re.sub ?r ?repl ?t] => generalize (Re.sub r repl t)
        end.
        intros title. destruct (Z.ltb_spec 200 (len title)); [| lia].
        pose proof (slice_to_short title 197 ltac:(lia)) as Hshort.
        unfold len in *. rewrite length_append.
        change (length (py "...")) with 3%nat. lia.
    + exfalso. apply nth_error_None in Hnth. unfold Py.len in Hlt. lia.
  - eexists. eexists. split; [reflexivity |]. split.
    + exact (prefix_self_append (py "Table") ((py "-") ++ _)).
    + vm_compute. discriminate.
Qed.

(** A page without a table caption. *)
Lemma prose_page_metadata_is_returned :
  exists number title : pystr,
    _extract_table_metadata prose_page 72 0 = Return (number, title)
    /\ startswith number (py "Table") = true
    /\ (len title <= 200)%Z.
Proof.
  apply (metadata_is_returned prose_page 72 0). lia.
Defined.

Lemma sound_stored_table_more (vintage : pystr) (df : DataFrame)
    (frames : list DataFrame) (page_number : Z) (tables : list NECBTable) :
  Forall (sound_stored_table vintage frames page_number) tables ->
  Forall (sound_stored_table vintage (df :: frames) page_number) tables.
Proof.
  apply List.Forall_impl. intros table (Hv & Hp & Hh & Hr & df' & Hin & Hclean).
  repeat (split; [assumption |]). exists df'. split; [now right | exact Hclean].
Qed.

(** X19.  The page extractor only appends: the tables stored before stay
    in front, at most one table is appended per frame, and every appended
    table carries the vintage and the page, has a header row and at least
    one data row, and holds what the cleaner makes of one of the frames. *)
Theorem page_extractor_appends_sound_tables (vintage : pystr)
    (frames : list DataFrame) (page_text : pystr) (page_number : Z)
    (stored : list NECBTable) :
  exists new : list NECBTable,
    _extract_tables_from_page vintage frames page_text page_number stored
    = stored ++ new
    /\ (length new <= length frames)%nat
    /\ Forall (sound_stored_table vintage frames page_number) new.
Proof.
  unfold _extract_tables_from_page. generalize 0%nat as table_idx. revert stored.
  induction frames as [| df frames IH]; intros stored table_idx.
  - exists []. cbn [store_tables]. rewrite app_nil_r.
    repeat split; [cbn [length]; lia | constructor].
  - assert (Hskip : exists new : list NECBTable,
               store_tables vintage page_text page_number (S table_idx) frames stored
               = stored ++ new
               /\ (length new <= length (df :: frames))%nat
               /\ Forall (sound_stored_table vintage (df :: frames) page_number) new).
    { destruct (IH stored (S table_idx)) as (new & Heq & Hlen & Hsound).
      exists new. split; [exact Heq |]. split; [cbn [length]; lia |].
      now apply sound_stored_table_more. }
    cbn [store_tables]. destruct (df_empty df || (Py.len df <? 2)%Z); [exact Hskip |].
    cbv zeta.
    destruct (fst (_clean_table_structure df)) as [| header headers] eqn:Hheaders;
      [exact Hskip |].
    destruct (snd (_clean_table_structure df)) as [| row rows] eqn:Hrows;
      [exact Hskip |].
    destruct (_extract_table_metadata page_text page_number (Z.of_nat table_idx))
      as [[number title] | e].
    + destruct (IH (stored ++ [Build_NECBTable vintage number title (header :: headers)
                                   (row :: rows) page_number])
                  (S table_idx))
        as (new & Heq & Hlen & Hsound).
      eexists (_ :: new). split; [rewrite Heq, <- app_assoc; reflexivity |].
      split; [cbn [length]; lia |].
      constructor; [| now apply sound_stored_table_more].
      unfold sound_stored_table. cbn.
      repeat (split; [first [reflexivity | discriminate] |]).
      exists df. split; [now left |].
      rewrite <- Hheaders, <- Hrows. now destruct (_clean_table_structure df).
    + exists []. rewrite app_nil_r. repeat split; [cbn [length]; lia | constructor].
Qed.

End PageExtractor.

(** ** Separator lines *)

Section SeparatorLines.
Import PyStr PyMuPDFTableExtractor Samples.

Lemma rstrip_by_none (p : char -> bool) (s : pystr) :
  all_chars (fun c => negb (p c)) s = true -> rstrip_by p s = s.
Proof.
  induction s as [| c s IH]; [reflexivity |].
  cbn [all_chars]. intros H. apply andb_prop in H as [Hc Hs].
  apply negb_true_iff in Hc. now rewrite rstrip_by_cons, IH.
Qed.

Lemma strip_by_none (p : char -> bool) (s : pystr) :
  all_chars (fun c => negb (p c)) s = true -> strip_by p s = s.
Proof.
  intros H. unfold strip_by. rewrite (rstrip_by_none p s H).
  destruct s as [| c s]; [reflexivity |].
  cbn [all_chars] in H. apply andb_prop in H as [Hc _].
  apply negb_true_iff in Hc. cbn [lstrip_by]. now rewrite Hc.
Qed.

Lemma separator_cells_cons (n : nat) :
  separator_cells (S n)
  = chr "-" :: chr "-" :: chr "-" :: chr "|" :: separator_cells n.
Proof. reflexivity. Qed.

Lemma separator_cells_no_space (n : nat) :
  all_chars (fun c => negb (isspace c)) (separator_cells n) = true.
Proof.
  induction n as [| n IH]; [reflexivity |].
  rewrite separator_cells_cons. cbn [all_chars]. rewrite IH. reflexivity.
Qed.

(** X20.  The separator test recognises the separator line of a table with
    [n] columns, a pipe followed by [n] cells of dashes each closed by a
    pipe, only for [n] at most 1: the pipes between the cells of a wider
    table are not among the characters a separator may hold. *)
Theorem wide_separator_is_not_recognised (n : nat) :
  _is_separator (separator_line n) = (n <=? 1)%nat.
Proof.
  destruct n as [| [| k]]; [reflexivity | reflexivity |].
  cbn [Nat.leb]. unfold _is_separator. cbv zeta.
  set (rest := separator_cells (S k)).
  assert (Hline : separator_line (S (S k))
                  = [chr "|"; chr "-"; chr "-"; chr "-"; chr "|"] ++ rest)
    by reflexivity.
  assert (Hstrip : strip (separator_line (S (S k))) = separator_line (S (S k))).
  { apply strip_by_none. rewrite Hline. cbn [app all_chars].
    unfold rest. rewrite separator_cells_no_space. reflexivity. }
  assert (Hrest : rstrip_by (char_in (py "|")) rest <> []).
  { unfold rest. rewrite separator_cells_cons.
    now rewrite rstrip_by_cons by reflexivity. }
  rewrite Hstrip, Hline. clearbody rest.
  rewrite startswith_pipe. cbn [app]. rewrite N.eqb_refl. cbn [negb].
  unfold strip_by at 1.
  change (chr "|" :: chr "-" :: chr "-" :: chr "-" :: chr "|" :: rest)
    with ([chr "|"; chr "-"; chr "-"; chr "-"; chr "|"] ++ rest).
  rewrite (rstrip_by_append (char_in (py "|")) _ rest Hrest).
  replace (lstrip_by (char_in (py "|"))
             ([chr "|"; chr "-"; chr "-"; chr "-"; chr "|"]
                ++ rstrip_by (char_in (py "|")) rest))
    with (chr "-" :: chr "-" :: chr "-" :: chr "|" :: rstrip_by (char_in (py "|")) rest)
    by reflexivity.
  unfold strip. rewrite strip_by_cons.
  replace (isspace (chr "-")) with false by reflexivity.
  rewrite !rstrip_by_cons by reflexivity. reflexivity.
Qed.

End SeparatorLines.

(** ** Cells of a cleaned table *)

Section CleanedCells.
Import PyStr NECBPDFParser Spec.

Lemma strip_row_trimmed (row : list pystr) : Forall trimmed (strip_row row).
Proof.
  unfold strip_row. apply List.Forall_map, List.Forall_forall.
  intros cell _. apply strip_idempotent.
Qed.

Lemma digits_no_space (d : Decimal.uint) :
  all_chars (fun c => negb (isspace c))
            (map chr (list_ascii_of_string (NilEmpty.string_of_uint d))) = true.
Proof.
  induction d as [| d IH | d IH | d IH | d IH | d IH | d IH | d IH | d IH | d IH | d IH];
    cbn [NilEmpty.string_of_uint list_ascii_of_string map all_chars];
    [reflexivity | rewrite IH; reflexivity ..].
Qed.

Lemma numeral_no_space (n : Z) :
  all_chars (fun c => negb (isspace c)) (of_int n) = true /\ of_int n <> [].
Proof.
  unfold of_int.
  assert (Huint : forall d : Decimal.uint,
             all_chars (fun c => negb (isspace c))
                       (map chr (list_ascii_of_string (NilZero.string_of_uint d))) = true
             /\ map chr (list_ascii_of_string (NilZero.string_of_uint d)) <> []).
  { intros d. pose proof (digits_no_space d) as Hd.
    destruct d; (split; [first [reflexivity | exact Hd] | discriminate]). }
  destruct (Z.to_int n) as [d | d]; cbn [NilZero.string_of_int].
  - apply Huint.
  - cbn [list_ascii_of_string map all_chars].
    split; [rewrite (proj1 (Huint d)); reflexivity | discriminate].
Qed.

(** A generic column name has nothing to trim. *)
Lemma column_name_trimmed (n : Z) : trimmed (py "Column " ++ of_int n).
Proof.
  destruct (numeral_no_space n) as [Hchars Hne].
  unfold trimmed, strip.
  change (py "Column ") with (chr "C" :: py "olumn ").
  rewrite append_cons, strip_by_cons.
  replace (isspace (chr "C")) with false by reflexivity. f_equal.
  rewrite rstrip_by_append; rewrite (rstrip_by_none isspace _ Hchars);
    [reflexivity | exact Hne].
Qed.

(** X21.  Every cell the cleaner returns, in the header row and in the data
    rows, is trimmed: it neither starts nor ends with white space. *)
Theorem cleaned_cells_are_trimmed (df : DataFrame) :
  Forall trimmed (fst (_clean_table_structure df))
  /\ Forall (Forall trimmed) (snd (_clean_table_structure df)).
Proof.
  assert (Hrows : forall rows : list (list pystr),
             Forall (Forall trimmed) (map strip_row rows)).
  { intros rows. apply List.Forall_map, List.Forall_forall.
    intros row _. apply strip_row_trimmed. }
  unfold _clean_table_structure. destruct (df_empty df); [split; constructor |].
  destruct (List.filter (fun ir => is_assembly_row (snd ir)) (enumerate 0 df))
    as [| [first row] rest]; cbn [map fst snd].
  - split; [apply strip_row_trimmed | apply Hrows].
  - split.
    + destruct (fold_left _ _ None); [apply strip_row_trimmed |].
      destruct (0 <? first)%nat; [apply strip_row_trimmed |].
      apply List.Forall_map, List.Forall_forall. intros i _. apply column_name_trimmed.
    + constructor; [apply strip_row_trimmed |].
      rewrite <- map_map. apply Hrows.
Qed.

End CleanedCells.

(** ** Characters outside ASCII *)

Section WideCharacters.
Import PyStr PyMuPDFTableExtractor Schemas NECBPDFParser.

(** A no-break space, U+00A0, is white space to [strip] and to [\s]; a
    superscript two, U+00B2, is a digit to [isdigit]. *)
Lemma no_break_space_is_trimmed :
  get_schema_for_table (py "3.2.2.2" ++ [160%N]) = Some EnvelopeTable.
Proof. vm_compute. reflexivity. Qed.

Lemma no_break_space_label_is_kept :
  snd (_clean_table_structure
         [ [py "Assembly"; py "U-value"];
           [py "Walls" ++ [160%N]; py "0.315"];
           [py "Roofs"; py "0.193" ++ [178%N]] ])
  = [ [py "Walls"; py "0.315"]; [py "Roofs"; py "0.193" ++ [178%N]] ].
Proof. vm_compute. reflexivity. Qed.

Lemma no_break_space_after_table :
  _extract_table_metadata
    (py "Table" ++ [160%N] ++ py "3.2.2.2. Overall Thermal Transmittance") 73 0
  = Return (py "Table 3.2.2.2.", py "Overall Thermal Transmittance").
Proof. vm_compute. reflexivity. Qed.

Lemma no_break_space_cells_are_empty :
  _calculate_confidence
    [ [124%N; 160%N; 124%N; 160%N; 124%N]; [124%N; 160%N; 124%N; 160%N; 124%N] ] 2
  = 0.6%float.
Proof. vm_compute. reflexivity. Qed.

End WideCharacters.
